(** * homebridge-switchbot: the Fan and Motion accessories

    A shallow embedding of the device state synchronisation code of the
    Fan accessory and of the Motion accessory (motion.ts): status parsing,
    refresh, push (command dispatch), the webhook handlers, the hub
    setters and the timer wiring of the constructors.

    JavaScript values are modelled by [jsval]; the two objects the code
    mutates ([this.Fan] / [this.Battery] / ... and [accessory.context])
    are records; asynchronous methods are computations in a small
    state-and-exception monad whose state also carries the trace of
    outbound effects (HTTP requests, radio commands, hub updates, logs)
    and the answers the transports are going to give. *)

From Stdlib Require Import ZArith List Ascii String Bool Lia DecimalString.
Import ListNotations.
Local Open Scope string_scope.
Local Open Scope list_scope.
Local Open Scope Z_scope.

(** ** JavaScript values *)

Module JS.

(** Numbers: the integers the devices report (percentages, status codes,
    enumeration values) and NaN.  The code performs no arithmetic on
    them, only comparisons. *)
Inductive number :=
| NaN
| Int (z : Z).

Inductive jsval :=
| JUndefined
| JNull
| JBool (b : bool)
| JNumber (n : number)
| JStr (s : string).

Definition JNum (z : Z) : jsval := JNumber (Int z).

Definition number_eqb (a b : number) : bool :=
  match a, b with
  | Int x, Int y => x =? y
  | _, _ => false
  end.

(** [a === b] *)
Definition strict_eq (a b : jsval) : bool :=
  match a, b with
  | JUndefined, JUndefined => true
  | JNull, JNull => true
  | JBool x, JBool y => Bool.eqb x y
  | JNumber x, JNumber y => number_eqb x y
  | JStr x, JStr y => String.eqb x y
  | _, _ => false
  end.

(** [a !== b] *)
Definition strict_neq (a b : jsval) : bool := negb (strict_eq a b).

(** ToBoolean, as used by [if (v)] and [!v]. *)
Definition truthy (v : jsval) : bool :=
  match v with
  | JUndefined | JNull => false
  | JBool b => b
  | JNumber NaN => false
  | JNumber (Int z) => negb (z =? 0)
  | JStr s => negb (String.eqb s "")
  end.

(** Two conversions are left abstract: that of a string to a number,
    which is the one part of [Number(v)] not written out, and the text
    of a number beyond the safe integers ([Number.MAX_SAFE_INTEGER]),
    which is not its decimal digits any more: the shortest digits that
    read back as the same double, in exponent form from 1e21 on. *)
Class Conversions := {
  string_to_number : string -> number;
  number_to_string : Z -> string
}.

(** [Number.MAX_SAFE_INTEGER], 2^53 - 1. *)
Definition MAX_SAFE_INTEGER : Z := 9007199254740991.

(** [Number(v)] *)
Definition Number `{Conversions} (v : jsval) : number :=
  match v with
  | JUndefined => NaN
  | JNull => Int 0
  | JBool true => Int 1
  | JBool false => Int 0
  | JNumber n => n
  | JStr s => string_to_number s
  end.

(** [Number.isNaN(v)]: no conversion, true for the number NaN only. *)
Definition isNaN (v : jsval) : bool :=
  match v with
  | JNumber NaN => true
  | _ => false
  end.

(** [v < k] for a numeric literal [k]: the left operand is converted to a
    number, and the comparison with NaN is false. *)
Definition lt_lit `{Conversions} (v : jsval) (k : Z) : bool :=
  match Number v with
  | Int z => z <? k
  | NaN => false
  end.

(** [`${v}`] and [v.toString()]: a safe integer is printed by its
    decimal digits, a larger one by the text left abstract. *)
Definition ToString `{Conversions} (v : jsval) : string :=
  match v with
  | JUndefined => "undefined"
  | JNull => "null"
  | JBool true => "true"
  | JBool false => "false"
  | JNumber NaN => "NaN"
  | JNumber (Int z) =>
      if Z.abs z <=? MAX_SAFE_INTEGER then NilZero.string_of_int (Z.to_int z)
      else number_to_string z
  | JStr s => s
  end.

(** [a ?? b] *)
Definition nullish (a b : jsval) : jsval :=
  match a with
  | JUndefined | JNull => b
  | _ => a
  end.

End JS.
Export JS.

(** ** Constants of the hub (the values HAP gives these enumerations) *)

Module hap.
Definition ACTIVE := JNum 1.
Definition INACTIVE := JNum 0.
Definition SWING_ENABLED := JNum 1.
Definition SWING_DISABLED := JNum 0.
Definition BATTERY_LEVEL_NORMAL := JNum 0.
Definition BATTERY_LEVEL_LOW := JNum 1.
Definition NOT_CHARGING := JNum 0.
Definition CHARGING := JNum 1.
End hap.

(** ** Payloads, transports and observable effects *)

(** The [body] of a cloud status reply; an absent key reads as
    [JUndefined]. *)
Record statusBody := {
  power : jsval;
  oscillation : jsval;
  fanSpeed : jsval;
  chargingStatus : jsval;
  battery : jsval;
  version : jsval;
  moveDetected : jsval;
  brightness : jsval
}.

(** The parsed JSON of a reply.  [ds_body = None]: the reply has no
    [body], so that reading a key of it throws. *)
Record deviceStatus := {
  ds_statusCode : jsval;
  ds_body : option statusBody
}.

Inductive exn :=
| TypeError
| Rejected (reason : string).

(** What one HTTP exchange yields: the request promise rejects, or it
    resolves with an HTTP status and a body whose [json()] rejects, or
    parses to [null] (reading a property of it throws), or gives an
    object. *)
Inductive json :=
| JsonRejects (e : exn)
| JsonNull
| JsonObject (d : deviceStatus).

Inductive response :=
| Rejects (e : exn)
| Responds (statusCode : jsval) (body : json).

(** The JSON body of a command request. *)
Record bodyChange := {
  command : string;
  parameter : string;
  commandType : string
}.

(** Service data, as [BLEparseStatus] takes it; an absent key reads
    as [JUndefined]. *)
Record serviceData := {
  sd_state : jsval;
  sd_movement : jsval;
  sd_lightLevel : jsval;
  sd_battery : jsval
}.

(** The outcome of the promise chain [discover().then(retryBLE ...)]:
    [discover] rejects; or it resolves with a list that has no device
    at its head, so that [fn] throws at [device_list[0].turnOn] before
    any command leaves, and [retryBLE] rejects; or the command is sent
    and [retryBLE] rejects; or the command is sent and it resolves. *)
Inductive bleOutcome :=
| DiscoverRejects (e : exn)
| NoDevice (e : exn)
| CommandRejects (e : exn)
| CommandResolves.

Inductive bleCommand := turnOn | turnOff.

Inductive level :=
| debug | debugWarn | debugError | debugSuccess | info | warn | error | success.

Module Characteristic.
Inductive t :=
| Active | RotationSpeed | SwingMode
| BatteryLevel | ChargingState | StatusLowBattery
| MotionDetected | CurrentAmbientLightLevel
| HardwareRevision | FirmwareRevision.
End Characteristic.

Inductive hubValue :=
| Val (v : jsval)
| Err (e : exn).

(** Effects visible outside the accessory, in the order they happen.  A
    log entry records its level and the place it is written at, not its
    text. *)
Inductive event :=
| Log (l : level) (site : string)
| StatusCodeLog (code : jsval)
| HttpGetStatus
| HttpPostCommand (b : bodyChange)
| BleStartScan
| BleStopScan
| BleDiscover
| BleSend (c : bleCommand)
| UpdateCharacteristic (c : Characteristic.t) (v : hubValue).

(** Work a method starts without awaiting it, run later by the event
    loop. *)
Inductive task :=
| BLEpushChain (o : bleOutcome)
| BLEscan.

(** The surroundings of one accessory: what it has done so far, what it
    has left for later, and what the transports are going to answer (an
    exhausted list answers by rejecting).  [handlerServiceData] is what
    the expression [switchbot.onadvertisement.serviceData] is going to
    yield at the end of each scan.  The code has just assigned an arrow
    function to [switchbot.onadvertisement], and a function has no
    such property: with an adapter that keeps the handler as it was
    assigned, the expression is [undefined], which is [None] here and
    what an exhausted list gives.  The advertisements themselves reach
    the handler only, which writes them to the debug log. *)
Record World := {
  trace : list event;
  pending : list task;
  responses : list response;
  bleAdapter : bool;
  bleOutcomes : list bleOutcome;
  handlerServiceData : list (option serviceData)
}.

Definition w_emit (e : event) (w : World) : World :=
  {| trace := trace w ++ [e]; pending := pending w;
     responses := responses w; bleAdapter := bleAdapter w;
     bleOutcomes := bleOutcomes w; handlerServiceData := handlerServiceData w |}.

Definition w_spawn (t : task) (w : World) : World :=
  {| trace := trace w; pending := pending w ++ [t];
     responses := responses w; bleAdapter := bleAdapter w;
     bleOutcomes := bleOutcomes w; handlerServiceData := handlerServiceData w |}.

Definition w_next_response (w : World) : response * World :=
  match responses w with
  | [] => (Rejects (Rejected "no response"), w)
  | r :: rs =>
      (r, {| trace := trace w; pending := pending w;
             responses := rs; bleAdapter := bleAdapter w;
             bleOutcomes := bleOutcomes w; handlerServiceData := handlerServiceData w |})
  end.

Definition w_next_bleOutcome (w : World) : bleOutcome * World :=
  match bleOutcomes w with
  | [] => (DiscoverRejects (Rejected "no device"), w)
  | o :: os =>
      (o, {| trace := trace w; pending := pending w;
             responses := responses w; bleAdapter := bleAdapter w;
             bleOutcomes := os; handlerServiceData := handlerServiceData w |})
  end.

Definition w_read_serviceData (w : World) : option serviceData * World :=
  match handlerServiceData w with
  | [] => (None, w)
  | a :: rest =>
      (a, {| trace := trace w; pending := pending w;
             responses := responses w; bleAdapter := bleAdapter w;
             bleOutcomes := bleOutcomes w; handlerServiceData := rest |})
  end.

(** The timers the constructor sets up: the [debounceTime] operator
    holding a signal, the [skipWhile] operator of the refresh interval
    still being in its skipping phase, the one-shot follow-up intervals
    armed by [pushChanges], and how many executions of [refreshStatus]
    have been started by a timer and have not yet settled. *)
Record Timers := {
  debounceArmed : bool;
  skipping : bool;
  followUps : nat;
  refreshing : nat
}.

(** The timers as the constructors leave them. *)
Definition constructedTimers : Timers :=
  {| debounceArmed := false; skipping := true; followUps := 0; refreshing := 0 |}.

(** The static configuration of a device: [this.device.*], the [BLE] and
    [OpenAPI] flags of the base class and whether the platform holds a
    cloud token. *)
Record Config := {
  enableCloudService : bool;
  BLE : bool;
  OpenAPI : bool;
  token : bool;
  connectionType : string;
  offline : bool;
  webhook : bool;
  hide_lightsensor : bool;
  set_minLux : jsval;
  set_maxLux : jsval
}.

(** ** Asynchronous methods as state-and-exception computations *)

Module Eff.

Inductive result (A : Type) :=
| Returns (a : A)
| Throws (e : exn).
Arguments Returns {A} a.
Arguments Throws {A} e.

Section Monad.
Context {S : Type}.

Definition M (A : Type) := S -> result A * S.

Definition ret {A} (a : A) : M A := fun s => (Returns a, s).

Definition bind {A B} (m : M A) (k : A -> M B) : M B :=
  fun s =>
    match m s with
    | (Returns a, s') => k a s'
    | (Throws e, s') => (Throws e, s')
    end.

Definition throw {A} (e : exn) : M A := fun s => (Throws e, s).

(** [try { m } catch (e) { h e }] *)
Definition try_catch (m : M unit) (h : exn -> M unit) : M unit :=
  fun s =>
    match m s with
    | (Returns a, s') => (Returns a, s')
    | (Throws e, s') => h e s'
    end.

(** A call of an async method whose promise is dropped: what it did
    before throwing stays done, the rejection is seen by nobody. *)
Definition unawaited (m : M unit) : M unit :=
  fun s => (Returns tt, snd (m s)).

Definition get : M S := fun s => (Returns s, s).
Definition modify (f : S -> S) : M unit := fun s => (Returns tt, f s).
Definition when (b : bool) (m : M unit) : M unit :=
  if b then m else ret tt.

Definition exec {A} (m : M A) (s : S) : S := snd (m s).
Definition outcome {A} (m : M A) (s : S) : result A := fst (m s).
End Monad.
Arguments M S A : clear implicits.

End Eff.
Export Eff.

Declare Scope eff_scope.
Delimit Scope eff_scope with eff.
Notation "x <- m ;; k" := (bind m (fun x => k))
  (at level 61, m at next level, right associativity) : eff_scope.
Notation "m ;; k" := (bind m (fun _ => k))
  (at level 61, right associativity) : eff_scope.

Local Open Scope eff_scope.

(** [version.replace(/^V|-.*$/g, '')]: a leading [V] goes, and so does
    everything from the first [-] that no line terminator follows. *)
Module Version.

Definition is_line_terminator_at (s : string) : bool :=
  match s with
  | String c r =>
      if Ascii.eqb c "010"%char then true
      else if Ascii.eqb c "013"%char then true
      else match r with
           | String c1 (String c2 _) =>
               Ascii.eqb c "226"%char && Ascii.eqb c1 "128"%char
               && (Ascii.eqb c2 "168"%char || Ascii.eqb c2 "169"%char)
           | _ => false
           end
  | EmptyString => false
  end.

Fixpoint has_line_terminator (s : string) : bool :=
  match s with
  | EmptyString => false
  | String _ r => is_line_terminator_at s || has_line_terminator r
  end.

Fixpoint cut_dash (s : string) : string :=
  match s with
  | EmptyString => EmptyString
  | String c r =>
      if Ascii.eqb c "-"%char && negb (has_line_terminator r) then EmptyString
      else String c (cut_dash r)
  end.

Definition strip (s : string) : string :=
  match s with
  | String c r => if Ascii.eqb c "V"%char then cut_dash r else cut_dash s
  | EmptyString => EmptyString
  end.

End Version.

(** States that carry a [World], which can be read and changed without
    touching the rest; logging, hub updates and the transports are
    written once for both accessories. *)
Class HasWorld (S : Type) := {
  world : S -> World;
  with_world : (World -> World) -> S -> S;
  world_with_world : forall f s, world (with_world f s) = f (world s)
}.

Section Effects.
Context {S : Type} `{HasWorld S}.

Definition emit (e : event) : M S unit := modify (with_world (w_emit e)).

Definition log (l : level) (site : string) : M S unit := emit (Log l site).

(** [this.statusCode(code)] of the base class: reports the code. *)
Definition statusCode (code : jsval) : M S unit := emit (StatusCodeLog code).

Definition updateCharacteristic (c : Characteristic.t) (v : jsval) : M S unit :=
  emit (UpdateCharacteristic c (Val v)).

Definition updateCharacteristicError (c : Characteristic.t) (e : exn) : M S unit :=
  emit (UpdateCharacteristic c (Err e)).

Definition spawn (t : task) : M S unit := modify (with_world (w_spawn t)).

Definition exchange (e : event) : M S (jsval * json) :=
  fun s =>
    let s1 := with_world (w_emit e) s in
    let r := fst (w_next_response (world s1)) in
    let s2 := with_world (fun w => snd (w_next_response w)) s1 in
    match r with
    | Rejects x => (Throws x, s2)
    | Responds c b => (Returns (c, b), s2)
    end.

(** [request(`${Devices}/${deviceId}/commands`, {body, method: 'POST'})] *)
Definition request (b : bodyChange) : M S (jsval * json) :=
  exchange (HttpPostCommand b).

(** [this.platform.retryRequest(..., `${Devices}/${deviceId}/status`)]:
    its retries are inside the platform; the answer is its final one. *)
Definition retryRequest : M S (jsval * json) := exchange HttpGetStatus.

(** [await body.json()] *)
Definition body_json (b : json) : M S (option deviceStatus) :=
  match b with
  | JsonRejects e => throw e
  | JsonNull => ret None
  | JsonObject d => ret (Some d)
  end.

(** [deviceStatus.statusCode] *)
Definition read_statusCode (d : option deviceStatus) : M S jsval :=
  match d with
  | None => throw TypeError
  | Some d => ret (ds_statusCode d)
  end.

(** [deviceStatus.body.<key>] *)
Definition read_body (d : deviceStatus) : M S statusBody :=
  match ds_body d with
  | None => throw TypeError
  | Some b => ret b
  end.

(** [(statusCode === 200 || statusCode === 100)
     && (deviceStatus.statusCode === 200 || deviceStatus.statusCode === 100)] *)
Definition succeeded (statusCode bodyStatusCode : jsval) : bool :=
  (strict_eq statusCode (JNum 200) || strict_eq statusCode (JNum 100))
  && (strict_eq bodyStatusCode (JNum 200) || strict_eq bodyStatusCode (JNum 100)).

Definition connectBLE : M S bool := fun s => (Returns (bleAdapter (world s)), s).

Definition next_bleOutcome : M S bleOutcome :=
  fun s => (Returns (fst (w_next_bleOutcome (world s))),
            with_world (fun w => snd (w_next_bleOutcome w)) s).

Definition read_serviceData : M S (option serviceData) :=
  fun s => (Returns (fst (w_read_serviceData (world s))),
            with_world (fun w => snd (w_read_serviceData w)) s).
End Effects.

(** ** The Fan accessory *)

Module Fan.

(** [this.Fan] *)
Module FanService.
Record t := { Active : jsval; SwingMode : jsval; RotationSpeed : jsval }.
Definition set_Active (v : jsval) (f : t) : t :=
  {| Active := v; SwingMode := SwingMode f; RotationSpeed := RotationSpeed f |}.
Definition set_SwingMode (v : jsval) (f : t) : t :=
  {| Active := Active f; SwingMode := v; RotationSpeed := RotationSpeed f |}.
Definition set_RotationSpeed (v : jsval) (f : t) : t :=
  {| Active := Active f; SwingMode := SwingMode f; RotationSpeed := v |}.
End FanService.

(** [this.Battery] *)
Module BatteryService.
Record t := { BatteryLevel : jsval; StatusLowBattery : jsval; ChargingState : jsval }.
Definition set_BatteryLevel (v : jsval) (b : t) : t :=
  {| BatteryLevel := v; StatusLowBattery := StatusLowBattery b;
     ChargingState := ChargingState b |}.
Definition set_StatusLowBattery (v : jsval) (b : t) : t :=
  {| BatteryLevel := BatteryLevel b; StatusLowBattery := v;
     ChargingState := ChargingState b |}.
Definition set_ChargingState (v : jsval) (b : t) : t :=
  {| BatteryLevel := BatteryLevel b; StatusLowBattery := StatusLowBattery b;
     ChargingState := v |}.
End BatteryService.

(** [this.LightBulb] *)
Module LightBulbService.
Record t := { On : jsval; Brightness : jsval }.
Definition set_On (v : jsval) (l : t) : t := {| On := v; Brightness := Brightness l |}.
Definition set_Brightness (v : jsval) (l : t) : t := {| On := On l; Brightness := v |}.
End LightBulbService.

(** [accessory.context]: the cached values.  (The constructor also stores
    the three service objects themselves in it; the code never reads them
    back from there.) *)
Module Context.
Record t := {
  Active : jsval; RotationSpeed : jsval; SwingMode : jsval;
  BatteryLevel : jsval; ChargingState : jsval; StatusLowBattery : jsval;
  On : jsval; Brightness : jsval;
  version : jsval; deviceVersion : jsval
}.
Definition set_Active (v : jsval) (c : t) : t :=
  {| Active := v; RotationSpeed := RotationSpeed c; SwingMode := SwingMode c;
     BatteryLevel := BatteryLevel c; ChargingState := ChargingState c;
     StatusLowBattery := StatusLowBattery c; On := On c; Brightness := Brightness c;
     version := version c; deviceVersion := deviceVersion c |}.
Definition set_RotationSpeed (v : jsval) (c : t) : t :=
  {| Active := Active c; RotationSpeed := v; SwingMode := SwingMode c;
     BatteryLevel := BatteryLevel c; ChargingState := ChargingState c;
     StatusLowBattery := StatusLowBattery c; On := On c; Brightness := Brightness c;
     version := version c; deviceVersion := deviceVersion c |}.
Definition set_SwingMode (v : jsval) (c : t) : t :=
  {| Active := Active c; RotationSpeed := RotationSpeed c; SwingMode := v;
     BatteryLevel := BatteryLevel c; ChargingState := ChargingState c;
     StatusLowBattery := StatusLowBattery c; On := On c; Brightness := Brightness c;
     version := version c; deviceVersion := deviceVersion c |}.
Definition set_BatteryLevel (v : jsval) (c : t) : t :=
  {| Active := Active c; RotationSpeed := RotationSpeed c; SwingMode := SwingMode c;
     BatteryLevel := v; ChargingState := ChargingState c;
     StatusLowBattery := StatusLowBattery c; On := On c; Brightness := Brightness c;
     version := version c; deviceVersion := deviceVersion c |}.
Definition set_ChargingState (v : jsval) (c : t) : t :=
  {| Active := Active c; RotationSpeed := RotationSpeed c; SwingMode := SwingMode c;
     BatteryLevel := BatteryLevel c; ChargingState := v;
     StatusLowBattery := StatusLowBattery c; On := On c; Brightness := Brightness c;
     version := version c; deviceVersion := deviceVersion c |}.
Definition set_StatusLowBattery (v : jsval) (c : t) : t :=
  {| Active := Active c; RotationSpeed := RotationSpeed c; SwingMode := SwingMode c;
     BatteryLevel := BatteryLevel c; ChargingState := ChargingState c;
     StatusLowBattery := v; On := On c; Brightness := Brightness c;
     version := version c; deviceVersion := deviceVersion c |}.
Definition set_version (v : jsval) (c : t) : t :=
  {| Active := Active c; RotationSpeed := RotationSpeed c; SwingMode := SwingMode c;
     BatteryLevel := BatteryLevel c; ChargingState := ChargingState c;
     StatusLowBattery := StatusLowBattery c; On := On c; Brightness := Brightness c;
     version := v; deviceVersion := deviceVersion c |}.
Definition set_deviceVersion (v : jsval) (c : t) : t :=
  {| Active := Active c; RotationSpeed := RotationSpeed c; SwingMode := SwingMode c;
     BatteryLevel := BatteryLevel c; ChargingState := ChargingState c;
     StatusLowBattery := StatusLowBattery c; On := On c; Brightness := Brightness c;
     version := version c; deviceVersion := v |}.
End Context.

Record state := {
  Fan : FanService.t;
  Battery : BatteryService.t;
  LightBulb : LightBulbService.t;
  context : Context.t;
  fanUpdateInProgress : bool;
  timers : Timers;
  env : World
}.

Definition with_Fan (f : FanService.t -> FanService.t) (s : state) : state :=
  {| Fan := f (Fan s); Battery := Battery s; LightBulb := LightBulb s;
     context := context s; fanUpdateInProgress := fanUpdateInProgress s;
     timers := timers s; env := env s |}.
Definition with_Battery (f : BatteryService.t -> BatteryService.t) (s : state) : state :=
  {| Fan := Fan s; Battery := f (Battery s); LightBulb := LightBulb s;
     context := context s; fanUpdateInProgress := fanUpdateInProgress s;
     timers := timers s; env := env s |}.
Definition with_LightBulb (f : LightBulbService.t -> LightBulbService.t) (s : state) : state :=
  {| Fan := Fan s; Battery := Battery s; LightBulb := f (LightBulb s);
     context := context s; fanUpdateInProgress := fanUpdateInProgress s;
     timers := timers s; env := env s |}.
Definition with_context (f : Context.t -> Context.t) (s : state) : state :=
  {| Fan := Fan s; Battery := Battery s; LightBulb := LightBulb s;
     context := f (context s); fanUpdateInProgress := fanUpdateInProgress s;
     timers := timers s; env := env s |}.
Definition set_fanUpdateInProgress (b : bool) (s : state) : state :=
  {| Fan := Fan s; Battery := Battery s; LightBulb := LightBulb s;
     context := context s; fanUpdateInProgress := b;
     timers := timers s; env := env s |}.
Definition with_timers (f : Timers -> Timers) (s : state) : state :=
  {| Fan := Fan s; Battery := Battery s; LightBulb := LightBulb s;
     context := context s; fanUpdateInProgress := fanUpdateInProgress s;
     timers := f (timers s); env := env s |}.
Definition with_env (f : World -> World) (s : state) : state :=
  {| Fan := Fan s; Battery := Battery s; LightBulb := LightBulb s;
     context := context s; fanUpdateInProgress := fanUpdateInProgress s;
     timers := timers s; env := f (env s) |}.

#[global] Instance state_world : HasWorld state :=
  {| world := env; with_world := with_env;
     world_with_world := fun _ _ => eq_refl |}.

(** The payload of a webhook event; an absent key reads as
    [JUndefined]. *)
Record webhookContext := {
  wh_version : jsval;
  wh_battery : jsval;
  wh_powerState : jsval;
  wh_oscillation : jsval;
  wh_chargingStatus : jsval;
  wh_fanSpeed : jsval
}.

Section Methods.
Context `{Conversions}.
Variable device : Config.

Definition BLEparseStatus (serviceData : option serviceData) : M state unit :=
  log debug "BLEparseStatus" ;;
  match serviceData with
  | None => throw TypeError
  | Some sd =>
      (if strict_eq (sd_state sd) (JStr "on")
       then modify (with_Fan (FanService.set_Active (JBool true)))
       else modify (with_Fan (FanService.set_Active (JBool false)))) ;;
      log debug "BLEparseStatus On"
  end.

Definition openAPIparseStatus (deviceStatus : deviceStatus) : M state unit :=
  log debug "openAPIparseStatus" ;;
  (* Active *)
  body <- read_body deviceStatus ;;
  modify (with_Fan (FanService.set_Active
    (if strict_eq (power body) (JStr "on") then hap.ACTIVE else hap.INACTIVE))) ;;
  log debug "openAPIparseStatus Active" ;;
  (* SwingMode *)
  modify (with_Fan (FanService.set_SwingMode
    (if strict_eq (oscillation body) (JStr "on")
     then hap.SWING_ENABLED else hap.SWING_DISABLED))) ;;
  (* RotationSpeed *)
  modify (with_Fan (FanService.set_RotationSpeed (fanSpeed body))) ;;
  (* ChargingState *)
  modify (with_Battery (BatteryService.set_ChargingState
    (if strict_eq (chargingStatus body) (JStr "charging")
     then hap.CHARGING else hap.NOT_CHARGING))) ;;
  (* BatteryLevel *)
  modify (with_Battery (BatteryService.set_BatteryLevel (JNumber (Number (battery body))))) ;;
  s <- get ;;
  (if lt_lit (BatteryService.BatteryLevel (Battery s)) 10
   then modify (with_Battery (BatteryService.set_StatusLowBattery hap.BATTERY_LEVEL_LOW))
   else modify (with_Battery (BatteryService.set_StatusLowBattery hap.BATTERY_LEVEL_NORMAL))) ;;
  s <- get ;;
  when (isNaN (BatteryService.BatteryLevel (Battery s)))
    (modify (with_Battery (BatteryService.set_BatteryLevel (JNum 100)))) ;;
  log debug "openAPIparseStatus BatteryLevel" ;;
  (* Firmware Version *)
  log debug "openAPIparseStatus Firmware Version" ;;
  when (truthy (version body))
    (let deviceVersion := JStr (Version.strip (ToString (version body))) in
     updateCharacteristic Characteristic.HardwareRevision deviceVersion ;;
     updateCharacteristic Characteristic.FirmwareRevision deviceVersion ;;
     updateCharacteristic Characteristic.FirmwareRevision deviceVersion ;;
     modify (with_context (Context.set_deviceVersion deviceVersion)) ;;
     log debugSuccess "openAPIparseStatus deviceVersion").

(** One block of [updateHomeKitCharacteristics]: a value that is
    [undefined] is only logged, any other is cached in the context and
    given to the hub. *)
Definition updateOne (name : string) (c : Characteristic.t) (value : jsval)
    (cache : jsval -> Context.t -> Context.t) : M state unit :=
  if strict_eq value JUndefined then log debug name
  else
    modify (with_context (cache value)) ;;
    updateCharacteristic c value ;;
    log debug (String.append "updateCharacteristic " name).

Definition updateHomeKitCharacteristics : M state unit :=
  s <- get ;;
  updateOne "Active" Characteristic.Active
    (FanService.Active (Fan s)) Context.set_Active ;;
  updateOne "RotationSpeed" Characteristic.RotationSpeed
    (FanService.RotationSpeed (Fan s)) Context.set_RotationSpeed ;;
  updateOne "SwingMode" Characteristic.SwingMode
    (FanService.SwingMode (Fan s)) Context.set_SwingMode ;;
  updateOne "BatteryLevel" Characteristic.BatteryLevel
    (BatteryService.BatteryLevel (Battery s)) Context.set_BatteryLevel ;;
  updateOne "ChargingState" Characteristic.ChargingState
    (BatteryService.ChargingState (Battery s)) Context.set_ChargingState ;;
  updateOne "StatusLowBattery" Characteristic.StatusLowBattery
    (BatteryService.StatusLowBattery (Battery s)) Context.set_StatusLowBattery.

Definition apiError (e : exn) : M state unit :=
  updateCharacteristicError Characteristic.Active e ;;
  updateCharacteristicError Characteristic.RotationSpeed e ;;
  updateCharacteristicError Characteristic.SwingMode e.

Definition offlineOff : M state unit :=
  when (offline device)
    (updateCharacteristic Characteristic.Active hap.INACTIVE ;;
     updateCharacteristic Characteristic.RotationSpeed (JNum 0) ;;
     updateCharacteristic Characteristic.SwingMode hap.SWING_DISABLED).

Definition openAPIRefreshStatus : M state unit :=
  log debug "openAPIRefreshStatus" ;;
  try_catch
    (r <- retryRequest ;;
     let statusCode_ := fst r in
     log debugWarn "openAPIRefreshStatus statusCode" ;;
     deviceStatus <- body_json (snd r) ;;
     log debugWarn "openAPIRefreshStatus deviceStatus" ;;
     bodyStatusCode <- read_statusCode deviceStatus ;;
     log debugWarn "openAPIRefreshStatus deviceStatus statusCode" ;;
     if succeeded statusCode_ bodyStatusCode then
       log debugSuccess "openAPIRefreshStatus" ;;
       match deviceStatus with
       | Some d => unawaited (openAPIparseStatus d)
       | None => ret tt
       end ;;
       unawaited updateHomeKitCharacteristics
     else
       statusCode statusCode_ ;;
       statusCode bodyStatusCode)
    (fun e =>
       unawaited (apiError e) ;;
       log error "failed openAPIRefreshStatus").

Definition BLERefreshConnection : M state unit :=
  log error "wasn't able to establish BLE Connection" ;;
  when (token device && String.eqb (connectionType device) "BLE/OpenAPI")
    (log warn "Using OpenAPI Connection to Refresh Status" ;;
     openAPIRefreshStatus).

(** The part of the scan that runs after [startScan] has been awaited:
    wait, stop the scan, parse what
    [switchbot.onadvertisement.serviceData] yields, update the hub. *)
Definition BLEscanned : M state unit :=
  emit BleStopScan ;;
  sd <- read_serviceData ;;
  BLEparseStatus sd ;;
  updateHomeKitCharacteristics.

Definition BLERefreshStatus : M state unit :=
  log debug "BLERefreshStatus" ;;
  switchbot <- connectBLE ;;
  log debug "BLE Address" ;;
  (* the scan is started and left to run on its own *)
  (if switchbot then
     emit BleStartScan ;;
     spawn BLEscan
   else ret tt) ;;
  when (negb switchbot) BLERefreshConnection.

Definition refreshStatus : M state unit :=
  if negb (enableCloudService device) && OpenAPI device then
    log error "refreshStatus enableCloudService"
  else if BLE device then
    BLERefreshStatus
  else if OpenAPI device && token device then
    openAPIRefreshStatus
  else
    offlineOff ;;
    log debugWarn "refreshStatus will not happen".

(** The handler [registerWebhook] stores for the device.  [None] is a
    payload that cannot be destructured ([null] or [undefined]). *)
Definition webhookEventHandler (context_ : option webhookContext) : M state unit :=
  try_catch
    (log debug "received Webhook" ;;
     match context_ with
     | None => throw TypeError
     | Some c =>
         log debug "Webhook current" ;;
         (* Active *)
         modify (with_Fan (FanService.set_Active
           (if strict_eq (wh_powerState c) (JStr "ON") then hap.ACTIVE else hap.INACTIVE))) ;;
         (* SwingMode *)
         modify (with_Fan (FanService.set_SwingMode
           (if strict_eq (wh_oscillation c) (JStr "on")
            then hap.SWING_ENABLED else hap.SWING_DISABLED))) ;;
         (* RotationSpeed *)
         modify (with_Fan (FanService.set_RotationSpeed (wh_fanSpeed c))) ;;
         (* ChargingState *)
         modify (with_Battery (BatteryService.set_ChargingState
           (if strict_eq (wh_chargingStatus c) (JStr "charging")
            then hap.CHARGING else hap.NOT_CHARGING))) ;;
         (* BatteryLevel *)
         modify (with_Battery (BatteryService.set_BatteryLevel (wh_battery c))) ;;
         (* Firmware Version *)
         when (truthy (wh_version c))
           (modify (with_context (Context.set_version (wh_version c))) ;;
            updateCharacteristic Characteristic.FirmwareRevision (wh_version c) ;;
            updateCharacteristic Characteristic.FirmwareRevision (wh_version c)) ;;
         unawaited updateHomeKitCharacteristics
     end)
    (fun e => log error "failed to handle webhook").

(** [registerWebhook] installs the handler when the device asks for
    webhooks; [deliver] is the platform calling the installed handler. *)
Definition registerWebhook : M state unit :=
  if webhook device then log debug "is listening webhook"
  else log debug "is not listening webhook".

Definition deliver (context_ : option webhookContext) : M state unit :=
  if webhook device then webhookEventHandler context_ else ret tt.

(** The request block that [openAPIpushChanges],
    [pushRotationSpeedChanges] and [pushSwingModeChanges] each contain,
    the same but for the body sent and the name in the error log. *)
Definition postCommand (site : string) (bodyChange : bodyChange) : M state unit :=
  log debug "Sending request to SwitchBot API" ;;
  try_catch
    (r <- request bodyChange ;;
     let statusCode_ := fst r in
     log debugWarn "statusCode" ;;
     deviceStatus <- body_json (snd r) ;;
     log debugWarn "deviceStatus" ;;
     bodyStatusCode <- read_statusCode deviceStatus ;;
     log debugWarn "deviceStatus body" ;;
     log debugWarn "deviceStatus statusCode" ;;
     if succeeded statusCode_ bodyStatusCode then
       log debugError "statusCode & deviceStatus StatusCode" ;;
       log success "sent successfully"
     else
       statusCode statusCode_ ;;
       statusCode bodyStatusCode)
    (fun e =>
       unawaited (apiError e) ;;
       log error site).

Definition pushRotationSpeedChanges : M state unit :=
  log debug "pushRotationSpeedChanges" ;;
  s <- get ;;
  if strict_neq (FanService.SwingMode (Fan s)) (Context.SwingMode (context s)) then
    postCommand "failed pushRotationSpeedChanges"
      {| command := "setWindSpeed";
         parameter := ToString (FanService.RotationSpeed (Fan s));
         commandType := "command" |}
  else
    log debug "No Changes, pushRotationSpeedChanges".

Definition pushSwingModeChanges : M state unit :=
  log debug "pushSwingModeChanges" ;;
  s <- get ;;
  if strict_neq (FanService.SwingMode (Fan s)) (Context.SwingMode (context s)) then
    let parameter_ :=
      if strict_eq (FanService.SwingMode (Fan s)) hap.SWING_ENABLED then "on" else "off" in
    postCommand "failed pushSwingModeChanges"
      {| command := "setOscillation"; parameter := parameter_;
         commandType := "command" |}
  else
    log debug "No Changes, SwingMode".

Definition openAPIpushChanges : M state unit :=
  log debug "openAPIpushChanges" ;;
  s <- get ;;
  (if strict_neq (FanService.Active (Fan s)) (Context.Active (context s)) then
     let command_ := if truthy (FanService.Active (Fan s)) then "turnOn" else "turnOff" in
     postCommand "failed openAPIpushChanges"
       {| command := command_; parameter := "default"; commandType := "command" |}
   else
     log debug "No openAPIpushChanges") ;;
  (* Push RotationSpeed Update *)
  s <- get ;;
  when (truthy (FanService.Active (Fan s))) pushRotationSpeedChanges ;;
  (* Push SwingMode Update *)
  s <- get ;;
  when (truthy (FanService.Active (Fan s))) pushSwingModeChanges.

Definition BLEPushConnection : M state unit :=
  when (token device && String.eqb (connectionType device) "BLE/OpenAPI")
    (log warn "Using OpenAPI Connection to Push Changes" ;;
     openAPIpushChanges).

(** [fn] of the retried radio command. *)
Definition BLEsend : M state unit :=
  s <- get ;;
  if truthy (FanService.Active (Fan s)) then emit (BleSend turnOn)
  else emit (BleSend turnOff).

Definition BLEpushFailed (e : exn) : M state unit :=
  unawaited (apiError e) ;;
  log error "failed BLEpushChanges" ;;
  BLEPushConnection.

(** The promise chain [discover().then(...).then(...).catch(...)] that
    [BLEpushChanges] starts and does not await.  The command is written
    to the trace once, whatever the number of attempts the base class's
    [retryBLE] makes, and not at all when [fn] throws before it calls
    the device. *)
Definition BLEpushChained (o : bleOutcome) : M state unit :=
  match o with
  | DiscoverRejects e => BLEpushFailed e
  | NoDevice e =>
      log info "BLEpushChanges On" ;;
      BLEpushFailed e
  | CommandRejects e =>
      log info "BLEpushChanges On" ;;
      BLEsend ;;
      BLEpushFailed e
  | CommandResolves =>
      log info "BLEpushChanges On" ;;
      BLEsend ;;
      log debug "Done." ;;
      log success "Active sent over BLE, sent successfully" ;;
      modify (with_Fan (FanService.set_Active (JBool false)))
  end.

Definition BLEpushChanges : M state unit :=
  log debug "BLEpushChanges" ;;
  s <- get ;;
  if strict_neq (FanService.Active (Fan s)) (Context.Active (context s)) then
    log debug "BLEpushChanges On OnCached" ;;
    switchbot <- connectBLE ;;
    log debug "BLE Address" ;;
    if switchbot then
      emit BleDiscover ;;
      o <- next_bleOutcome ;;
      spawn (BLEpushChain o)
    else throw TypeError
  else
    log debug "No BLEpushChanges".

Definition armFollowUp (t : Timers) : Timers :=
  {| debounceArmed := debounceArmed t; skipping := skipping t;
     followUps := S (followUps t); refreshing := refreshing t |}.

Definition pushChanges : M state unit :=
  (if negb (enableCloudService device) && OpenAPI device then
     log error "pushChanges enableCloudService"
   else if BLE device then
     BLEpushChanges
   else if OpenAPI device && token device then
     openAPIpushChanges
   else
     offlineOff ;;
     log debugWarn "pushChanges will not happen") ;;
  (* Refresh the status from the API *)
  modify (with_timers armFollowUp).

(** [this.doFanUpdate.next()]: the [tap] raises the flag, and
    [debounceTime] holds the signal, restarting its timer. *)
Definition armDebounce (t : Timers) : Timers :=
  {| debounceArmed := true; skipping := skipping t;
     followUps := followUps t; refreshing := refreshing t |}.

Definition doFanUpdate_next : M state unit :=
  modify (set_fanUpdateInProgress true) ;;
  modify (with_timers armDebounce).

Definition ActiveSet (value : jsval) : M state unit :=
  s <- get ;;
  (if strict_eq (FanService.Active (Fan s)) (Context.Active (context s))
   then log debug "No Changes, Set Active"
   else log info "Set Active") ;;
  modify (with_Fan (FanService.set_Active value)) ;;
  doFanUpdate_next.

Definition RotationSpeedSet (value : jsval) : M state unit :=
  s <- get ;;
  (if strict_eq (FanService.RotationSpeed (Fan s)) (Context.RotationSpeed (context s))
   then log debug "No Changes, Set RotationSpeed"
   else log info "Set RotationSpeed") ;;
  modify (with_Fan (FanService.set_RotationSpeed value)) ;;
  doFanUpdate_next.

Definition SwingModeSet (value : jsval) : M state unit :=
  s <- get ;;
  (if strict_eq (FanService.SwingMode (Fan s)) (Context.SwingMode (context s))
   then log debug "No Changes, Set SwingMode"
   else log info "Set SwingMode") ;;
  modify (with_Fan (FanService.set_SwingMode value)) ;;
  doFanUpdate_next.

Definition OnSet (value : jsval) : M state unit :=
  s <- get ;;
  (if strict_eq (LightBulbService.On (LightBulb s)) (Context.On (context s))
   then log debug "No Changes, Set On"
   else log info "Set On") ;;
  modify (with_LightBulb (LightBulbService.set_On value)) ;;
  doFanUpdate_next.

Definition BrightnessSet (value : jsval) : M state unit :=
  s <- get ;;
  (if strict_eq (LightBulbService.Brightness (LightBulb s)) (Context.Brightness (context s))
   then log debug "No Changes, Set Brightness"
   else if truthy (LightBulbService.On (LightBulb s))
   then log info "Set Brightness"
   else log debug "Set Brightness") ;;
  modify (with_LightBulb (LightBulbService.set_Brightness value)) ;;
  doFanUpdate_next.

(** *** The subscriptions of the constructor *)

(** The subscriber of the debounced [doFanUpdate]. *)
Definition onFanUpdate : M state unit :=
  try_catch pushChanges
    (fun e =>
       unawaited (apiError e) ;;
       log error "failed pushChanges") ;;
  modify (set_fanUpdateInProgress false).

Definition disarmDebounce (t : Timers) : Timers :=
  {| debounceArmed := false; skipping := skipping t;
     followUps := followUps t; refreshing := refreshing t |}.

(** A tick of [interval(...)] that [skipWhile] lets through starts one
    execution of [refreshStatus]; from then on [skipWhile] lets
    everything through. *)
Definition startRefresh (t : Timers) : Timers :=
  {| debounceArmed := debounceArmed t; skipping := false;
     followUps := followUps t; refreshing := S (refreshing t) |}.

Definition startFollowUp (t : Timers) : Timers :=
  {| debounceArmed := debounceArmed t; skipping := skipping t;
     followUps := pred (followUps t); refreshing := S (refreshing t) |}.

Definition settleRefresh (t : Timers) : Timers :=
  {| debounceArmed := debounceArmed t; skipping := skipping t;
     followUps := followUps t; refreshing := pred (refreshing t) |}.

Definition runTask (t : task) : M state unit :=
  match t with
  | BLEpushChain o => unawaited (BLEpushChained o)
  | BLEscan => unawaited BLEscanned
  end.

Definition takeTask : M state (option task) :=
  fun s =>
    match pending (env s) with
    | [] => (Returns None, s)
    | t :: ts =>
        (Returns (Some t),
         with_env (fun w =>
           {| trace := trace w; pending := ts; responses := responses w;
              bleAdapter := bleAdapter w; bleOutcomes := bleOutcomes w;
              handlerServiceData := handlerServiceData w |}) s)
    end.

(** The characteristics the constructor gives an [onSet] handler. *)
Inductive setter := onActive | onRotationSpeed | onSwingMode | onOn | onBrightness.

(** What can happen to the accessory: the hub calls a setter, a timer
    fires, an execution of [refreshStatus] started earlier gets its
    answer, the platform delivers a webhook event, or the event loop
    runs work that was left to run on its own. *)
Inductive input :=
| HubSet (c : setter) (value : jsval)
| DebounceElapsed
| IntervalTick
| FollowUpTick
| RefreshSettles
| WebhookEvent (context_ : option webhookContext)
| RunTask.

Definition hubSet (c : setter) (value : jsval) : M state unit :=
  match c with
  | onActive => ActiveSet value
  | onRotationSpeed => RotationSpeedSet value
  | onSwingMode => SwingModeSet value
  | onOn => OnSet value
  | onBrightness => BrightnessSet value
  end.

(** One input at a time, as the event loop runs one callback at a time.
    The operators of the subscriptions behave as rxjs defines them:
    [debounceTime] restarts its timer at every signal and emits once when
    it elapses; [skipWhile] drops ticks until it has let one through and
    none afterwards; [take(1)] ends a follow-up after the first tick let
    through.  An execution of [refreshStatus] is started by a tick and
    does its work when it settles, so that several can be under way.

    The push subscriber runs in one step when the debounce timer
    elapses: a run is a schedule in which no other callback is served
    between that moment and the subscriber lowering the flag.  The
    subscriber awaits [pushChanges], which over the cloud awaits its
    requests, so the event loop can also serve a setter in between: its
    value is then read by the rest of the cycle under way, and its flag
    is lowered by that cycle while its own debounce timer is still
    running.  Such schedules are not runs of [step]. *)
Definition step (i : input) : M state unit :=
  match i with
  | HubSet c value => hubSet c value
  | DebounceElapsed =>
      s <- get ;;
      when (debounceArmed (timers s))
        (modify (with_timers disarmDebounce) ;;
         onFanUpdate)
  | IntervalTick =>
      s <- get ;;
      if skipping (timers s) && fanUpdateInProgress s then ret tt
      else modify (with_timers startRefresh)
  | FollowUpTick =>
      s <- get ;;
      match followUps (timers s) with
      | O => ret tt
      | S _ =>
          if fanUpdateInProgress s then ret tt
          else modify (with_timers startFollowUp)
      end
  | RefreshSettles =>
      s <- get ;;
      match refreshing (timers s) with
      | O => ret tt
      | S _ =>
          modify (with_timers settleRefresh) ;;
          unawaited refreshStatus
      end
  | WebhookEvent context_ => deliver context_
  | RunTask =>
      t <- takeTask ;;
      match t with
      | Some t => runTask t
      | None => ret tt
      end
  end.

Definition run (inputs : list input) (s : state) : state :=
  fold_left (fun s i => exec (step i) s) inputs s.

End Methods.
End Fan.

(** ** The Motion accessory (motion.ts) *)

Module Motion.

(** [this.MotionSensor] *)
Module MotionSensorService.
Record t := { MotionDetected : jsval }.
End MotionSensorService.

(** [this.Battery] *)
Module BatteryService.
Record t := { BatteryLevel : jsval; StatusLowBattery : jsval }.
Definition set_BatteryLevel (v : jsval) (b : t) : t :=
  {| BatteryLevel := v; StatusLowBattery := StatusLowBattery b |}.
Definition set_StatusLowBattery (v : jsval) (b : t) : t :=
  {| BatteryLevel := BatteryLevel b; StatusLowBattery := v |}.
End BatteryService.

(** [this.LightSensor], present unless the light sensor is hidden *)
Module LightSensorService.
Record t := { CurrentAmbientLightLevel : jsval }.
End LightSensorService.

(** [accessory.context] *)
Module Context.
Record t := {
  MotionDetected : jsval;
  BatteryLevel : jsval;
  StatusLowBattery : jsval;
  CurrentAmbientLightLevel : jsval;
  deviceVersion : jsval
}.
Definition set_MotionDetected (v : jsval) (c : t) : t :=
  {| MotionDetected := v; BatteryLevel := BatteryLevel c;
     StatusLowBattery := StatusLowBattery c;
     CurrentAmbientLightLevel := CurrentAmbientLightLevel c;
     deviceVersion := deviceVersion c |}.
Definition set_BatteryLevel (v : jsval) (c : t) : t :=
  {| MotionDetected := MotionDetected c; BatteryLevel := v;
     StatusLowBattery := StatusLowBattery c;
     CurrentAmbientLightLevel := CurrentAmbientLightLevel c;
     deviceVersion := deviceVersion c |}.
Definition set_StatusLowBattery (v : jsval) (c : t) : t :=
  {| MotionDetected := MotionDetected c; BatteryLevel := BatteryLevel c;
     StatusLowBattery := v;
     CurrentAmbientLightLevel := CurrentAmbientLightLevel c;
     deviceVersion := deviceVersion c |}.
Definition set_CurrentAmbientLightLevel (v : jsval) (c : t) : t :=
  {| MotionDetected := MotionDetected c; BatteryLevel := BatteryLevel c;
     StatusLowBattery := StatusLowBattery c;
     CurrentAmbientLightLevel := v;
     deviceVersion := deviceVersion c |}.
Definition set_deviceVersion (v : jsval) (c : t) : t :=
  {| MotionDetected := MotionDetected c; BatteryLevel := BatteryLevel c;
     StatusLowBattery := StatusLowBattery c;
     CurrentAmbientLightLevel := CurrentAmbientLightLevel c;
     deviceVersion := v |}.
End Context.

Record state := {
  MotionSensor : MotionSensorService.t;
  Battery : BatteryService.t;
  LightSensor : option LightSensorService.t;
  context : Context.t;
  motionUbpdateInProgress : bool;
  timers : Timers;
  env : World
}.

Definition set_MotionSensor (m : MotionSensorService.t) (s : state) : state :=
  {| MotionSensor := m; Battery := Battery s; LightSensor := LightSensor s;
     context := context s; motionUbpdateInProgress := motionUbpdateInProgress s;
     timers := timers s; env := env s |}.
Definition with_Battery (f : BatteryService.t -> BatteryService.t) (s : state) : state :=
  {| MotionSensor := MotionSensor s; Battery := f (Battery s); LightSensor := LightSensor s;
     context := context s; motionUbpdateInProgress := motionUbpdateInProgress s;
     timers := timers s; env := env s |}.
Definition set_LightSensor (l : option LightSensorService.t) (s : state) : state :=
  {| MotionSensor := MotionSensor s; Battery := Battery s; LightSensor := l;
     context := context s; motionUbpdateInProgress := motionUbpdateInProgress s;
     timers := timers s; env := env s |}.
Definition with_context (f : Context.t -> Context.t) (s : state) : state :=
  {| MotionSensor := MotionSensor s; Battery := Battery s; LightSensor := LightSensor s;
     context := f (context s); motionUbpdateInProgress := motionUbpdateInProgress s;
     timers := timers s; env := env s |}.
Definition with_timers (f : Timers -> Timers) (s : state) : state :=
  {| MotionSensor := MotionSensor s; Battery := Battery s; LightSensor := LightSensor s;
     context := context s; motionUbpdateInProgress := motionUbpdateInProgress s;
     timers := f (timers s); env := env s |}.
Definition with_env (f : World -> World) (s : state) : state :=
  {| MotionSensor := MotionSensor s; Battery := Battery s; LightSensor := LightSensor s;
     context := context s; motionUbpdateInProgress := motionUbpdateInProgress s;
     timers := timers s; env := f (env s) |}.

#[global] Instance state_world : HasWorld state :=
  {| world := env; with_world := with_env;
     world_with_world := fun _ _ => eq_refl |}.

Record webhookContext := { wh_detectionState : jsval }.

Section Methods.
Context `{Conversions}.
Variable device : Config.

(** [this.LightSensor!.CurrentAmbientLightLevel = v] *)
Definition assign_CurrentAmbientLightLevel (v : jsval) : M state unit :=
  s <- get ;;
  match LightSensor s with
  | None => throw TypeError
  | Some _ =>
      modify (set_LightSensor (Some {| LightSensorService.CurrentAmbientLightLevel := v |}))
  end.

(** [this.LightSensor!.CurrentAmbientLightLevel] *)
Definition read_CurrentAmbientLightLevel : M state jsval :=
  s <- get ;;
  match LightSensor s with
  | None => throw TypeError
  | Some l => ret (LightSensorService.CurrentAmbientLightLevel l)
  end.

Definition BLEparseStatus (serviceData : option serviceData) : M state unit :=
  log debug "BLEparseStatus" ;;
  match serviceData with
  | None => throw TypeError
  | Some sd =>
      (* Movement *)
      modify (set_MotionSensor {| MotionSensorService.MotionDetected := sd_movement sd |}) ;;
      log debug "BLEparseStatus MotionDetected" ;;
      s <- get ;;
      when (strict_neq (MotionSensorService.MotionDetected (MotionSensor s))
                       (Context.MotionDetected (context s))
            && truthy (MotionSensorService.MotionDetected (MotionSensor s)))
        (log info "Detected Motion") ;;
      (* Light Level *)
      when (negb (hide_lightsensor device))
        (let set_minLux_ := nullish (set_minLux device) (JNum 1) in
         let set_maxLux_ := nullish (set_maxLux device) (JNum 6001) in
         (if strict_eq (sd_lightLevel sd) (JStr "dark") || strict_eq (sd_lightLevel sd) (JNum 1)
          then assign_CurrentAmbientLightLevel set_minLux_
          else assign_CurrentAmbientLightLevel set_maxLux_) ;;
         log debug "BLEparseStatus LightLevel" ;;
         l <- read_CurrentAmbientLightLevel ;;
         s <- get ;;
         when (strict_neq l (Context.CurrentAmbientLightLevel (context s)))
           (log info "CurrentAmbientLightLevel")) ;;
      (* Battery *)
      let battery_ :=
        if strict_eq (sd_battery sd) JUndefined then JNum 100 else sd_battery sd in
      modify (with_Battery (BatteryService.set_BatteryLevel battery_)) ;;
      s <- get ;;
      (if lt_lit (BatteryService.BatteryLevel (Battery s)) 10
       then modify (with_Battery (BatteryService.set_StatusLowBattery hap.BATTERY_LEVEL_LOW))
       else modify (with_Battery (BatteryService.set_StatusLowBattery hap.BATTERY_LEVEL_NORMAL))) ;;
      log debug "BLEparseStatus BatteryLevel"
  end.

Definition openAPIparseStatus (deviceStatus : deviceStatus) : M state unit :=
  log debug "openAPIparseStatus" ;;
  (* Motion State *)
  body <- read_body deviceStatus ;;
  modify (set_MotionSensor {| MotionSensorService.MotionDetected := moveDetected body |}) ;;
  log debug "openAPIparseStatus MotionDetected" ;;
  (* Light Level *)
  when (negb (hide_lightsensor device))
    (let set_minLux_ := nullish (set_minLux device) (JNum 1) in
     let set_maxLux_ := nullish (set_maxLux device) (JNum 6001) in
     (if strict_eq (brightness body) (JStr "dim")
      then assign_CurrentAmbientLightLevel set_minLux_
      else assign_CurrentAmbientLightLevel set_maxLux_) ;;
     log debug "openAPIparseStatus CurrentAmbientLightLevel") ;;
  (* Battery *)
  modify (with_Battery (BatteryService.set_BatteryLevel (JNumber (Number (battery body))))) ;;
  s <- get ;;
  (if lt_lit (BatteryService.BatteryLevel (Battery s)) 10
   then modify (with_Battery (BatteryService.set_StatusLowBattery hap.BATTERY_LEVEL_LOW))
   else modify (with_Battery (BatteryService.set_StatusLowBattery hap.BATTERY_LEVEL_NORMAL))) ;;
  s <- get ;;
  when (isNaN (BatteryService.BatteryLevel (Battery s)))
    (modify (with_Battery (BatteryService.set_BatteryLevel (JNum 100)))) ;;
  log debug "openAPIparseStatus BatteryLevel" ;;
  (* Firmware Version *)
  log debug "openAPIparseStatus Firmware Version" ;;
  when (truthy (version body))
    (let deviceVersion := JStr (Version.strip (ToString (version body))) in
     updateCharacteristic Characteristic.HardwareRevision deviceVersion ;;
     updateCharacteristic Characteristic.FirmwareRevision deviceVersion ;;
     updateCharacteristic Characteristic.FirmwareRevision deviceVersion ;;
     modify (with_context (Context.set_deviceVersion deviceVersion)) ;;
     log debugSuccess "openAPIparseStatus deviceVersion").

Definition updateOne (name : string) (c : Characteristic.t) (value : jsval)
    (cache : jsval -> Context.t -> Context.t) : M state unit :=
  if strict_eq value JUndefined then log debug name
  else
    modify (with_context (cache value)) ;;
    updateCharacteristic c value ;;
    log debug (String.append "updateCharacteristic " name).

Definition updateHomeKitCharacteristics : M state unit :=
  s <- get ;;
  updateOne "MotionDetected" Characteristic.MotionDetected
    (MotionSensorService.MotionDetected (MotionSensor s)) Context.set_MotionDetected ;;
  updateOne "BatteryLevel" Characteristic.BatteryLevel
    (BatteryService.BatteryLevel (Battery s)) Context.set_BatteryLevel ;;
  updateOne "StatusLowBattery" Characteristic.StatusLowBattery
    (BatteryService.StatusLowBattery (Battery s)) Context.set_StatusLowBattery ;;
  when (BLE device)
    (l <- read_CurrentAmbientLightLevel ;;
     updateOne "CurrentAmbientLightLevel" Characteristic.CurrentAmbientLightLevel
       l Context.set_CurrentAmbientLightLevel).

Definition apiError (e : exn) : M state unit :=
  updateCharacteristicError Characteristic.MotionDetected e ;;
  updateCharacteristicError Characteristic.BatteryLevel e ;;
  updateCharacteristicError Characteristic.StatusLowBattery e ;;
  when (BLE device)
    (_ <- read_CurrentAmbientLightLevel ;;
     updateCharacteristicError Characteristic.CurrentAmbientLightLevel e).

Definition offlineOff : M state unit :=
  when (offline device)
    (updateCharacteristic Characteristic.MotionDetected (JBool false)).

Definition openAPIRefreshStatus : M state unit :=
  log debug "openAPIRefreshStatus" ;;
  try_catch
    (r <- retryRequest ;;
     let statusCode_ := fst r in
     log debugWarn "openAPIRefreshStatus statusCode" ;;
     deviceStatus <- body_json (snd r) ;;
     log debugWarn "openAPIRefreshStatus deviceStatus" ;;
     bodyStatusCode <- read_statusCode deviceStatus ;;
     log debugWarn "openAPIRefreshStatus deviceStatus statusCode" ;;
     if succeeded statusCode_ bodyStatusCode then
       log debugSuccess "openAPIRefreshStatus" ;;
       match deviceStatus with
       | Some d => unawaited (openAPIparseStatus d)
       | None => ret tt
       end ;;
       unawaited updateHomeKitCharacteristics
     else
       statusCode statusCode_ ;;
       statusCode bodyStatusCode)
    (fun e =>
       unawaited (apiError e) ;;
       log error "failed openAPIRefreshStatus").

Definition BLERefreshConnection : M state unit :=
  log error "wasn't able to establish BLE Connection" ;;
  when (token device && String.eqb (connectionType device) "BLE/OpenAPI")
    (log warn "Using OpenAPI Connection to Refresh Status" ;;
     openAPIRefreshStatus).

Definition BLEscanned : M state unit :=
  emit BleStopScan ;;
  sd <- read_serviceData ;;
  BLEparseStatus sd ;;
  updateHomeKitCharacteristics.

Definition BLERefreshStatus : M state unit :=
  log debug "BLERefreshStatus" ;;
  switchbot <- connectBLE ;;
  log debug "BLE Address" ;;
  (if switchbot then
     emit BleStartScan ;;
     spawn BLEscan
   else ret tt) ;;
  when (negb switchbot) BLERefreshConnection.

Definition refreshStatus : M state unit :=
  if negb (enableCloudService device) && OpenAPI device then
    log error "refreshStatus enableCloudService"
  else if BLE device then
    BLERefreshStatus
  else if OpenAPI device && token device then
    openAPIRefreshStatus
  else
    offlineOff ;;
    log debugWarn "refreshStatus will not happen".

Definition webhookEventHandler (context_ : option webhookContext) : M state unit :=
  try_catch
    (log debug "received Webhook" ;;
     match context_ with
     | None => throw TypeError
     | Some c =>
         log debug "Webhook current" ;;
         modify (set_MotionSensor
           {| MotionSensorService.MotionDetected :=
                if strict_eq (wh_detectionState c) (JStr "DETECTED")
                then JBool true else JBool false |}) ;;
         unawaited updateHomeKitCharacteristics
     end)
    (fun e => log error "failed to handle webhook").

Definition registerWebhook : M state unit :=
  if webhook device then log debug "is listening webhook"
  else log debug "is not listening webhook".

Definition deliver (context_ : option webhookContext) : M state unit :=
  if webhook device then webhookEventHandler context_ else ret tt.

(** *** The subscription of the constructor *)

Definition startRefresh (t : Timers) : Timers :=
  {| debounceArmed := debounceArmed t; skipping := false;
     followUps := followUps t; refreshing := S (refreshing t) |}.

Definition settleRefresh (t : Timers) : Timers :=
  {| debounceArmed := debounceArmed t; skipping := skipping t;
     followUps := followUps t; refreshing := pred (refreshing t) |}.

Definition runTask (t : task) : M state unit :=
  match t with
  | BLEscan => unawaited BLEscanned
  | BLEpushChain _ => ret tt
  end.

Definition takeTask : M state (option task) :=
  fun s =>
    match pending (env s) with
    | [] => (Returns None, s)
    | t :: ts =>
        (Returns (Some t),
         with_env (fun w =>
           {| trace := trace w; pending := ts; responses := responses w;
              bleAdapter := bleAdapter w; bleOutcomes := bleOutcomes w;
              handlerServiceData := handlerServiceData w |}) s)
    end.

Inductive input :=
| IntervalTick
| RefreshSettles
| WebhookEvent (context_ : option webhookContext)
| RunTask.

(** As for the fan, without setters: [doMotionUpdate] is created and
    never subscribed to, and nothing assigns the flag after the
    constructor has set it to [false]. *)
Definition step (i : input) : M state unit :=
  match i with
  | IntervalTick =>
      s <- get ;;
      if skipping (timers s) && motionUbpdateInProgress s then ret tt
      else modify (with_timers startRefresh)
  | RefreshSettles =>
      s <- get ;;
      match refreshing (timers s) with
      | O => ret tt
      | S _ =>
          modify (with_timers settleRefresh) ;;
          unawaited refreshStatus
      end
  | WebhookEvent context_ => deliver context_
  | RunTask =>
      t <- takeTask ;;
      match t with
      | Some t => runTask t
      | None => ret tt
      end
  end.

Definition run (inputs : list input) (s : state) : state :=
  fold_left (fun s i => exec (step i) s) inputs s.

End Methods.
End Motion.

(** ** Observations on runs *)

(** The events written to the trace between two states of a run. *)
Definition emitted {S : Type} `{HasWorld S} (s s' : S) : list event :=
  skipn (List.length (trace (world s))) (trace (world s')).

(** The cloud commands among some events, in order. *)
Definition commandsOf (t : list event) : list bodyChange :=
  flat_map (fun e => match e with HttpPostCommand b => [b] | _ => [] end) t.

(** The radio commands among some events, in order. *)
Definition radioOf (t : list event) : list bleCommand :=
  flat_map (fun e => match e with BleSend c => [c] | _ => [] end) t.

(** Events that use a transport (cloud or radio). *)
Definition isNetworkIO (e : event) : bool :=
  match e with
  | HttpGetStatus | HttpPostCommand _
  | BleStartScan | BleStopScan | BleDiscover | BleSend _ => true
  | Log _ _ | StatusCodeLog _ | UpdateCharacteristic _ _ => false
  end.

Definition networkIO (t : list event) : list event := filter isNetworkIO t.

Definition statusCodesOf (t : list event) : list jsval :=
  flat_map (fun e => match e with StatusCodeLog c => [c] | _ => [] end) t.

Module FanObs.
Import Fan.

(** Everything of the accessory but its surroundings is the same. *)
Definition sameDevice (s s' : state) : Prop :=
  Fan s' = Fan s /\ Battery s' = Battery s /\ LightBulb s' = LightBulb s /\
  context s' = context s /\
  fanUpdateInProgress s' = fanUpdateInProgress s /\
  timers s' = timers s.

(** The fields a dispatch cycle looks at. *)
Inductive field := Active | RotationSpeed | SwingMode.

Definition desired (f : field) (s : state) : jsval :=
  match f with
  | Active => FanService.Active (Fan s)
  | RotationSpeed => FanService.RotationSpeed (Fan s)
  | SwingMode => FanService.SwingMode (Fan s)
  end.

Definition cached (f : field) (s : state) : jsval :=
  match f with
  | Active => Context.Active (context s)
  | RotationSpeed => Context.RotationSpeed (context s)
  | SwingMode => Context.SwingMode (context s)
  end.

Definition differs (f : field) (s : state) : bool :=
  strict_neq (desired f s) (cached f s).

(** The field a cloud command is for. *)
Definition commandFor (f : field) (b : bodyChange) : bool :=
  match f with
  | Active => String.eqb (command b) "turnOn" || String.eqb (command b) "turnOff"
  | RotationSpeed => String.eqb (command b) "setWindSpeed"
  | SwingMode => String.eqb (command b) "setOscillation"
  end.

Definition commandsFor (f : field) (t : list event) : list bodyChange :=
  filter (commandFor f) (commandsOf t).

(** The position of a command in the order power, speed, oscillation. *)
Definition priority (b : bodyChange) : nat :=
  if commandFor Active b then 0%nat
  else if commandFor RotationSpeed b then 1%nat
  else 2%nat.

Definition powerCommand (s : state) : list bodyChange :=
  if differs Active s then
    [{| command := if truthy (desired Active s) then "turnOn" else "turnOff";
        parameter := "default"; commandType := "command" |}]
  else [].

Definition oscillationCommand (s : state) : list bodyChange :=
  if truthy (desired Active s) && differs SwingMode s then
    [{| command := "setOscillation";
        parameter := if strict_eq (desired SwingMode s) hap.SWING_ENABLED
                     then "on" else "off";
        commandType := "command" |}]
  else [].

Definition windSpeedCommand `{Conversions} (s : state) : bodyChange :=
  {| command := "setWindSpeed";
     parameter := ToString (desired RotationSpeed s);
     commandType := "command" |}.

(** What [pushRotationSpeedChanges] sends in a cloud dispatch cycle. *)
Definition speedCommand `{Conversions} (s : state) : list bodyChange :=
  if truthy (desired Active s) && differs SwingMode s then [windSpeedCommand s] else [].

(** [does m s io]: from [s], [m] returns, leaves the accessory as it is,
    starts no task, and what it writes to the trace uses the transports
    for exactly [io]. *)
Definition does (m : M state unit) (s : state) (io : list event) : Prop :=
  outcome m s = Returns tt /\
  sameDevice s (exec m s) /\
  pending (env (exec m s)) = pending (env s) /\
  exists X, trace (env (exec m s)) = trace (env s) ++ X /\ networkIO X = io.


(** A state to start examples from: the values the constructor falls
    back on, cached as its hub update leaves them ([context.On] and
    [context.Brightness] are written nowhere), nothing done, transports
    silent. *)
Definition quiet : World :=
  {| trace := []; pending := []; responses := []; bleAdapter := true;
     bleOutcomes := []; handlerServiceData := [] |}.

Definition fresh : state :=
  {| Fan := {| FanService.Active := hap.INACTIVE;
               FanService.SwingMode := hap.SWING_DISABLED;
               FanService.RotationSpeed := JNum 0 |};
     Battery := {| BatteryService.BatteryLevel := JNum 100;
                   BatteryService.StatusLowBattery := hap.BATTERY_LEVEL_NORMAL;
                   BatteryService.ChargingState := hap.NOT_CHARGING |};
     LightBulb := {| LightBulbService.On := JBool false;
                     LightBulbService.Brightness := JNum 0 |};
     context := {| Context.Active := hap.INACTIVE;
                   Context.RotationSpeed := JNum 0;
                   Context.SwingMode := hap.SWING_DISABLED;
                   Context.BatteryLevel := JNum 100;
                   Context.ChargingState := hap.NOT_CHARGING;
                   Context.StatusLowBattery := hap.BATTERY_LEVEL_NORMAL;
                   Context.On := JUndefined;
                   Context.Brightness := JUndefined;
                   Context.version := JUndefined;
                   Context.deviceVersion := JUndefined |};
     fanUpdateInProgress := false;
     timers := constructedTimers;
     env := quiet |}.

(** The fan runs at speed 42 and oscillates, and all of it is cached. *)
Definition running : state :=
  {| Fan := {| FanService.Active := hap.ACTIVE;
               FanService.SwingMode := hap.SWING_ENABLED;
               FanService.RotationSpeed := JNum 42 |};
     Battery := Battery fresh;
     LightBulb := LightBulb fresh;
     context := Context.set_Active hap.ACTIVE
                  (Context.set_SwingMode hap.SWING_ENABLED
                     (Context.set_RotationSpeed (JNum 42) (context fresh)));
     fanUpdateInProgress := false;
     timers := constructedTimers;
     env := quiet |}.




(** The flag and the timers are the same, but for the follow-up
    refreshes that may have been armed. *)
Definition sameGuards (s s' : state) : Prop :=
  fanUpdateInProgress s' = fanUpdateInProgress s /\
  debounceArmed (timers s') = debounceArmed (timers s) /\
  skipping (timers s') = skipping (timers s) /\
  refreshing (timers s') = refreshing (timers s).

(** The claim that two executions of [refreshStatus] never overlap. *)
Definition refreshesNeverOverlap `{Conversions} (device : Config) (s : state) : Prop :=
  forall inputs, (refreshing (timers (run device inputs s)) <= 1)%nat.


Definition assignFan (f : FanService.t) (cv : setter * jsval) : FanService.t :=
  match fst cv with
  | onActive => FanService.set_Active (snd cv) f
  | onRotationSpeed => FanService.set_RotationSpeed (snd cv) f
  | onSwingMode => FanService.set_SwingMode (snd cv) f
  | onOn | onBrightness => f
  end.

Definition assignLightBulb (l : LightBulbService.t) (cv : setter * jsval)
    : LightBulbService.t :=
  match fst cv with
  | onOn => LightBulbService.set_On (snd cv) l
  | onBrightness => LightBulbService.set_Brightness (snd cv) l
  | onActive | onRotationSpeed | onSwingMode => l
  end.

(** The value a setter's field holds. *)
Definition requested (c : setter) (s : state) : jsval :=
  match c with
  | onActive => FanService.Active (Fan s)
  | onRotationSpeed => FanService.RotationSpeed (Fan s)
  | onSwingMode => FanService.SwingMode (Fan s)
  | onOn => LightBulbService.On (LightBulb s)
  | onBrightness => LightBulbService.Brightness (LightBulb s)
  end.

(** The cloud is going to answer the next request with [r]. *)
Definition answered (r : response) : state :=
  with_env (fun w =>
    {| trace := trace w; pending := pending w; responses := [r];
       bleAdapter := bleAdapter w; bleOutcomes := bleOutcomes w;
       handlerServiceData := handlerServiceData w |}) fresh.

Definition fanOn : bodyChange :=
  {| command := "turnOn"; parameter := "default"; commandType := "command" |}.

(** The fan is off and stays off, and the hub has asked for
    oscillation. *)
Definition withheld : state :=
  with_Fan (FanService.set_SwingMode hap.SWING_ENABLED) fresh.

(** The fan runs, and the hub has asked for oscillation only. *)
Definition oscillating : state :=
  with_context (Context.set_Active hap.ACTIVE)
    (with_Fan (FanService.set_Active hap.ACTIVE)
       (with_Fan (FanService.set_SwingMode hap.SWING_ENABLED) fresh)).

(** The fan runs, and the hub has asked for another speed only. *)
Definition faster : state :=
  with_context (Context.set_Active hap.ACTIVE)
    (with_Fan (FanService.set_Active hap.ACTIVE)
       (with_Fan (FanService.set_RotationSpeed (JNum 75)) fresh)).

Definition cloud : Config :=
  {| enableCloudService := true; BLE := false; OpenAPI := true; token := true;
     connectionType := "OpenAPI"; offline := false; webhook := true;
     hide_lightsensor := false; set_minLux := JUndefined; set_maxLux := JUndefined |}.

Definition radio : Config :=
  {| enableCloudService := true; BLE := true; OpenAPI := false; token := false;
     connectionType := "BLE"; offline := false; webhook := false;
     hide_lightsensor := false; set_minLux := JUndefined; set_maxLux := JUndefined |}.

(** A cloud device that is flagged offline. *)
Definition offlineCloud : Config :=
  {| enableCloudService := true; BLE := false; OpenAPI := true; token := true;
     connectionType := "OpenAPI"; offline := true; webhook := true;
     hide_lightsensor := false; set_minLux := JUndefined; set_maxLux := JUndefined |}.

(** What the hub is told when an offline device has no transport. *)
Definition offlineBaseline : list event :=
  [UpdateCharacteristic Characteristic.Active (Val hap.INACTIVE);
   UpdateCharacteristic Characteristic.RotationSpeed (Val (JNum 0));
   UpdateCharacteristic Characteristic.SwingMode (Val hap.SWING_DISABLED)].

(** The fan runs and the hub has asked to turn it off; the radio is going
    to carry the command. *)
Definition turningOff : state :=
  with_env (fun w =>
    {| trace := trace w; pending := pending w; responses := responses w;
       bleAdapter := true; bleOutcomes := [CommandResolves];
       handlerServiceData := handlerServiceData w |})
    (with_context (Context.set_Active (JBool true))
       (with_Fan (FanService.set_Active (JNum 0)) fresh)).

(** The same with the fan off and the hub asking to turn it on. *)
Definition turningOn : state :=
  with_env (fun w =>
    {| trace := trace w; pending := pending w; responses := responses w;
       bleAdapter := true; bleOutcomes := [CommandResolves];
       handlerServiceData := handlerServiceData w |})
    (with_context (Context.set_Active (JBool false))
       (with_Fan (FanService.set_Active (JNum 1)) fresh)).

Definition disconnected : Config :=
  {| enableCloudService := true; BLE := false; OpenAPI := false; token := false;
     connectionType := "Disconnected"; offline := true; webhook := false;
     hide_lightsensor := false; set_minLux := JUndefined; set_maxLux := JUndefined |}.

(** The conversions of the examples: a string of decimal digits is
    that number and every other string NaN; no example prints a number
    beyond the safe integers, and these digits stand for its text. *)
Fixpoint digits (s : string) (acc : Z) : number :=
  match s with
  | EmptyString => Int acc
  | String c r =>
      let n := Z.of_nat (nat_of_ascii c) in
      if (48 <=? n) && (n <=? 57) then digits r (10 * acc + (n - 48)) else NaN
  end.

Definition decimal : Conversions :=
  {| string_to_number :=
       fun s => match s with EmptyString => Int 0 | _ => digits s 0 end;
     number_to_string := fun z => NilZero.string_of_int (Z.to_int z) |}.

End FanObs.

Module MotionObs.
Import Motion.

Definition sameDevice (s s' : state) : Prop :=
  MotionSensor s' = MotionSensor s /\ Battery s' = Battery s /\
  LightSensor s' = LightSensor s /\ context s' = context s /\
  motionUbpdateInProgress s' = motionUbpdateInProgress s /\
  timers s' = timers s.

(** The constructor creates the light sensor unless it is hidden. *)
Definition lightSensorReady (device : Config) (s : state) : Prop :=
  hide_lightsensor device = false -> LightSensor s <> None.

(** A state to start examples from: no motion, a full battery and the
    light level 1, all of it cached, nothing done, transports silent. *)
Definition fresh : state :=
  {| MotionSensor := {| MotionSensorService.MotionDetected := JBool false |};
     Battery := {| BatteryService.BatteryLevel := JNum 100;
                   BatteryService.StatusLowBattery := hap.BATTERY_LEVEL_NORMAL |};
     LightSensor := Some {| LightSensorService.CurrentAmbientLightLevel := JNum 1 |};
     context := {| Context.MotionDetected := JBool false;
                   Context.BatteryLevel := JNum 100;
                   Context.StatusLowBattery := hap.BATTERY_LEVEL_NORMAL;
                   Context.CurrentAmbientLightLevel := JNum 1;
                   Context.deviceVersion := JUndefined |};
     motionUbpdateInProgress := false;
     timers := constructedTimers;
     env := FanObs.quiet |}.

Definition answered (r : response) : state :=
  with_env (fun w =>
    {| trace := trace w; pending := pending w; responses := [r];
       bleAdapter := bleAdapter w; bleOutcomes := bleOutcomes w;
       handlerServiceData := handlerServiceData w |}) fresh.

Definition sameGuards (s s' : state) : Prop :=
  motionUbpdateInProgress s' = motionUbpdateInProgress s /\
  timers s' = timers s.

Definition refreshesNeverOverlap `{Conversions} (device : Config) (s : state) : Prop :=
  forall inputs, (refreshing (timers (run device inputs s)) <= 1)%nat.

(** Motion has been detected. *)
Definition detected : state :=
  set_MotionSensor {| MotionSensorService.MotionDetected := JBool true |} fresh.

End MotionObs.

(** ** What the battery rules are expected to give *)

(** The level kept for a battery reading: the number itself, and 100 when
    the reading is not a number. *)
Definition batteryLevelOf (n : number) : jsval :=
  match n with
  | NaN => JNum 100
  | Int z => JNum z
  end.

(** Low below 10, normal otherwise (NaN is not below 10). *)
Definition lowBatteryOf (n : number) : jsval :=
  match n with
  | Int z => if z <? 10 then hap.BATTERY_LEVEL_LOW else hap.BATTERY_LEVEL_NORMAL
  | NaN => hap.BATTERY_LEVEL_NORMAL
  end.

(** A cloud status body that reports the given battery value and nothing
    else. *)
Definition bodyWithBattery (v : jsval) : deviceStatus :=
  {| ds_statusCode := JNum 100;
     ds_body := Some {| power := JUndefined; oscillation := JUndefined;
                        fanSpeed := JUndefined; chargingStatus := JUndefined;
                        battery := v; version := JUndefined;
                        moveDetected := JUndefined; brightness := JUndefined |} |}.

(** What a status fetch writes to the trace up to the test of the two
    status codes, and what a command write does. *)
Definition fetchPreamble : list event :=
  [Log debug "openAPIRefreshStatus"; HttpGetStatus;
   Log debugWarn "openAPIRefreshStatus statusCode";
   Log debugWarn "openAPIRefreshStatus deviceStatus";
   Log debugWarn "openAPIRefreshStatus deviceStatus statusCode"].

Definition postPreamble (b : bodyChange) : list event :=
  [Log debug "Sending request to SwitchBot API"; HttpPostCommand b;
   Log debugWarn "statusCode"; Log debugWarn "deviceStatus";
   Log debugWarn "deviceStatus body"; Log debugWarn "deviceStatus statusCode"].

(** The claim that the level ends up between 0 and 100. *)
Definition clamped (v : jsval) : Prop :=
  exists z, v = JNum z /\ 0 <= z <= 100.

(** ** Invariants of computations *)

(** [keeps R m]: whatever [m] does, and whether it returns or throws, the
    state it leaves is related by [R] to the one it started from. *)
Definition keeps {S A : Type} (R : S -> S -> Prop) (m : M S A) : Prop :=
  forall s, R s (exec m s).

(** The trace has grown, by events that all satisfy [P]. *)
Definition grows {S : Type} `{HasWorld S} (P : event -> Prop) (s s' : S) : Prop :=
  exists X, trace (world s') = trace (world s) ++ X /\ Forall P X.

(** [R] does not look at the surroundings. *)
Definition worldBlind {S : Type} `{HasWorld S} (R : S -> S -> Prop) : Prop :=
  forall f s, R s (with_world f s).

Definition isSuccessLog (e : event) : bool :=
  match e with
  | Log success _ | Log debugSuccess _ => true
  | _ => false
  end.

Definition isLog (e : event) : Prop :=
  match e with Log _ _ => True | _ => False end.

Definition notStatusCode (e : event) : Prop :=
  match e with StatusCodeLog _ => False | _ => True end.


(** ** Further observations *)

(** What the cache holds after a hub update of the value [v]: [v]
    itself, unless it is [undefined]. *)
Definition kept (v old : jsval) : jsval :=
  if strict_eq v JUndefined then old else v.

(** The calls of [updateCharacteristic] among some events, in order. *)
Definition hubUpdatesOf (t : list event) : list (Characteristic.t * hubValue) :=
  flat_map (fun e => match e with UpdateCharacteristic c v => [(c, v)] | _ => [] end) t.

(** The hub update [updateOne] makes for a value, if any. *)
Definition hubUpdateOf (c : Characteristic.t) (v : jsval)
    : list (Characteristic.t * hubValue) :=
  if strict_eq v JUndefined then [] else [(c, Val v)].

(** What [Fan.apiError] tells the hub. *)
Definition fanErrorUpdates (e : exn) : list (Characteristic.t * hubValue) :=
  [(Characteristic.Active, Err e);
   (Characteristic.RotationSpeed, Err e);
   (Characteristic.SwingMode, Err e)].

(** The exception an answer of the cloud ends in, if it does: the request
    rejects, the body cannot be parsed, or it parses to [null]. *)
Definition unreadable (r : response) : option exn :=
  match r with
  | Rejects e => Some e
  | Responds _ (JsonRejects e) => Some e
  | Responds _ JsonNull => Some TypeError
  | Responds _ (JsonObject _) => None
  end.

(** The fan once an accepted status reply has been read and before it is
    parsed: the request and the logs are in the trace, the answer is
    used up. *)
Definition fanFetched (rs : list response) (s : Fan.state) : Fan.state :=
  Fan.with_env (fun w =>
    {| trace := trace w ++ fetchPreamble ++ [Log debugSuccess "openAPIRefreshStatus"];
       pending := pending w; responses := rs; bleAdapter := bleAdapter w;
       bleOutcomes := bleOutcomes w; handlerServiceData := handlerServiceData w |}) s.

(** The values [Fan.openAPIparseStatus] reads off a status body. *)
Definition activeOf (b : statusBody) : jsval :=
  if strict_eq (power b) (JStr "on") then hap.ACTIVE else hap.INACTIVE.

Definition swingModeOf (b : statusBody) : jsval :=
  if strict_eq (oscillation b) (JStr "on") then hap.SWING_ENABLED else hap.SWING_DISABLED.

Definition chargingStateOf (b : statusBody) : jsval :=
  if strict_eq (chargingStatus b) (JStr "charging") then hap.CHARGING else hap.NOT_CHARGING.

(** A status body of a running, oscillating fan at speed 30. *)
Definition fanReport : statusBody :=
  {| power := JStr "on"; oscillation := JStr "on"; fanSpeed := JNum 30;
     chargingStatus := JStr "charging"; battery := JNum 80; version := JStr "V1.2-3";
     moveDetected := JUndefined; brightness := JUndefined |}.


(** The branch of [refreshStatus] and of [pushChanges] a device takes. *)
Inductive transport := CloudDisabled | Radio | Cloud | NoTransport.

Definition transportOf (device : Config) : transport :=
  if negb (enableCloudService device) && OpenAPI device then CloudDisabled
  else if BLE device then Radio
  else if OpenAPI device && token device then Cloud
  else NoTransport.

(** Whether a radio failure is followed by the same work over the
    cloud. *)
Definition fallsBack (device : Config) : bool :=
  token device && String.eqb (connectionType device) "BLE/OpenAPI".

(** A dispatch cycle throws in one case only: the radio is the
    transport, Active is to be sent, and there is no adapter. *)
Definition pushThrows (device : Config) (s : Fan.state) : bool :=
  match transportOf device with
  | Radio => FanObs.differs FanObs.Active s && negb (bleAdapter (Fan.env s))
  | _ => false
  end.

(** *** A burst of setter calls and the cycle that follows *)










(** The hub has asked to turn the fan on, and there is no radio
    adapter. *)
Definition unplugged : Fan.state :=
  Fan.with_env (fun w =>
    {| trace := trace w; pending := pending w; responses := responses w;
       bleAdapter := false; bleOutcomes := bleOutcomes w;
       handlerServiceData := handlerServiceData w |}) FanObs.turningOn.

(** The radio command a dispatch cycle sends for the desired Active. *)
Definition radioCommand (s : Fan.state) : bleCommand :=
  if truthy (FanObs.desired FanObs.Active s) then turnOn else turnOff.

(** The exception a chain that fails ends in. *)
Definition failureOf (o : bleOutcome) : option exn :=
  match o with
  | DiscoverRejects e | NoDevice e | CommandRejects e => Some e
  | CommandResolves => None
  end.

(** The radio commands a chain sends, and the info logs it writes. *)
Definition radioSent (o : bleOutcome) (s : Fan.state) : list bleCommand :=
  match o with
  | DiscoverRejects _ | NoDevice _ => []
  | CommandRejects _ | CommandResolves => [radioCommand s]
  end.

Definition chainInfoLogs (o : bleOutcome) : list string :=
  match o with
  | DiscoverRejects _ => []
  | _ => ["BLEpushChanges On"]
  end.

(** The places of the info logs among some events, in order. *)
Definition infoLogsOf (t : list event) : list string :=
  flat_map (fun e => match e with Log info site => [site] | _ => [] end) t.

Definition notInfoLog (e : event) : Prop :=
  match e with Log info _ => False | _ => True end.

(** The radio carries the command and the device rejects it; and the
    device is not found, so that [fn] throws. *)
Definition radioFailed : bleOutcome := CommandRejects (Rejected "timeout").

Definition deviceMissing : bleOutcome := NoDevice TypeError.

(** A device that uses the radio first and the cloud after it. *)
Definition radioThenCloud : Config :=
  {| enableCloudService := true; BLE := true; OpenAPI := true; token := true;
     connectionType := "BLE/OpenAPI"; offline := false; webhook := false;
     hide_lightsensor := false; set_minLux := JUndefined; set_maxLux := JUndefined |}.

(** ** Which transport an event uses *)

Definition isHttp (e : event) : bool :=
  match e with
  | HttpGetStatus | HttpPostCommand _ => true
  | _ => false
  end.

Definition isRadio (e : event) : bool :=
  match e with
  | BleStartScan | BleStopScan | BleDiscover | BleSend _ => true
  | _ => false
  end.

(** The requests made to the cloud, and the uses of the radio, among some
    events. *)
Definition httpOf (t : list event) : list event := filter isHttp t.
Definition radioEventsOf (t : list event) : list event := filter isRadio t.

Definition notHttp (e : event) : Prop :=
  match e with
  | HttpGetStatus | HttpPostCommand _ => False
  | _ => True
  end.

Definition notRadio (e : event) : Prop :=
  match e with
  | BleStartScan | BleStopScan | BleDiscover | BleSend _ => False
  | _ => True
  end.

Definition offTransport (e : event) : Prop :=
  match e with
  | Log _ _ | StatusCodeLog _ | UpdateCharacteristic _ _ => True
  | _ => False
  end.

(** The trace has grown by events that satisfy [P], and the work left
    for later is the same. *)
Definition calm {S : Type} `{HasWorld S} (P : event -> Prop) (s s' : S) : Prop :=
  pending (world s') = pending (world s) /\ grows P s s'.

(** A session of the fan: the hub turns it on, the debounce timer fires,
    the follow-up refresh runs, the work left for later is done. *)
Definition session : list Fan.input :=
  [Fan.HubSet Fan.onActive (JNum 1); Fan.DebounceElapsed; Fan.FollowUpTick;
   Fan.RefreshSettles; Fan.RunTask; Fan.RunTask; Fan.IntervalTick; Fan.RefreshSettles].

(** The cloud service is switched off for a device set up for the radio
    and the cloud. *)
Definition cloudSwitchedOff : Config :=
  {| enableCloudService := false; BLE := true; OpenAPI := true; token := true;
     connectionType := "BLE/OpenAPI"; offline := false; webhook := true;
     hide_lightsensor := false; set_minLux := JUndefined; set_maxLux := JUndefined |}.

(** A round of the motion sensor: the interval fires, the refresh runs,
    an event arrives, the work left for later is done. *)
Definition motionSession : list Motion.input :=
  [Motion.IntervalTick; Motion.RefreshSettles;
   Motion.WebhookEvent (Some {| Motion.wh_detectionState := JStr "DETECTED" |});
   Motion.RunTask].

(** What [Fan.BLEparseStatus] reads off service data. *)
Definition scannedActive (sd : serviceData) : jsval :=
  JBool (strict_eq (sd_state sd) (JStr "on")).

(** The service data of a running fan, and a fan whose next read of
    [switchbot.onadvertisement.serviceData] yields [a]. *)
Definition fanData : serviceData :=
  {| sd_state := JStr "on"; sd_movement := JUndefined;
     sd_lightLevel := JUndefined; sd_battery := JUndefined |}.

Definition handlerYields (a : option serviceData) : Fan.state :=
  Fan.with_env (fun w =>
    {| trace := trace w; pending := pending w; responses := responses w;
       bleAdapter := bleAdapter w; bleOutcomes := bleOutcomes w;
       handlerServiceData := [a] |}) FanObs.fresh.

(** ** Firmware versions *)

Fixpoint hasDash (s : string) : bool :=
  match s with
  | EmptyString => false
  | String c r => Ascii.eqb c "-"%char || hasDash r
  end.

(** A version string without the [V] it may start with. *)
Definition afterV (s : string) : string :=
  match s with
  | String c r => if Ascii.eqb c "V"%char then r else s
  | EmptyString => EmptyString
  end.

(** The hub updates [openAPIparseStatus] makes for a firmware version. *)
Definition firmwareUpdates (v : jsval) : list (Characteristic.t * hubValue) :=
  [(Characteristic.HardwareRevision, Val v);
   (Characteristic.FirmwareRevision, Val v);
   (Characteristic.FirmwareRevision, Val v)].

(** ** The motion sensor and the hub *)

(** The hub updates [Motion.updateHomeKitCharacteristics] makes before it
    comes to the light level. *)
Definition motionUpdates (s : Motion.state) : list (Characteristic.t * hubValue) :=
  hubUpdateOf Characteristic.MotionDetected
    (Motion.MotionSensorService.MotionDetected (Motion.MotionSensor s))
  ++ hubUpdateOf Characteristic.BatteryLevel
       (Motion.BatteryService.BatteryLevel (Motion.Battery s))
  ++ hubUpdateOf Characteristic.StatusLowBattery
       (Motion.BatteryService.StatusLowBattery (Motion.Battery s)).

(** What [Motion.apiError] tells the hub before it comes to the light
    level. *)
Definition motionErrorUpdates (e : exn) : list (Characteristic.t * hubValue) :=
  [(Characteristic.MotionDetected, Err e);
   (Characteristic.BatteryLevel, Err e);
   (Characteristic.StatusLowBattery, Err e)].

(** The light level a cloud status body and service data stand
    for. *)
Definition minLuxOf (device : Config) : jsval := nullish (set_minLux device) (JNum 1).
Definition maxLuxOf (device : Config) : jsval := nullish (set_maxLux device) (JNum 6001).

Definition cloudLightLevel (device : Config) (b : statusBody) : jsval :=
  if strict_eq (brightness b) (JStr "dim") then minLuxOf device else maxLuxOf device.

Definition radioLightLevel (device : Config) (sd : serviceData) : jsval :=
  if strict_eq (sd_lightLevel sd) (JStr "dark") || strict_eq (sd_lightLevel sd) (JNum 1)
  then minLuxOf device else maxLuxOf device.

(** The light sensor after a parse that read the level [v]: untouched
    when the sensor is hidden. *)
Definition lightSensorAfter (device : Config) (v : jsval) (s : Motion.state)
    : option Motion.LightSensorService.t :=
  if hide_lightsensor device then Motion.LightSensor s
  else Some {| Motion.LightSensorService.CurrentAmbientLightLevel := v |}.

(** The motion sensor of a device whose light sensor is hidden. *)
Definition lightless : Motion.state :=
  Motion.set_LightSensor None MotionObs.fresh.

(** A status body that reports motion in a dim room. *)
Definition motionReport : statusBody :=
  {| power := JUndefined; oscillation := JUndefined; fanSpeed := JUndefined;
     chargingStatus := JUndefined; battery := JNum 55; version := JUndefined;
     moveDetected := JBool true; brightness := JStr "dim" |}.

(** The motion sensor once an accepted status reply has been read and
    before it is parsed. *)
Definition motionFetched (rs : list response) (s : Motion.state) : Motion.state :=
  Motion.with_env (fun w =>
    {| trace := trace w ++ fetchPreamble ++ [Log debugSuccess "openAPIRefreshStatus"];
       pending := pending w; responses := rs; bleAdapter := bleAdapter w;
       bleOutcomes := bleOutcomes w; handlerServiceData := handlerServiceData w |}) s.

(** The characteristics some hub updates are for. *)
Definition updatedOf (us : list (Characteristic.t * hubValue)) : list Characteristic.t :=
  map fst us.

(** A status body that reports no motion in a bright room. *)
Definition brightReport : statusBody :=
  {| power := JUndefined; oscillation := JUndefined; fanSpeed := JUndefined;
     chargingStatus := JUndefined; battery := JNum 55; version := JUndefined;
     moveDetected := JBool false; brightness := JStr "bright" |}.

(** What [Motion.apiError] tells the hub about the light level: nothing
    unless the radio is set up and there is a light sensor. *)
Definition lightErrorUpdate (device : Config) (s : Motion.state) (e : exn)
    : list (Characteristic.t * hubValue) :=
  if BLE device then
    match Motion.LightSensor s with
    | Some _ => [(Characteristic.CurrentAmbientLightLevel, Err e)]
    | None => []
    end
  else [].

(** A motion sensor whose next read of
    [switchbot.onadvertisement.serviceData] yields [a]. *)
Definition motionHandlerYields (a : option serviceData) : Motion.state :=
  Motion.with_env (fun w =>
    {| trace := trace w; pending := pending w; responses := responses w;
       bleAdapter := bleAdapter w; bleOutcomes := bleOutcomes w;
       handlerServiceData := [a] |}) MotionObs.fresh.

(** Service data of motion in the dark. *)
Definition darkData : serviceData :=
  {| sd_state := JUndefined; sd_movement := JBool true;
     sd_lightLevel := JStr "dark"; sd_battery := JNum 8 |}.

(** A device that uses the radio and sets its own bounds for the light
    level. *)
Definition radioLux : Config :=
  {| enableCloudService := true; BLE := true; OpenAPI := false; token := false;
     connectionType := "BLE"; offline := false; webhook := false;
     hide_lightsensor := false; set_minLux := JNum 5; set_maxLux := JNum 900 |}.

(** A device without any transport that is not flagged offline. *)
Definition unconnected : Config :=
  {| enableCloudService := true; BLE := false; OpenAPI := false; token := false;
     connectionType := "Disconnected"; offline := false; webhook := false;
     hide_lightsensor := false; set_minLux := JUndefined; set_maxLux := JUndefined |}.

(** What the hub is told when an offline motion sensor has no
    transport. *)
Definition motionOfflineBaseline (device : Config) : list event :=
  if offline device
  then [UpdateCharacteristic Characteristic.MotionDetected (Val (JBool false))]
  else [].

(** What the webhook handler of the motion sensor reads off an event. *)
Definition detectedOf (c : Motion.webhookContext) : jsval :=
  if strict_eq (Motion.wh_detectionState c) (JStr "DETECTED") then JBool true else JBool false.

(** ** A round trip *)

(** The hub turns the fan on and the debounce timer fires. *)
Definition turnOnInputs : list Fan.input :=
  [Fan.HubSet Fan.onActive hap.ACTIVE; Fan.DebounceElapsed].

(** The follow-up refresh is started and runs. *)
Definition followUpInputs : list Fan.input := [Fan.FollowUpTick; Fan.RefreshSettles].

(** The fan is off, nothing is asked for, and the cloud is going to
    accept a command and then report the given status. *)
Definition idleBefore (b : statusBody) : Fan.state :=
  Fan.with_env (fun w =>
    {| trace := trace w; pending := pending w;
       responses := [Responds (JNum 200) (JsonObject {| ds_statusCode := JNum 100;
                                                         ds_body := None |});
                     Responds (JNum 200) (JsonObject {| ds_statusCode := JNum 100;
                                                         ds_body := Some b |})];
       bleAdapter := bleAdapter w; bleOutcomes := bleOutcomes w;
       handlerServiceData := handlerServiceData w |}) FanObs.fresh.

(** * Properties *)

(** ** Facts on values *)

Lemma strict_eq_JNum v z : strict_eq v (JNum z) = true <-> v = JNum z.
Proof.
  unfold JNum. destruct v as [| |b|[|x]|s]; cbn; split; intros E; try discriminate.
  - apply Z.eqb_eq in E. now subst.
  - injection E as ->. apply Z.eqb_refl.
Qed.

Lemma strict_eq_undefined v : strict_eq v JUndefined = true <-> v = JUndefined.
Proof. destruct v as [| |b|n|s]; cbn; split; intros E; congruence. Qed.

Lemma strict_eq_JStr v s : strict_eq v (JStr s) = true <-> v = JStr s.
Proof.
  destruct v as [| |b|n|x]; cbn; split; intros E; try discriminate.
  - apply String.eqb_eq in E. now subst.
  - injection E as ->. apply String.eqb_refl.
Qed.

(** Apart from NaN, a value is strictly equal to itself. *)
Lemma strict_eq_refl v : v <> JNumber NaN -> strict_eq v v = true.
Proof.
  destruct v as [| |b|[|x]|s]; cbn; intros N; try reflexivity.
  - now destruct b.
  - congruence.
  - apply Z.eqb_refl.
  - apply String.eqb_refl.
Qed.

Lemma succeeded_iff c bc :
  succeeded c bc = true <->
  (c = JNum 200 \/ c = JNum 100) /\ (bc = JNum 200 \/ bc = JNum 100).
Proof.
  unfold succeeded. rewrite andb_true_iff, !orb_true_iff, !strict_eq_JNum. tauto.
Qed.

(** ** Facts on computations and traces *)

Section MonadFacts.
Context {S : Type}.

Lemma run_pair {A} (m : M S A) s : m s = (outcome m s, exec m s).
Proof. unfold outcome, exec. now destruct (m s). Qed.

Lemma exec_bind {A B} (m : M S A) (k : A -> M S B) s a :
  outcome m s = Returns a -> exec (bind m k) s = exec (k a) (exec m s).
Proof. unfold outcome, exec, bind. destruct (m s) as [[x|e] s']; cbn; congruence. Qed.

Lemma outcome_bind {A B} (m : M S A) (k : A -> M S B) s a :
  outcome m s = Returns a -> outcome (bind m k) s = outcome (k a) (exec m s).
Proof. unfold outcome, exec, bind. destruct (m s) as [[x|e] s']; cbn; congruence. Qed.

End MonadFacts.

Lemma commandsOf_app a b : commandsOf (a ++ b) = commandsOf a ++ commandsOf b.
Proof. apply flat_map_app. Qed.

Lemma radioOf_app a b : radioOf (a ++ b) = radioOf a ++ radioOf b.
Proof. apply flat_map_app. Qed.

Lemma statusCodesOf_app a b : statusCodesOf (a ++ b) = statusCodesOf a ++ statusCodesOf b.
Proof. apply flat_map_app. Qed.

Lemma networkIO_app a b : networkIO (a ++ b) = networkIO a ++ networkIO b.
Proof. apply filter_app. Qed.

Lemma commandsOf_networkIO t : commandsOf (networkIO t) = commandsOf t.
Proof.
  unfold networkIO, commandsOf, radioOf.
  induction t as [|e t IH]; [reflexivity|].
  destruct e; cbn in *; now rewrite IH.
Qed.

Lemma radioOf_networkIO t : radioOf (networkIO t) = radioOf t.
Proof.
  unfold networkIO, commandsOf, radioOf.
  induction t as [|e t IH]; [reflexivity|].
  destruct e; cbn in *; now rewrite IH.
Qed.

Lemma commandsOf_posts cs : commandsOf (map HttpPostCommand cs) = cs.
Proof.
  unfold commandsOf. induction cs as [|c cs IH]; cbn in *; [reflexivity|].
  now rewrite IH.
Qed.

Lemma radioOf_posts cs : radioOf (map HttpPostCommand cs) = [].
Proof.
  unfold radioOf. induction cs as [|c cs IH]; cbn in *; [reflexivity|]. exact IH.
Qed.

Lemma emitted_app {S : Type} `{HasWorld S} (s s' : S) X :
  trace (world s') = trace (world s) ++ X -> emitted s s' = X.
Proof.
  unfold emitted. intros ->.
  rewrite skipn_app, skipn_all, Nat.sub_diag. reflexivity.
Qed.

(** ** The cloud dispatch cycle of the fan *)

Section FanDispatch.
Import Fan FanObs.
Context `{Conversions}.

Lemma does_bind m k s io1 io2 :
  does m s io1 -> does k (exec m s) io2 -> does (m ;; k) s (io1 ++ io2).
Proof.
  intros (O1 & D1 & P1 & X1 & T1 & N1) (O2 & D2 & P2 & X2 & T2 & N2).
  unfold does. rewrite (outcome_bind _ _ _ _ O1), (exec_bind _ _ _ _ O1).
  split; [exact O2|]. split.
  - unfold sameDevice in *. intuition congruence.
  - split; [congruence|]. exists (X1 ++ X2). split.
    + rewrite T2, T1. now rewrite app_assoc.
    + rewrite networkIO_app. congruence.
Qed.

Lemma does_log l site s : does (log l site) s [].
Proof.
  unfold does, sameDevice. cbn. repeat split. now exists [Log l site].
Qed.

Lemma does_ret s : does (ret tt) s [].
Proof.
  unfold does, sameDevice. cbn. repeat split. exists []. now rewrite app_nil_r.
Qed.

Lemma does_get (k : state -> M state unit) s io :
  does (k s) s io -> does (x <- get ;; k x) s io.
Proof. exact (fun H => H). Qed.

Lemma does_postCommand site b s : does (postCommand site b) s [HttpPostCommand b].
Proof.
  destruct s as [F B L c fl tm [tr pe rs ad bo av]].
  unfold does, sameDevice, outcome, exec.
  destruct rs as [|[e|c0 [e| |d]] rs]; cbv - [app networkIO succeeded].
  all: try (destruct (succeeded _ _)).
  all: repeat split; repeat rewrite <- app_assoc; cbn; eexists; split; reflexivity.
Qed.

Lemma does_desired m s io f : does m s io -> desired f (exec m s) = desired f s.
Proof. intros (_ & (E & _) & _). unfold desired. now rewrite E. Qed.

Lemma does_cached m s io f : does m s io -> cached f (exec m s) = cached f s.
Proof. intros (_ & (_ & _ & _ & E & _) & _). unfold cached. now rewrite E. Qed.

Lemma does_pushRotationSpeedChanges s :
  does pushRotationSpeedChanges s
    (if differs SwingMode s then [HttpPostCommand (windSpeedCommand s)] else []).
Proof.
  unfold pushRotationSpeedChanges.
  apply (does_bind _ _ _ [] _ (does_log _ _ _)).
  apply does_get.
  replace (strict_neq _ _) with (differs SwingMode s) by reflexivity.
  destruct (differs SwingMode s).
  - apply does_postCommand.
  - apply does_log.
Qed.

Lemma does_pushSwingModeChanges s :
  does pushSwingModeChanges s
    (if differs SwingMode s then
       [HttpPostCommand
          {| command := "setOscillation";
             parameter := if strict_eq (desired SwingMode s) hap.SWING_ENABLED
                          then "on" else "off";
             commandType := "command" |}]
     else []).
Proof.
  unfold pushSwingModeChanges.
  apply (does_bind _ _ _ [] _ (does_log _ _ _)).
  apply does_get.
  replace (strict_neq _ _) with (differs SwingMode s) by reflexivity.
  destruct (differs SwingMode s).
  - apply does_postCommand.
  - apply does_log.
Qed.


Lemma does_when (b : bool) m s io :
  (b = true -> does m s io) -> does (when b m) s (if b then io else []).
Proof.
  destruct b; cbn; intros D; [now apply D | apply does_ret].
Qed.

Lemma does_openAPIpushChanges s :
  does openAPIpushChanges s
    (map HttpPostCommand (powerCommand s ++ speedCommand s ++ oscillationCommand s)).
Proof.
  unfold openAPIpushChanges. rewrite !map_app.
  apply (does_bind _ _ _ [] (_ ++ _ ++ _) (does_log _ _ _)).
  apply does_get.
  set (s1 := exec (log debug "openAPIpushChanges") s).
  assert (D1 : does
    (if strict_neq (FanService.Active (Fan s1)) (Context.Active (context s1))
     then postCommand "failed openAPIpushChanges"
            {| command := if truthy (FanService.Active (Fan s1)) then "turnOn" else "turnOff";
               parameter := "default"; commandType := "command" |}
     else log debug "No openAPIpushChanges") s1
    (map HttpPostCommand (powerCommand s))).
  { unfold powerCommand.
    change (differs Active s)
      with (strict_neq (FanService.Active (Fan s1)) (Context.Active (context s1))).
    destruct (strict_neq (FanService.Active (Fan s1)) (Context.Active (context s1)));
      [apply does_postCommand | apply does_log]. }
  apply (does_bind _ _ _ _ (_ ++ _) D1).
  set (s2 := exec _ s1) in *.
  apply does_get.
  assert (A2 : forall f, desired f s2 = desired f s /\ cached f s2 = cached f s).
  { intros f. split; [apply (does_desired _ _ _ f D1) | apply (does_cached _ _ _ f D1)]. }
  assert (D2 : does (when (truthy (FanService.Active (Fan s2))) pushRotationSpeedChanges) s2
                 (map HttpPostCommand (speedCommand s))).
  { unfold speedCommand.
    change (FanService.Active (Fan s2)) with (desired Active s2).
    rewrite (proj1 (A2 Active)).
    destruct (truthy (desired Active s)) eqn:T; cbn [when andb].
    - pose proof (does_pushRotationSpeedChanges s2) as D.
      unfold differs, windSpeedCommand in *.
      rewrite !(proj1 (A2 _)), !(proj2 (A2 _)) in D.
      destruct (strict_neq (desired SwingMode s) (cached SwingMode s)); exact D.
    - apply does_ret. }
  apply (does_bind _ _ _ _ _ D2).
  set (s3 := exec _ s2) in *.
  apply does_get.
  assert (A3 : forall f, desired f s3 = desired f s /\ cached f s3 = cached f s).
  { intros f. split.
    - rewrite <- (proj1 (A2 f)). apply (does_desired _ _ _ f D2).
    - rewrite <- (proj2 (A2 f)). apply (does_cached _ _ _ f D2). }
  unfold oscillationCommand.
  change (FanService.Active (Fan s3)) with (desired Active s3).
  rewrite (proj1 (A3 Active)).
  destruct (truthy (desired Active s)) eqn:T; cbn [when andb].
  - pose proof (does_pushSwingModeChanges s3) as D.
    unfold differs in *.
    rewrite !(proj1 (A3 _)), !(proj2 (A3 _)) in D.
    destruct (strict_neq (desired SwingMode s) (cached SwingMode s)); exact D.
  - apply does_ret.
Qed.

End FanDispatch.

Section FanDispatchClaims.
Import Fan FanObs.
#[local] Existing Instance decimal | 100.

Lemma emitted_env s s' X :
  trace (env s') = trace (env s) ++ X -> emitted s s' = X.
Proof. exact (emitted_app s s' X). Qed.

Lemma openAPIpushChanges_commands `{Conversions} s :
  commandsOf (emitted s (exec openAPIpushChanges s))
  = powerCommand s ++ speedCommand s ++ oscillationCommand s.
Proof.
  destruct (does_openAPIpushChanges s) as (_ & _ & _ & X & T & N).
  rewrite (emitted_env _ _ _ T).
  rewrite <- commandsOf_networkIO, N. apply commandsOf_posts.
Qed.




(** What the amended C1 leaves open: [pushRotationSpeedChanges] tests the
    SwingMode pair, so a changed speed alone sends nothing, and a changed
    oscillation alone sends the unchanged speed. *)
Example speed_change_alone_sends_nothing :
  differs RotationSpeed faster = true /\
  commandsOf (emitted faster (exec openAPIpushChanges faster)) = [].
Proof. split; [reflexivity|]. rewrite openAPIpushChanges_commands. reflexivity. Qed.

Example oscillation_change_alone_sends_speed :
  differs RotationSpeed oscillating = false /\
  commandsOf (emitted oscillating (exec openAPIpushChanges oscillating))
  = [{| command := "setWindSpeed"; parameter := "0"; commandType := "command" |};
     {| command := "setOscillation"; parameter := "on"; commandType := "command" |}].
Proof. split; [reflexivity|]. rewrite openAPIpushChanges_commands. reflexivity. Qed.

(** C10: with the desired Active falsy, a cloud dispatch cycle sends no
    [setWindSpeed] and no [setOscillation], whatever the other fields
    are, and leaves the desired and cached values as they were, so that
    the difference is still there for a later cycle. *)
Theorem inactive_withholds_secondary `{Conversions} s :
  truthy (desired Active s) = false ->
  commandsFor RotationSpeed (emitted s (exec openAPIpushChanges s)) = [] /\
  commandsFor SwingMode (emitted s (exec openAPIpushChanges s)) = [] /\
  forall f, desired f (exec openAPIpushChanges s) = desired f s /\
            cached f (exec openAPIpushChanges s) = cached f s /\
            differs f (exec openAPIpushChanges s) = differs f s.
Proof.
  intros Off. unfold commandsFor. rewrite openAPIpushChanges_commands.
  unfold powerCommand, speedCommand, oscillationCommand. rewrite Off. cbn [andb].
  rewrite !app_nil_r.
  pose proof (does_openAPIpushChanges s) as D.
  split; [|split].
  - destruct (differs Active s); reflexivity.
  - destruct (differs Active s); reflexivity.
  - intros f. unfold differs.
    rewrite (does_desired _ _ _ f D), (does_cached _ _ _ f D). auto.
Qed.

Lemma inactive_withholds_secondary_witness :
  truthy (desired Active withheld) = false /\
  differs SwingMode withheld = true /\
  commandsFor SwingMode (emitted withheld (exec openAPIpushChanges withheld)) = [] /\
  differs SwingMode (exec openAPIpushChanges withheld) = true.
Proof.
  split; [reflexivity|]. split; [reflexivity|].
  destruct (inactive_withholds_secondary withheld eq_refl) as (_ & O & K).
  split; [exact O|].
  destruct (K SwingMode) as (_ & _ & ->). reflexivity.
Defined.


Lemma does_updateCharacteristic c v s : does (updateCharacteristic c v) s [].
Proof.
  unfold does, sameDevice. cbn. repeat split. now exists [UpdateCharacteristic c (Val v)].
Qed.

Lemma does_offlineOff device s : does (offlineOff device) s [].
Proof.
  unfold offlineOff. destruct (offline device); cbn [when]; [|apply does_ret].
  apply (does_bind _ _ _ [] [] (does_updateCharacteristic _ _ _)).
  apply (does_bind _ _ _ [] [] (does_updateCharacteristic _ _ _)).
  apply does_updateCharacteristic.
Qed.

Lemma does_BLEpushChanges_idle s :
  differs Active s = false -> does BLEpushChanges s [].
Proof.
  intros E. unfold BLEpushChanges.
  apply (does_bind _ _ _ [] [] (does_log _ _ _)).
  apply does_get.
  change (strict_neq _ _) with (differs Active s). rewrite E.
  apply does_log.
Qed.

Lemma differs_false f s :
  strict_eq (desired f s) (cached f s) = true -> differs f s = false.
Proof. unfold differs, strict_neq. now intros ->. Qed.

Lemma does_openAPIpushChanges_idle `{Conversions} s :
  (forall f, strict_eq (desired f s) (cached f s) = true) ->
  does openAPIpushChanges s [].
Proof.
  intros E. pose proof (does_openAPIpushChanges s) as D.
  unfold powerCommand, speedCommand, oscillationCommand in D.
  rewrite !(differs_false _ _ (E _)), andb_false_r in D. exact D.
Qed.

Lemma does_quiet m s : does m s [] ->
  networkIO (emitted s (exec m s)) = [] /\ pending (env (exec m s)) = pending (env s).
Proof.
  intros (_ & _ & P & X & T & N). now rewrite (emitted_env _ _ _ T).
Qed.



End FanDispatchClaims.

(** ** The radio dispatch and the offline branch *)

Section FanRadioOffline.
Import Fan FanObs.
#[local] Existing Instance decimal | 100.

(** C9: when the radio dispatch succeeds, the desired Active is [false]
    afterwards, whether [turnOn] or [turnOff] was sent: [BLEpushChanges]
    leaves the promise chain to run, and the chain, once the command has
    resolved, assigns [false]. *)
Theorem ble_success_clears_active `{Conversions} device s os :
  differs Active s = true ->
  bleAdapter (env s) = true ->
  bleOutcomes (env s) = CommandResolves :: os ->
  pending (env s) = [] ->
  let s1 := exec BLEpushChanges s in
  let s2 := exec (runTask device (BLEpushChain CommandResolves)) s1 in
  outcome BLEpushChanges s = Returns tt /\
  pending (env s1) = [BLEpushChain CommandResolves] /\
  radioOf (emitted s s2) = [if truthy (desired Active s) then turnOn else turnOff] /\
  FanService.Active (Fan s2) = JBool false.
Proof.
  intros D Ha Ho Hp s1 s2.
  destruct s as [[A SM RS] B L [cA cRS cSM cB cC cSL cO cBr cv cdv] fl tm [tr pe rs ad bo av]].
  unfold differs in D.
  cbn [desired cached Fan context env FanService.Active Context.Active
       bleAdapter bleOutcomes pending] in D, Ha, Ho, Hp.
  subst ad bo pe.
  subst s1 s2.
  unfold outcome, exec, emitted.
  cbv - [app strict_neq truthy radioOf skipn List.length]. rewrite D.
  cbv - [app strict_neq truthy radioOf skipn List.length].
  destruct (truthy A); cbv - [app radioOf skipn List.length];
    (split; [reflexivity|]; split; [reflexivity|]; split; [|reflexivity]);
    repeat rewrite <- app_assoc;
    rewrite skipn_app, skipn_all, Nat.sub_diag; reflexivity.
Qed.

Lemma ble_success_clears_active_witness :
  (truthy (desired Active turningOff) = false /\
   FanService.Active
     (Fan (exec (runTask radio (BLEpushChain CommandResolves))
             (exec BLEpushChanges turningOff))) = JBool false) /\
  (truthy (desired Active turningOn) = true /\
   FanService.Active
     (Fan (exec (runTask radio (BLEpushChain CommandResolves))
             (exec BLEpushChanges turningOn))) = JBool false).
Proof.
  split; (split; [reflexivity|]).
  - apply (ble_success_clears_active radio turningOff []); reflexivity.
  - apply (ble_success_clears_active radio turningOn []); reflexivity.
Defined.


(** C7 (as stated) fails: a device flagged offline that is configured for
    the cloud still polls the cloud on refresh and still sends commands on
    push, and the hub is not told the baseline. *)
Lemma offline_cloud_device_uses_network :
  offline offlineCloud = true /\
  networkIO (emitted fresh (exec (@refreshStatus decimal offlineCloud) fresh))
    = [HttpGetStatus] /\
  networkIO (emitted turningOn (exec (pushChanges offlineCloud) turningOn))
    = [HttpPostCommand {| command := "turnOn"; parameter := "default";
                          commandType := "command" |}].
Proof. repeat split. Qed.

(** C7 (amended): for a device flagged offline, when refresh or push
    reaches the branch taken without a transport (not the radio, not the
    cloud with a token, not the cloud service switched off), no transport
    is used and the hub characteristics Active, RotationSpeed and
    SwingMode are set to INACTIVE, 0 and SWING_DISABLED, on every such
    cycle; the fields of the accessory itself stay as they are. *)
Theorem offline_without_transport `{Conversions} device s :
  offline device = true ->
  negb (enableCloudService device) && OpenAPI device = false ->
  BLE device = false ->
  OpenAPI device && token device = false ->
  (emitted s (exec (refreshStatus device) s)
     = offlineBaseline ++ [Log debugWarn "refreshStatus will not happen"] /\
   networkIO (emitted s (exec (refreshStatus device) s)) = [] /\
   sameDevice s (exec (refreshStatus device) s) /\
   pending (env (exec (refreshStatus device) s)) = pending (env s)) /\
  (emitted s (exec (pushChanges device) s)
     = offlineBaseline ++ [Log debugWarn "pushChanges will not happen"] /\
   networkIO (emitted s (exec (pushChanges device) s)) = [] /\
   Fan (exec (pushChanges device) s) = Fan s /\
   context (exec (pushChanges device) s) = context s /\
   pending (env (exec (pushChanges device) s)) = pending (env s)).
Proof.
  intros Off C B T.
  assert (R : emitted s (exec (refreshStatus device) s)
              = offlineBaseline ++ [Log debugWarn "refreshStatus will not happen"]).
  { apply emitted_env. unfold refreshStatus, offlineOff. rewrite Off, C, B, T.
    cbn. now rewrite <- !app_assoc. }
  assert (P : emitted s (exec (pushChanges device) s)
              = offlineBaseline ++ [Log debugWarn "pushChanges will not happen"]).
  { apply emitted_env. unfold pushChanges, offlineOff. rewrite Off, C, B, T.
    cbn. now rewrite <- !app_assoc. }
  rewrite R, P. split.
  - unfold refreshStatus, offlineOff, sameDevice. rewrite Off, C, B, T. cbn. tauto.
  - unfold pushChanges, offlineOff. rewrite Off, C, B, T. cbn. tauto.
Qed.

Lemma offline_without_transport_witness :
  emitted fresh (exec (@refreshStatus decimal disconnected) fresh)
    = offlineBaseline ++ [Log debugWarn "refreshStatus will not happen"] /\
  emitted fresh (exec (pushChanges disconnected) fresh)
    = offlineBaseline ++ [Log debugWarn "pushChanges will not happen"].
Proof.
  destruct (@offline_without_transport decimal disconnected fresh
              eq_refl eq_refl eq_refl eq_refl) as ((R & _) & (P & _)).
  split; [exact R | exact P].
Defined.

End FanRadioOffline.

(** ** Reconciliation of the battery reading *)

Section BatteryRules.
Context `{Conversions}.

Lemma fan_openAPIparseStatus_battery d b (s : Fan.state) :
  ds_body d = Some b ->
  Fan.BatteryService.BatteryLevel (Fan.Battery (exec (Fan.openAPIparseStatus d) s))
    = batteryLevelOf (Number (battery b)) /\
  Fan.BatteryService.StatusLowBattery (Fan.Battery (exec (Fan.openAPIparseStatus d) s))
    = lowBatteryOf (Number (battery b)).
Proof.
  intros Hb. destruct s as [F B L c fl tm w].
  unfold Fan.openAPIparseStatus, read_body, exec. rewrite Hb.
  remember (Number (battery b)) as n eqn:En.
  cbv - [Number Version.strip ToString truthy strict_eq Z.ltb battery version].
  rewrite <- En. cbn [Number].
  destruct n as [|z]; [|destruct (z <? 10)];
    destruct (truthy (version b)); split; reflexivity.
Qed.

Lemma motion_openAPIparseStatus_battery device d b (s : Motion.state) :
  ds_body d = Some b ->
  MotionObs.lightSensorReady device s ->
  Motion.BatteryService.BatteryLevel
    (Motion.Battery (exec (Motion.openAPIparseStatus device d) s))
    = batteryLevelOf (Number (battery b)) /\
  Motion.BatteryService.StatusLowBattery
    (Motion.Battery (exec (Motion.openAPIparseStatus device d) s))
    = lowBatteryOf (Number (battery b)).
Proof.
  intros Hb Hl. destruct s as [M B L c fl tm w].
  unfold MotionObs.lightSensorReady in Hl. cbn in Hl.
  unfold Motion.openAPIparseStatus, read_body, exec. rewrite Hb.
  destruct (hide_lightsensor device).
  - remember (Number (battery b)) as n eqn:En.
    cbv - [Number Version.strip ToString truthy strict_eq Z.ltb battery version].
    rewrite <- En. cbn [Number].
    destruct n as [|z]; [|destruct (z <? 10)];
      destruct (truthy (version b)); split; reflexivity.
  - destruct L as [l|]; [|now destruct (Hl eq_refl)].
    remember (Number (battery b)) as n eqn:En.
    cbv - [Number Version.strip ToString truthy strict_eq Z.ltb nullish
           battery version brightness].
    rewrite <- En. cbn [Number].
    destruct (strict_eq (brightness b) (JStr "dim"));
    (destruct n as [|z]; [|destruct (z <? 10)]);
      destruct (truthy (version b)); split; reflexivity.
Qed.


Ltac crunch En :=
  repeat (cbv - [Number truthy strict_eq strict_neq Z.ltb nullish orb andb
                 Version.strip ToString battery version brightness
                 sd_battery sd_movement sd_lightLevel sd_state];
          try rewrite <- En; cbn [Number];
          match goal with
          | |- context [match ?n with NaN => _ | Int _ => _ end] => destruct n
          | |- context [if ?c then _ else _] => destruct c
          end).

Lemma motion_BLEparseStatus_battery device sd (s : Motion.state) :
  MotionObs.lightSensorReady device s ->
  let reading := if strict_eq (sd_battery sd) JUndefined then JNum 100 else sd_battery sd in
  Motion.BatteryService.BatteryLevel
    (Motion.Battery (exec (Motion.BLEparseStatus device (Some sd)) s)) = reading /\
  Motion.BatteryService.StatusLowBattery
    (Motion.Battery (exec (Motion.BLEparseStatus device (Some sd)) s))
    = lowBatteryOf (Number reading).
Proof.
  intros Hl reading. destruct s as [M B L c fl tm w].
  unfold MotionObs.lightSensorReady in Hl. cbn in Hl.
  unfold Motion.BLEparseStatus, exec. fold reading.
  remember reading as r eqn:Er. clear Er reading.
  remember (Number r) as n eqn:En.
  destruct (hide_lightsensor device).
  - crunch En; split; reflexivity.
  - destruct L as [l|]; [|now destruct (Hl eq_refl)].
    crunch En; split; reflexivity.
Qed.


Lemma lowBatteryOf_low n :
  lowBatteryOf n = hap.BATTERY_LEVEL_LOW <-> exists z, n = Int z /\ z < 10.
Proof.
  destruct n as [|z]; cbn.
  - split; [discriminate | intros (z & E & _); discriminate].
  - destruct (Z.ltb_spec z 10); split; try discriminate; try reflexivity.
    + intros _. now exists z.
    + intros (z' & E & L). injection E as ->. lia.
Qed.

(** C3 (amended): the battery rules keep the reading as the number it
    converts to, without clamping it, and 100 when that number is NaN (as
    for an absent value); StatusLowBattery is LOW exactly when the number
    is below 10 and NORMAL otherwise.  The radio rule of the motion
    sensor keeps the reading itself, and 100 when it is absent. *)
Theorem battery_reconciliation device d b sd (fs : Fan.state) (ms : Motion.state) :
  ds_body d = Some b ->
  MotionObs.lightSensorReady device ms ->
  let n := Number (battery b) in
  let fs' := exec (Fan.openAPIparseStatus d) fs in
  let ms' := exec (Motion.openAPIparseStatus device d) ms in
  let reading := if strict_eq (sd_battery sd) JUndefined then JNum 100 else sd_battery sd in
  let mb' := exec (Motion.BLEparseStatus device (Some sd)) ms in
  (Fan.BatteryService.BatteryLevel (Fan.Battery fs') = batteryLevelOf n /\
   Fan.BatteryService.StatusLowBattery (Fan.Battery fs') = lowBatteryOf n) /\
  (Motion.BatteryService.BatteryLevel (Motion.Battery ms') = batteryLevelOf n /\
   Motion.BatteryService.StatusLowBattery (Motion.Battery ms') = lowBatteryOf n) /\
  (Motion.BatteryService.BatteryLevel (Motion.Battery mb') = reading /\
   Motion.BatteryService.StatusLowBattery (Motion.Battery mb')
     = lowBatteryOf (Number reading)) /\
  (battery b = JUndefined -> batteryLevelOf n = JNum 100) /\
  (forall m, lowBatteryOf m = hap.BATTERY_LEVEL_LOW <-> exists z, m = Int z /\ z < 10) /\
  (forall m, lowBatteryOf m = hap.BATTERY_LEVEL_LOW \/
             lowBatteryOf m = hap.BATTERY_LEVEL_NORMAL).
Proof.
  intros Hb Hl n fs' ms' reading mb'.
  split; [apply (fan_openAPIparseStatus_battery d b fs Hb)|].
  split; [apply (motion_openAPIparseStatus_battery device d b ms Hb Hl)|].
  split; [apply (motion_BLEparseStatus_battery device sd ms Hl)|].
  split; [|split].
  - unfold n. now intros ->.
  - apply lowBatteryOf_low.
  - intros [|z]; cbn; [now right|]. destruct (z <? 10); auto.
Qed.

End BatteryRules.

(** C3 (as stated) fails on the clamp: a reading of 150 is kept as 150. *)
Lemma battery_level_not_clamped :
  Fan.BatteryService.BatteryLevel
    (Fan.Battery (exec (@Fan.openAPIparseStatus FanObs.decimal (bodyWithBattery (JNum 150)))
                    FanObs.fresh)) = JNum 150 /\
  Motion.BatteryService.BatteryLevel
    (Motion.Battery (exec (@Motion.openAPIparseStatus FanObs.decimal FanObs.cloud
                             (bodyWithBattery (JNum 150)))
                       MotionObs.fresh)) = JNum 150 /\
  ~ clamped (JNum 150).
Proof.
  split; [reflexivity|]. split; [reflexivity|].
  intros (z & E & _ & L). injection E as <-. lia.
Qed.

Lemma battery_reconciliation_witness :
  Fan.BatteryService.BatteryLevel
    (Fan.Battery (exec (@Fan.openAPIparseStatus FanObs.decimal (bodyWithBattery (JStr "7")))
                    FanObs.fresh)) = JNum 7 /\
  Fan.BatteryService.StatusLowBattery
    (Fan.Battery (exec (@Fan.openAPIparseStatus FanObs.decimal (bodyWithBattery (JStr "7")))
                    FanObs.fresh)) = hap.BATTERY_LEVEL_LOW.
Proof.
  refine (proj1 (@battery_reconciliation FanObs.decimal FanObs.cloud
                   (bodyWithBattery (JStr "7")) _
                   {| sd_state := JUndefined; sd_movement := JBool false;
                      sd_lightLevel := JNum 1; sd_battery := JUndefined |}
                   FanObs.fresh MotionObs.fresh eq_refl _)).
  intros _. discriminate.
Defined.

(** ** Invariants kept by whole methods *)

Section Keeps.
Context {S : Type} (R : S -> S -> Prop).
Hypothesis R_refl : forall s, R s s.
Hypothesis R_trans : forall a b c, R a b -> R b c -> R a c.

Lemma keeps_ret {A} (a : A) : keeps R (ret a).
Proof. intros s. apply R_refl. Qed.

Lemma keeps_throw {A} e : keeps R (throw (A := A) e).
Proof. intros s. apply R_refl. Qed.

Lemma keeps_get : keeps R get.
Proof. intros s. apply R_refl. Qed.

Lemma keeps_modify f : (forall s, R s (f s)) -> keeps R (modify f).
Proof. intros F s. apply F. Qed.

Lemma keeps_bind {A B} (m : M S A) (k : A -> M S B) :
  keeps R m -> (forall a, keeps R (k a)) -> keeps R (bind m k).
Proof.
  intros Km Kk s. specialize (Km s). unfold exec, bind in *.
  destruct (m s) as [[a|e] s1]; cbn in *; [|exact Km].
  eapply R_trans; [exact Km|]. apply Kk.
Qed.

Lemma keeps_try_catch m h :
  keeps R m -> (forall e, keeps R (h e)) -> keeps R (try_catch m h).
Proof.
  intros Km Kh s. specialize (Km s). unfold exec, try_catch in *.
  destruct (m s) as [[a|e] s1]; cbn in *; [exact Km|].
  eapply R_trans; [exact Km|]. apply Kh.
Qed.

Lemma keeps_unawaited m : keeps R m -> keeps R (unawaited m).
Proof. intros Km s. exact (Km s). Qed.

Lemma keeps_when b m : keeps R m -> keeps R (when b m).
Proof. destruct b; [trivial | intros _; apply keeps_ret]. Qed.

End Keeps.

(** One step of a proof that a method keeps a relation: through the
    control structure, down to the primitive effects.  [refl] and [trans]
    prove that the relation is reflexive and transitive. *)
Ltac keeps_step refl trans :=
  lazymatch goal with
  | |- keeps _ (ret _) => apply keeps_ret; refl
  | |- keeps _ (throw _) => apply keeps_throw; refl
  | |- keeps _ get => apply keeps_get; refl
  | |- keeps _ (bind _ _) => apply keeps_bind; [trans | | intros ?]
  | |- keeps _ (try_catch _ _) => apply keeps_try_catch; [trans | | intros ?]
  | |- keeps _ (unawaited _) => apply keeps_unawaited
  | |- keeps _ (when _ _) => apply keeps_when; [refl | ]
  | |- keeps _ (if ?c then _ else _) => destruct c
  | |- keeps _ (match ?x with _ => _ end) => destruct x
  | |- keeps _ (let _ := _ in _) => cbv zeta
  end.

Section Grows.
Context {S : Type} `{HasWorld S} (P : event -> Prop).

Lemma grows_refl (s : S) : grows P s s.
Proof. exists []. split; [now rewrite app_nil_r | constructor]. Qed.

Lemma grows_trans (a b c : S) : grows P a b -> grows P b c -> grows P a c.
Proof.
  intros (X & EX & FX) (Y & EY & FY). exists (X ++ Y). split.
  - now rewrite EY, EX, app_assoc.
  - apply Forall_app. now split.
Qed.

End Grows.

Section GrowsEffects.
Context {S : Type} `{HasWorld S} (P : event -> Prop).

Lemma grows_eq (s s' : S) : world s' = world s -> grows P s s'.
Proof. intros E. exists []. rewrite E, app_nil_r. split; [reflexivity | constructor]. Qed.

Lemma keeps_emit e : P e -> keeps (grows P) (emit e).
Proof.
  intros Pe s. exists [e]. unfold exec, emit, modify. cbn.
  rewrite world_with_world. split; [reflexivity | now constructor].
Qed.

End GrowsEffects.

Lemma statusCodesOf_none X : Forall notStatusCode X -> statusCodesOf X = [].
Proof.
  induction 1 as [|e X Pe _ IH]; [reflexivity|].
  unfold statusCodesOf in *. destruct e; cbn in *; try exact IH. contradiction.
Qed.

(** Finishes the leaves [keeps_step] arrives at: an event written, or a
    change that leaves the surroundings alone. *)
Ltac grows_leaf :=
  lazymatch goal with
  | |- keeps _ (modify _) => apply keeps_modify; intros ?; apply grows_eq; reflexivity
  | |- keeps _ (emit _) => apply keeps_emit; exact I
  | |- keeps _ (log _ _) => apply keeps_emit; exact I
  | |- keeps _ (updateCharacteristic _ _) => apply keeps_emit; exact I
  | |- keeps _ (updateCharacteristicError _ _) => apply keeps_emit; exact I
  end.

Ltac grows_auto :=
  repeat first
    [ grows_leaf
    | keeps_step ltac:(exact (grows_refl _)) ltac:(exact (grows_trans _)) ].

Section SuccessPredicate.
Context `{Conversions}.

Lemma fan_parse_keeps d :
  keeps (grows notStatusCode) (Fan.openAPIparseStatus d).
Proof.
  unfold Fan.openAPIparseStatus, read_body. grows_auto.
Qed.

Lemma fan_update_keeps :
  keeps (grows notStatusCode) Fan.updateHomeKitCharacteristics.
Proof.
  unfold Fan.updateHomeKitCharacteristics, Fan.updateOne. grows_auto.
Qed.

Lemma motion_parse_keeps device d :
  keeps (grows notStatusCode) (Motion.openAPIparseStatus device d).
Proof.
  unfold Motion.openAPIparseStatus, read_body, Motion.assign_CurrentAmbientLightLevel.
  grows_auto.
Qed.

Lemma motion_update_keeps device :
  keeps (grows notStatusCode) (Motion.updateHomeKitCharacteristics device).
Proof.
  unfold Motion.updateHomeKitCharacteristics, Motion.updateOne,
    Motion.read_CurrentAmbientLightLevel.
  grows_auto.
Qed.

Lemma outcome_try_catch {S : Type} (m : M S unit) h s :
  (forall e s', outcome (h e) s' = Returns tt) ->
  outcome (try_catch m h) s = Returns tt.
Proof.
  intros Hh. unfold outcome, try_catch in *.
  destruct (m s) as [[[]|e] s']; [reflexivity | apply Hh].
Qed.

Lemma fan_fetch_returns s : outcome Fan.openAPIRefreshStatus s = Returns tt.
Proof.
  unfold Fan.openAPIRefreshStatus.
  rewrite (outcome_bind (log debug "openAPIRefreshStatus") _ s tt eq_refl).
  apply outcome_try_catch. reflexivity.
Qed.

Lemma motion_fetch_returns device s :
  outcome (Motion.openAPIRefreshStatus device) s = Returns tt.
Proof.
  unfold Motion.openAPIRefreshStatus.
  rewrite (outcome_bind (log debug "openAPIRefreshStatus") _ s tt eq_refl).
  apply outcome_try_catch. reflexivity.
Qed.

Lemma fan_fetch_rejected (s : Fan.state) c d rs :
  responses (Fan.env s) = Responds c (JsonObject d) :: rs ->
  succeeded c (ds_statusCode d) = false ->
  emitted s (exec Fan.openAPIRefreshStatus s)
    = fetchPreamble ++ [StatusCodeLog c; StatusCodeLog (ds_statusCode d)] /\
  FanObs.sameDevice s (exec Fan.openAPIRefreshStatus s).
Proof.
  intros Hr Hs. destruct s as [F B L cx fl tm [tr pe rsp ad bo av]].
  cbn in Hr. subst rsp.
  unfold Fan.openAPIRefreshStatus, exec, FanObs.sameDevice, emitted.
  cbv - [app succeeded skipn List.length Fan.openAPIparseStatus
         Fan.updateHomeKitCharacteristics ds_statusCode].
  rewrite Hs. cbv - [app skipn List.length ds_statusCode].
  repeat rewrite <- app_assoc.
  rewrite skipn_app, skipn_all, Nat.sub_diag. cbn. tauto.
Qed.

Lemma fan_fetch_accepted (s : Fan.state) c d rs :
  responses (Fan.env s) = Responds c (JsonObject d) :: rs ->
  succeeded c (ds_statusCode d) = true ->
  exists Y,
    emitted s (exec Fan.openAPIRefreshStatus s)
      = fetchPreamble ++ Log debugSuccess "openAPIRefreshStatus" :: Y /\
    Forall notStatusCode Y.
Proof.
  intros Hr Hs. destruct s as [F B L cx fl tm [tr pe rsp ad bo av]].
  cbn in Hr. subst rsp.
  set (s0 := {| Fan.Fan := F; Fan.Battery := B; Fan.LightBulb := L; Fan.context := cx;
                Fan.fanUpdateInProgress := fl; Fan.timers := tm;
                Fan.env := {| trace := tr ++ fetchPreamble
                                          ++ [Log debugSuccess "openAPIRefreshStatus"];
                              pending := pe; responses := rs; bleAdapter := ad;
                              bleOutcomes := bo; handlerServiceData := av |} |}).
  assert (E : exec Fan.openAPIRefreshStatus
                {| Fan.Fan := F; Fan.Battery := B; Fan.LightBulb := L; Fan.context := cx;
                   Fan.fanUpdateInProgress := fl; Fan.timers := tm;
                   Fan.env := {| trace := tr; pending := pe;
                                 responses := Responds c (JsonObject d) :: rs;
                                 bleAdapter := ad; bleOutcomes := bo;
                                 handlerServiceData := av |} |}
              = exec Fan.updateHomeKitCharacteristics (exec (Fan.openAPIparseStatus d) s0)).
  { unfold Fan.openAPIRefreshStatus, exec, s0, fetchPreamble.
    cbv - [app succeeded Fan.openAPIparseStatus Fan.updateHomeKitCharacteristics
           ds_statusCode].
    rewrite Hs. repeat rewrite <- app_assoc. reflexivity. }
  rewrite E.
  destruct (fan_parse_keeps d s0) as (Y1 & E1 & F1).
  destruct (fan_update_keeps (exec (Fan.openAPIparseStatus d) s0)) as (Y2 & E2 & F2).
  exists (Y1 ++ Y2). split; [|now apply Forall_app].
  apply (emitted_app (S := Fan.state)).
  rewrite E2, E1. cbn. repeat rewrite <- app_assoc. reflexivity.
Qed.

Lemma motion_fetch_rejected device (s : Motion.state) c d rs :
  responses (Motion.env s) = Responds c (JsonObject d) :: rs ->
  succeeded c (ds_statusCode d) = false ->
  emitted s (exec (Motion.openAPIRefreshStatus device) s)
    = fetchPreamble ++ [StatusCodeLog c; StatusCodeLog (ds_statusCode d)] /\
  MotionObs.sameDevice s (exec (Motion.openAPIRefreshStatus device) s).
Proof.
  intros Hr Hs. destruct s as [Ms B L cx fl tm [tr pe rsp ad bo av]].
  cbn in Hr. subst rsp.
  unfold Motion.openAPIRefreshStatus, exec, MotionObs.sameDevice, emitted.
  cbv - [app succeeded skipn List.length Motion.openAPIparseStatus
         Motion.updateHomeKitCharacteristics ds_statusCode].
  rewrite Hs. cbv - [app skipn List.length ds_statusCode].
  repeat rewrite <- app_assoc.
  rewrite skipn_app, skipn_all, Nat.sub_diag. cbn. tauto.
Qed.

Lemma motion_fetch_accepted device (s : Motion.state) c d rs :
  responses (Motion.env s) = Responds c (JsonObject d) :: rs ->
  succeeded c (ds_statusCode d) = true ->
  exists Y,
    emitted s (exec (Motion.openAPIRefreshStatus device) s)
      = fetchPreamble ++ Log debugSuccess "openAPIRefreshStatus" :: Y /\
    Forall notStatusCode Y.
Proof.
  intros Hr Hs. destruct s as [Ms B L cx fl tm [tr pe rsp ad bo av]].
  cbn in Hr. subst rsp.
  set (s0 := {| Motion.MotionSensor := Ms; Motion.Battery := B; Motion.LightSensor := L;
                Motion.context := cx;
                Motion.motionUbpdateInProgress := fl; Motion.timers := tm;
                Motion.env := {| trace := tr ++ fetchPreamble
                                          ++ [Log debugSuccess "openAPIRefreshStatus"];
                              pending := pe; responses := rs; bleAdapter := ad;
                              bleOutcomes := bo; handlerServiceData := av |} |}).
  assert (E : exec (Motion.openAPIRefreshStatus device)
                {| Motion.MotionSensor := Ms; Motion.Battery := B; Motion.LightSensor := L;
                Motion.context := cx;
                   Motion.motionUbpdateInProgress := fl; Motion.timers := tm;
                   Motion.env := {| trace := tr; pending := pe;
                                 responses := Responds c (JsonObject d) :: rs;
                                 bleAdapter := ad; bleOutcomes := bo;
                                 handlerServiceData := av |} |}
              = exec (Motion.updateHomeKitCharacteristics device) (exec (Motion.openAPIparseStatus device d) s0)).
  { unfold Motion.openAPIRefreshStatus, exec, s0, fetchPreamble.
    cbv - [app succeeded Motion.openAPIparseStatus Motion.updateHomeKitCharacteristics
           ds_statusCode].
    rewrite Hs. repeat rewrite <- app_assoc. reflexivity. }
  rewrite E.
  destruct (motion_parse_keeps device d s0) as (Y1 & E1 & F1).
  destruct (motion_update_keeps device (exec (Motion.openAPIparseStatus device d) s0)) as (Y2 & E2 & F2).
  exists (Y1 ++ Y2). split; [|now apply Forall_app].
  apply (emitted_app (S := Motion.state)).
  rewrite E2, E1. cbn. repeat rewrite <- app_assoc. reflexivity.
Qed.

Lemma fan_post_answered site b (s : Fan.state) c d rs :
  responses (Fan.env s) = Responds c (JsonObject d) :: rs ->
  emitted s (exec (Fan.postCommand site b) s)
    = postPreamble b ++
      (if succeeded c (ds_statusCode d)
       then [Log debugError "statusCode & deviceStatus StatusCode";
             Log success "sent successfully"]
       else [StatusCodeLog c; StatusCodeLog (ds_statusCode d)]).
Proof.
  intros Hr. destruct s as [F B L cx fl tm [tr pe rsp ad bo av]].
  cbn in Hr. subst rsp.
  unfold Fan.postCommand, exec, emitted.
  cbv - [app succeeded skipn List.length ds_statusCode].
  destruct (succeeded c (ds_statusCode d));
    cbv - [app skipn List.length ds_statusCode];
    repeat rewrite <- app_assoc;
    rewrite skipn_app, skipn_all, Nat.sub_diag; reflexivity.
Qed.

Lemma existsb_success_app X Y :
  existsb isSuccessLog (X ++ Y) = existsb isSuccessLog X || existsb isSuccessLog Y.
Proof. apply existsb_app. Qed.

(** C4: a status fetch and a command write are treated as successful
    exactly when the HTTP status is 200 or 100 and the [statusCode] of
    the body is 200 or 100.  Otherwise both codes are reported, in that
    order, nothing of the accessory changes (for a fetch: the payload is
    not applied, the cached values stay), and in every case, whatever the
    transport answers, the method returns without throwing. *)
Theorem status_success_predicate device site b c d rs
    (fs : Fan.state) (ms : Motion.state) :
  responses (Fan.env fs) = Responds c (JsonObject d) :: rs ->
  responses (Motion.env ms) = Responds c (JsonObject d) :: rs ->
  let bc := ds_statusCode d in
  let accepted := succeeded c bc in
  (accepted = true <->
     (c = JNum 200 \/ c = JNum 100) /\ (bc = JNum 200 \/ bc = JNum 100)) /\
  (let fs' := exec Fan.openAPIRefreshStatus fs in
   existsb isSuccessLog (emitted fs fs') = accepted /\
   statusCodesOf (emitted fs fs') = (if accepted then [] else [c; bc]) /\
   (accepted = false -> FanObs.sameDevice fs fs')) /\
  (let fs' := exec (Fan.postCommand site b) fs in
   existsb isSuccessLog (emitted fs fs') = accepted /\
   statusCodesOf (emitted fs fs') = (if accepted then [] else [c; bc]) /\
   FanObs.sameDevice fs fs') /\
  (let ms' := exec (Motion.openAPIRefreshStatus device) ms in
   existsb isSuccessLog (emitted ms ms') = accepted /\
   statusCodesOf (emitted ms ms') = (if accepted then [] else [c; bc]) /\
   (accepted = false -> MotionObs.sameDevice ms ms')) /\
  (forall s, outcome Fan.openAPIRefreshStatus s = Returns tt) /\
  (forall s, outcome (Fan.postCommand site b) s = Returns tt) /\
  (forall s, outcome (Motion.openAPIRefreshStatus device) s = Returns tt).
Proof.
  intros Hf Hm bc accepted.
  split; [apply succeeded_iff|].
  split; [|split; [|split]].
  - cbv zeta. unfold accepted, bc. destruct (succeeded c (ds_statusCode d)) eqn:A.
    + destruct (fan_fetch_accepted fs c d rs Hf A) as (Y & -> & FY).
      rewrite existsb_success_app, statusCodesOf_app.
      change (statusCodesOf (_ :: Y)) with (statusCodesOf Y).
      rewrite (statusCodesOf_none Y FY). cbn.
      split; [reflexivity | split; [reflexivity | discriminate]].
    + destruct (fan_fetch_rejected fs c d rs Hf A) as (-> & Same).
      split; [reflexivity | split; [reflexivity | intros _; exact Same]].
  - cbv zeta. rewrite (fan_post_answered site b fs c d rs Hf).
    destruct (does_postCommand site b fs) as (_ & Same & _).
    unfold accepted, bc.
    destruct (succeeded c (ds_statusCode d));
      (split; [reflexivity | split; [reflexivity | exact Same]]).
  - cbv zeta. unfold accepted, bc. destruct (succeeded c (ds_statusCode d)) eqn:A.
    + destruct (motion_fetch_accepted device ms c d rs Hm A) as (Y & -> & FY).
      rewrite existsb_success_app, statusCodesOf_app.
      change (statusCodesOf (_ :: Y)) with (statusCodesOf Y).
      rewrite (statusCodesOf_none Y FY). cbn.
      split; [reflexivity | split; [reflexivity | discriminate]].
    + destruct (motion_fetch_rejected device ms c d rs Hm A) as (-> & Same).
      split; [reflexivity | split; [reflexivity | intros _; exact Same]].
  - split; [exact fan_fetch_returns|]. split; [|exact (motion_fetch_returns device)].
    intros s. now destruct (does_postCommand site b s).
Qed.

End SuccessPredicate.

Lemma status_success_predicate_witness :
  statusCodesOf
    (emitted (FanObs.answered (Responds (JNum 200) (JsonObject (bodyWithBattery (JNum 50)))))
       (exec (@Fan.openAPIRefreshStatus FanObs.decimal)
          (FanObs.answered (Responds (JNum 200) (JsonObject (bodyWithBattery (JNum 50)))))))
  = [] /\
  statusCodesOf
    (emitted (FanObs.answered (Responds (JNum 500) (JsonObject (bodyWithBattery (JNum 50)))))
       (exec (@Fan.openAPIRefreshStatus FanObs.decimal)
          (FanObs.answered (Responds (JNum 500) (JsonObject (bodyWithBattery (JNum 50)))))))
  = [JNum 500; JNum 100].
Proof.
  split.
  - exact (proj1 (proj2 (proj1 (proj2
      (@status_success_predicate FanObs.decimal FanObs.cloud "" FanObs.fanOn
         (JNum 200) (bodyWithBattery (JNum 50)) []
         (FanObs.answered _) (MotionObs.answered _) eq_refl eq_refl))))).
  - exact (proj1 (proj2 (proj1 (proj2
      (@status_success_predicate FanObs.decimal FanObs.cloud "" FanObs.fanOn
         (JNum 500) (bodyWithBattery (JNum 50)) []
         (FanObs.answered _) (MotionObs.answered _) eq_refl eq_refl))))).
Defined.

(** ** The webhook handlers *)

Section Webhook.

(** Case analysis on every test left in the goal. *)
Ltac split_tests :=
  repeat (cbv - [strict_eq truthy
                 Fan.wh_version Fan.wh_battery Fan.wh_powerState Fan.wh_oscillation
                 Fan.wh_chargingStatus Fan.wh_fanSpeed Motion.wh_detectionState
                 app skipn List.length];
          match goal with
          | |- context [if ?c then _ else _] => destruct c
          end).

Lemma fan_webhook_fields s c :
  let s' := exec (Fan.webhookEventHandler (Some c)) s in
  Fan.FanService.Active (Fan.Fan s')
    = (if strict_eq (Fan.wh_powerState c) (JStr "ON") then hap.ACTIVE else hap.INACTIVE) /\
  Fan.FanService.SwingMode (Fan.Fan s')
    = (if strict_eq (Fan.wh_oscillation c) (JStr "on")
       then hap.SWING_ENABLED else hap.SWING_DISABLED) /\
  Fan.FanService.RotationSpeed (Fan.Fan s') = Fan.wh_fanSpeed c /\
  Fan.BatteryService.ChargingState (Fan.Battery s')
    = (if strict_eq (Fan.wh_chargingStatus c) (JStr "charging")
       then hap.CHARGING else hap.NOT_CHARGING) /\
  Fan.BatteryService.BatteryLevel (Fan.Battery s') = Fan.wh_battery c /\
  Fan.Context.version (Fan.context s')
    = (if truthy (Fan.wh_version c) then Fan.wh_version c
       else Fan.Context.version (Fan.context s)) /\
  Fan.Context.RotationSpeed (Fan.context s')
    = (if strict_eq (Fan.wh_fanSpeed c) JUndefined
       then Fan.Context.RotationSpeed (Fan.context s) else Fan.wh_fanSpeed c) /\
  Fan.Context.BatteryLevel (Fan.context s')
    = (if strict_eq (Fan.wh_battery c) JUndefined
       then Fan.Context.BatteryLevel (Fan.context s) else Fan.wh_battery c).
Proof.
  destruct s as [[A SM RS] [BL SL CS] L [cA cRS cSM cB cC cSL cO cBr cv cdv] fl tm w].
  unfold Fan.webhookEventHandler, exec.
  split_tests; repeat split.
Qed.







End Webhook.

(** ** The flag and the timers *)

Section Blind.
Context {S : Type} `{HasWorld S} (R : S -> S -> Prop).
Hypothesis R_trans : forall a b c, R a b -> R b c -> R a c.
Hypothesis R_blind : worldBlind R.

Lemma keeps_emit_blind e : keeps R (emit e).
Proof. intros s. apply R_blind. Qed.

Lemma keeps_spawn_blind t : keeps R (spawn t).
Proof. intros s. apply R_blind. Qed.

Lemma keeps_exchange_blind e : keeps R (exchange e).
Proof.
  intros s. unfold exec, exchange.
  assert (K : R s (with_world (fun w => snd (w_next_response w)) (with_world (w_emit e) s))).
  { eapply R_trans; apply R_blind. }
  destruct (fst (w_next_response _)); exact K.
Qed.

Lemma keeps_next_bleOutcome_blind : keeps R next_bleOutcome.
Proof. intros s. apply R_blind. Qed.

Lemma keeps_read_serviceData_blind : keeps R read_serviceData.
Proof. intros s. apply R_blind. Qed.

End Blind.

(** The leaves for a relation that does not look at the surroundings;
    [blind] proves that it does not, and [local] finishes a change of the
    accessory itself. *)
Ltac blind_leaf trans blind local :=
  lazymatch goal with
  | |- keeps _ (emit _) => apply keeps_emit_blind; blind
  | |- keeps _ (log _ _) => apply keeps_emit_blind; blind
  | |- keeps _ (statusCode _) => apply keeps_emit_blind; blind
  | |- keeps _ (updateCharacteristic _ _) => apply keeps_emit_blind; blind
  | |- keeps _ (updateCharacteristicError _ _) => apply keeps_emit_blind; blind
  | |- keeps _ (spawn _) => apply keeps_spawn_blind; blind
  | |- keeps _ (exchange _) => apply keeps_exchange_blind; [trans | blind]
  | |- keeps _ next_bleOutcome => apply keeps_next_bleOutcome_blind; blind
  | |- keeps _ read_serviceData => apply keeps_read_serviceData_blind; blind
  | |- keeps _ connectBLE => intros ?; local
  | |- keeps _ (modify _) => apply keeps_modify; intros ?; local
  end.

Section FanGuards.
Import Fan FanObs.
Context `{Conversions}.
Variable device : Config.

Lemma sameGuards_refl s : sameGuards s s.
Proof. unfold sameGuards. tauto. Qed.

Lemma sameGuards_trans a b c : sameGuards a b -> sameGuards b c -> sameGuards a c.
Proof. unfold sameGuards. intuition congruence. Qed.

Lemma sameGuards_blind : worldBlind sameGuards.
Proof. intros f s. unfold sameGuards. cbn. tauto. Qed.

Ltac guards_auto :=
  repeat first
    [ blind_leaf ltac:(exact sameGuards_trans) ltac:(exact sameGuards_blind)
        ltac:(unfold sameGuards; cbn; tauto)
    | keeps_step ltac:(exact sameGuards_refl) ltac:(exact sameGuards_trans) ].

Lemma refreshStatus_guards : keeps sameGuards (refreshStatus device).
Proof.
  unfold refreshStatus, BLERefreshStatus, BLERefreshConnection, openAPIRefreshStatus,
    offlineOff, apiError, openAPIparseStatus, updateHomeKitCharacteristics, updateOne,
    retryRequest, body_json, read_statusCode, read_body.
  guards_auto.
Qed.

Lemma pushChanges_guards : keeps sameGuards (pushChanges device).
Proof.
  unfold pushChanges, BLEpushChanges, openAPIpushChanges, pushRotationSpeedChanges,
    pushSwingModeChanges, postCommand, offlineOff, apiError,
    request, body_json, read_statusCode.
  guards_auto.
Qed.

Lemma webhook_guards payload : keeps sameGuards (deliver device payload).
Proof.
  unfold deliver, webhookEventHandler, updateHomeKitCharacteristics, updateOne.
  guards_auto.
Qed.

Lemma runTask_guards t : keeps sameGuards (runTask device t).
Proof.
  unfold runTask, BLEpushChained, BLEpushFailed, BLEPushConnection, BLEsend, BLEscanned,
    BLEparseStatus, updateHomeKitCharacteristics, updateOne,
    openAPIpushChanges, pushRotationSpeedChanges,
    pushSwingModeChanges, postCommand, apiError,
    request, body_json, read_statusCode.
  guards_auto.
Qed.

End FanGuards.

(** ** Bursts of setter calls *)

Section Coalescing.
Import Fan FanObs.
Context `{Conversions}.
Variable device : Config.

Lemma hubSet_effect c v s :
  let s1 := exec (hubSet c v) s in
  Fan s1 = assignFan (Fan s) (c, v) /\
  LightBulb s1 = assignLightBulb (LightBulb s) (c, v) /\
  Battery s1 = Battery s /\ context s1 = context s /\
  followUps (timers s1) = followUps (timers s) /\
  skipping (timers s1) = skipping (timers s) /\
  refreshing (timers s1) = refreshing (timers s) /\
  pending (env s1) = pending (env s) /\
  grows isLog s s1 /\
  fanUpdateInProgress s1 = true /\ debounceArmed (timers s1) = true /\
  requested c s1 = v.
Proof.
  destruct s as [F B L cx fl tm w].
  assert (G : forall l site,
            grows isLog
              {| Fan := F; Battery := B; LightBulb := L; context := cx;
                 fanUpdateInProgress := fl; timers := tm; env := w |}
              (with_env (w_emit (Log l site))
                 {| Fan := F; Battery := B; LightBulb := L; context := cx;
                    fanUpdateInProgress := fl; timers := tm; env := w |})).
  { intros l site. exists [Log l site]. split; [reflexivity | now repeat constructor]. }
  destruct c; unfold hubSet, ActiveSet, RotationSpeedSet, SwingModeSet, OnSet,
    BrightnessSet, exec; cbv - [strict_eq truthy grows];
    repeat match goal with |- context [if ?b then _ else _] => destruct b end;
    cbv - [grows]; repeat split; try reflexivity; apply G.
Qed.





Lemma networkIO_logs X : Forall isLog X -> networkIO X = [].
Proof.
  induction 1 as [|e X Pe _ IH]; [reflexivity|].
  destruct e; cbn in *; try contradiction. exact IH.
Qed.

Lemma keeps_weaken {S A : Type} (R R' : S -> S -> Prop) (m : M S A) :
  (forall s s', R s s' -> R' s s') -> keeps R m -> keeps R' m.
Proof. intros W K s. apply W, K. Qed.


End Coalescing.


(** ** The refresh interval *)

Section MotionGuards.
Import Motion MotionObs.
Context `{Conversions}.
Variable device : Config.

Lemma motion_sameGuards_refl s : sameGuards s s.
Proof. unfold sameGuards. tauto. Qed.

Lemma motion_sameGuards_trans a b c :
  sameGuards a b -> sameGuards b c -> sameGuards a c.
Proof. unfold sameGuards. intuition congruence. Qed.

Lemma motion_sameGuards_blind : worldBlind sameGuards.
Proof. intros f s. unfold sameGuards. cbn. tauto. Qed.

Ltac guards_auto :=
  repeat first
    [ blind_leaf ltac:(exact motion_sameGuards_trans) ltac:(exact motion_sameGuards_blind)
        ltac:(unfold sameGuards; cbn; tauto)
    | keeps_step ltac:(exact motion_sameGuards_refl) ltac:(exact motion_sameGuards_trans) ].

Lemma motion_refreshStatus_guards : keeps sameGuards (refreshStatus device).
Proof.
  unfold refreshStatus, BLERefreshStatus, BLERefreshConnection, openAPIRefreshStatus,
    offlineOff, apiError, openAPIparseStatus, updateHomeKitCharacteristics, updateOne,
    assign_CurrentAmbientLightLevel, read_CurrentAmbientLightLevel,
    retryRequest, body_json, read_statusCode, read_body.
  guards_auto.
Qed.

Lemma motion_webhook_guards payload : keeps sameGuards (deliver device payload).
Proof.
  unfold deliver, webhookEventHandler, updateHomeKitCharacteristics, updateOne,
    read_CurrentAmbientLightLevel.
  guards_auto.
Qed.

Lemma motion_runTask_guards t : keeps sameGuards (runTask device t).
Proof.
  unfold runTask, BLEscanned, BLEparseStatus, updateHomeKitCharacteristics, updateOne,
    assign_CurrentAmbientLightLevel, read_CurrentAmbientLightLevel.
  guards_auto.
Qed.

(** Nothing that can happen to a motion sensor changes its flag. *)
Lemma motion_flag_step i s :
  motionUbpdateInProgress (exec (step device i) s) = motionUbpdateInProgress s.
Proof.
  destruct i; cbn [step].
  - unfold exec, bind, get. cbn [fst snd].
    destruct (skipping (timers s) && motionUbpdateInProgress s); reflexivity.
  - unfold exec at 1, bind at 1, get. cbn [fst snd].
    destruct (refreshing (timers s)); [reflexivity|].
    pose proof (motion_refreshStatus_guards (with_timers settleRefresh s)) as (K & _).
    exact K.
  - apply (motion_webhook_guards context_ s).
  - unfold exec at 1, bind at 1, takeTask. 
    destruct (pending (env s)) as [|t ts]; [reflexivity|]. cbn [fst snd].
    match goal with |- context [runTask device t ?s0] =>
      pose proof (motion_runTask_guards t s0) as (K & _) end.
    exact K.
Qed.

Lemma motion_flag_run inputs s :
  motionUbpdateInProgress (run device inputs s) = motionUbpdateInProgress s.
Proof.
  revert s. induction inputs as [|i inputs IH]; intros s; [reflexivity|].
  cbn [run fold_left]. fold (run device inputs (exec (step device i) s)).
  rewrite IH. apply motion_flag_step.
Qed.

End MotionGuards.

Section RefreshGuard.
Context `{Conversions}.
Variable device : Config.

Lemma onFanUpdate_lowers s :
  Fan.fanUpdateInProgress (exec (Fan.onFanUpdate device) s) = false.
Proof.
  unfold Fan.onFanUpdate.
  assert (O : outcome
                (try_catch (Fan.pushChanges device)
                   (fun e => unawaited (Fan.apiError e);; log error "failed pushChanges")) s
              = Returns tt).
  { apply outcome_try_catch. reflexivity. }
  rewrite (exec_bind _ _ _ _ O). reflexivity.
Qed.

Lemma fan_settle_exec s :
  exec (Fan.step device Fan.RefreshSettles) s
  = match refreshing (Fan.timers s) with
    | O => s
    | S _ => exec (Fan.refreshStatus device) (Fan.with_timers Fan.settleRefresh s)
    end.
Proof.
  cbn [Fan.step]. unfold exec at 1, bind at 1, get. cbn [fst snd].
  destruct (refreshing (Fan.timers s)); reflexivity.
Qed.

(** C6 (amended): a tick of the refresh interval is dropped, and nothing
    is kept of it, when the flag is raised and no tick has been let
    through before; a tick that finds the flag down starts an execution
    of [refreshStatus], whatever number of them is still running.  A
    refresh leaves the flag alone: the fan raises it in every setter call
    and lowers it when the debounced push has run; nothing raises it for
    the motion sensor. *)
Theorem refresh_guard (fs : Fan.state) (ms : Motion.state) :
  (Fan.fanUpdateInProgress fs = true -> skipping (Fan.timers fs) = true ->
   exec (Fan.step device Fan.IntervalTick) fs = fs) /\
  (Motion.motionUbpdateInProgress ms = true -> skipping (Motion.timers ms) = true ->
   exec (Motion.step device Motion.IntervalTick) ms = ms) /\
  (Fan.fanUpdateInProgress fs = false ->
   refreshing (Fan.timers (exec (Fan.step device Fan.IntervalTick) fs))
   = S (refreshing (Fan.timers fs))) /\
  (Motion.motionUbpdateInProgress ms = false ->
   refreshing (Motion.timers (exec (Motion.step device Motion.IntervalTick) ms))
   = S (refreshing (Motion.timers ms))) /\
  Fan.fanUpdateInProgress (exec (Fan.refreshStatus device) fs)
    = Fan.fanUpdateInProgress fs /\
  Fan.fanUpdateInProgress (exec (Fan.step device Fan.RefreshSettles) fs)
    = Fan.fanUpdateInProgress fs /\
  (forall c v,
     Fan.fanUpdateInProgress (exec (Fan.step device (Fan.HubSet c v)) fs) = true) /\
  (debounceArmed (Fan.timers fs) = true ->
   Fan.fanUpdateInProgress (exec (Fan.step device Fan.DebounceElapsed) fs) = false) /\
  (forall inputs,
     Motion.motionUbpdateInProgress (Motion.run device inputs ms)
     = Motion.motionUbpdateInProgress ms).
Proof.
  repeat match goal with |- _ /\ _ => split end.
  - intros Fl Sk. cbn [Fan.step]. unfold exec, bind, get. cbn [fst snd].
    now rewrite Fl, Sk.
  - intros Fl Sk. cbn [Motion.step]. unfold exec, bind, get. cbn [fst snd].
    now rewrite Fl, Sk.
  - intros Fl. cbn [Fan.step]. unfold exec, bind, get. cbn [fst snd].
    now rewrite Fl, andb_false_r.
  - intros Fl. cbn [Motion.step]. unfold exec, bind, get. cbn [fst snd].
    now rewrite Fl, andb_false_r.
  - apply (refreshStatus_guards device fs).
  - rewrite fan_settle_exec. destruct (refreshing (Fan.timers fs)); [reflexivity|].
    apply (refreshStatus_guards device (Fan.with_timers Fan.settleRefresh fs)).
  - intros c v. now destruct (hubSet_effect c v fs) as (_ & _ & _ & _ & _ & _ & _ & _ & _ & E & _).
  - intros Arm. cbn [Fan.step]. unfold exec at 1, bind at 1, get. cbn [fst snd].
    rewrite Arm. cbn [when]. unfold exec, bind at 1, modify. cbn [fst snd].
    apply onFanUpdate_lowers.
  - intros inputs. apply motion_flag_run.
Qed.

End RefreshGuard.

(** C6 (as stated) fails: two ticks in a row start two executions of
    [refreshStatus], and while the first one runs the flag is down. *)
Lemma refreshes_overlap :
  Motion.motionUbpdateInProgress
    (@Motion.run FanObs.decimal FanObs.cloud [Motion.IntervalTick] MotionObs.fresh) = false /\
  refreshing (Motion.timers
    (@Motion.run FanObs.decimal FanObs.cloud [Motion.IntervalTick] MotionObs.fresh)) = 1%nat /\
  refreshing (Motion.timers
    (@Motion.run FanObs.decimal FanObs.cloud [Motion.IntervalTick; Motion.IntervalTick]
       MotionObs.fresh)) = 2%nat /\
  refreshing (Fan.timers
    (@Fan.run FanObs.decimal FanObs.cloud [Fan.IntervalTick; Fan.IntervalTick]
       FanObs.fresh)) = 2%nat /\
  ~ @MotionObs.refreshesNeverOverlap FanObs.decimal FanObs.cloud MotionObs.fresh /\
  ~ @FanObs.refreshesNeverOverlap FanObs.decimal FanObs.cloud FanObs.fresh.
Proof.
  repeat (split; [reflexivity|]). split.
  - intros K. specialize (K [Motion.IntervalTick; Motion.IntervalTick]).
    cbn in K. lia.
  - intros K. specialize (K [Fan.IntervalTick; Fan.IntervalTick]).
    cbn in K. lia.
Qed.

Lemma refresh_guard_witness :
  exec (@Fan.step FanObs.decimal FanObs.cloud Fan.IntervalTick)
    (exec (Fan.ActiveSet hap.ACTIVE) FanObs.fresh)
  = exec (Fan.ActiveSet hap.ACTIVE) FanObs.fresh /\
  refreshing (Fan.timers (exec (@Fan.step FanObs.decimal FanObs.cloud Fan.IntervalTick)
                            FanObs.fresh)) = 1%nat.
Proof.
  split.
  - apply (proj1 (@refresh_guard FanObs.decimal FanObs.cloud
                    (exec (Fan.ActiveSet hap.ACTIVE) FanObs.fresh) MotionObs.fresh));
      reflexivity.
  - apply (proj1 (proj2 (proj2 (@refresh_guard FanObs.decimal FanObs.cloud
                                  FanObs.fresh MotionObs.fresh)))).
    reflexivity.
Defined.

(** * Further properties *)

(** ** Caching by [updateHomeKitCharacteristics] *)

Section HubSync.
Import Fan FanObs.
#[local] Existing Instance decimal | 100.

Lemma hubUpdatesOf_app a b : hubUpdatesOf (a ++ b) = hubUpdatesOf a ++ hubUpdatesOf b.
Proof. apply flat_map_app. Qed.

Lemma fan_update_effect s :
  let s' := exec updateHomeKitCharacteristics s in
  outcome updateHomeKitCharacteristics s = Returns tt /\
  Fan s' = Fan s /\ Battery s' = Battery s /\ LightBulb s' = LightBulb s /\
  fanUpdateInProgress s' = fanUpdateInProgress s /\ timers s' = timers s /\
  pending (env s') = pending (env s) /\
  Context.Active (context s')
    = kept (FanService.Active (Fan s)) (Context.Active (context s)) /\
  Context.RotationSpeed (context s')
    = kept (FanService.RotationSpeed (Fan s)) (Context.RotationSpeed (context s)) /\
  Context.SwingMode (context s')
    = kept (FanService.SwingMode (Fan s)) (Context.SwingMode (context s)) /\
  Context.BatteryLevel (context s')
    = kept (BatteryService.BatteryLevel (Battery s)) (Context.BatteryLevel (context s)) /\
  Context.ChargingState (context s')
    = kept (BatteryService.ChargingState (Battery s)) (Context.ChargingState (context s)) /\
  Context.StatusLowBattery (context s')
    = kept (BatteryService.StatusLowBattery (Battery s))
        (Context.StatusLowBattery (context s)) /\
  Context.On (context s') = Context.On (context s) /\
  Context.Brightness (context s') = Context.Brightness (context s) /\
  Context.version (context s') = Context.version (context s) /\
  Context.deviceVersion (context s') = Context.deviceVersion (context s) /\
  hubUpdatesOf (emitted s s')
    = hubUpdateOf Characteristic.Active (FanService.Active (Fan s))
      ++ hubUpdateOf Characteristic.RotationSpeed (FanService.RotationSpeed (Fan s))
      ++ hubUpdateOf Characteristic.SwingMode (FanService.SwingMode (Fan s))
      ++ hubUpdateOf Characteristic.BatteryLevel (BatteryService.BatteryLevel (Battery s))
      ++ hubUpdateOf Characteristic.ChargingState (BatteryService.ChargingState (Battery s))
      ++ hubUpdateOf Characteristic.StatusLowBattery
           (BatteryService.StatusLowBattery (Battery s)) /\
  networkIO (emitted s s') = [].
Proof.
  destruct s as [[A SM RS] [BL SL CS] L [cA cRS cSM cB cC cSL cO cBr cv cdv] fl tm
                   [tr pe rs ad bo av]].
  unfold updateHomeKitCharacteristics, updateOne, exec, outcome, emitted, kept, hubUpdateOf.
  cbv - [strict_eq app skipn List.length hubUpdatesOf networkIO].
  destruct (strict_eq A JUndefined), (strict_eq RS JUndefined), (strict_eq SM JUndefined),
    (strict_eq BL JUndefined), (strict_eq CS JUndefined), (strict_eq SL JUndefined);
    cbv - [app skipn List.length hubUpdatesOf networkIO];
    repeat rewrite <- app_assoc;
    rewrite skipn_app, skipn_all, Nat.sub_diag;
    repeat split.
Qed.


(** X1: [updateHomeKitCharacteristics] never throws and uses no
    transport; every field that is not [undefined] is cached as it is and
    given to the hub, in the order Active, RotationSpeed, SwingMode,
    BatteryLevel, ChargingState, StatusLowBattery, and an [undefined]
    field leaves its cached value alone; the desired values stay.  A cloud
    dispatch cycle right after it sends no command, provided Active and
    SwingMode are neither [undefined] nor NaN. *)
Theorem hub_sync_caches `{Conversions} s :
  let s' := exec updateHomeKitCharacteristics s in
  outcome updateHomeKitCharacteristics s = Returns tt /\
  (forall f, desired f s' = desired f s /\
             cached f s' = kept (desired f s) (cached f s)) /\
  Battery s' = Battery s /\
  Context.BatteryLevel (context s')
    = kept (BatteryService.BatteryLevel (Battery s)) (Context.BatteryLevel (context s)) /\
  Context.ChargingState (context s')
    = kept (BatteryService.ChargingState (Battery s)) (Context.ChargingState (context s)) /\
  Context.StatusLowBattery (context s')
    = kept (BatteryService.StatusLowBattery (Battery s))
        (Context.StatusLowBattery (context s)) /\
  hubUpdatesOf (emitted s s')
    = hubUpdateOf Characteristic.Active (FanService.Active (Fan s))
      ++ hubUpdateOf Characteristic.RotationSpeed (FanService.RotationSpeed (Fan s))
      ++ hubUpdateOf Characteristic.SwingMode (FanService.SwingMode (Fan s))
      ++ hubUpdateOf Characteristic.BatteryLevel (BatteryService.BatteryLevel (Battery s))
      ++ hubUpdateOf Characteristic.ChargingState (BatteryService.ChargingState (Battery s))
      ++ hubUpdateOf Characteristic.StatusLowBattery
           (BatteryService.StatusLowBattery (Battery s)) /\
  networkIO (emitted s s') = [] /\
  ((forall f, f <> RotationSpeed ->
      desired f s <> JUndefined /\ desired f s <> JNumber NaN) ->
   commandsOf (emitted s' (exec openAPIpushChanges s')) = []).
Proof.
  intros s'.
  destruct (fan_update_effect s)
    as (O & EF & EB & _ & _ & _ & _ & CA & CR & CS & CB & CC & CL & _ & _ & _ & _ & HU & NI).
  fold s' in EF, EB, CA, CR, CS, CB, CC, CL, HU, NI.
  split; [exact O|]. split.
  { intros f. unfold desired, cached. rewrite EF. destruct f; auto. }
  repeat (split; [assumption|]).
  intros Def. rewrite openAPIpushChanges_commands.
  assert (Same : forall f, f <> RotationSpeed -> differs f s' = false).
  { intros f Nf. destruct (Def f Nf) as (NU & NN).
    apply differs_false.
    assert (D : desired f s' = desired f s) by (unfold desired; rewrite EF; reflexivity).
    assert (C : cached f s' = kept (desired f s) (cached f s))
      by (unfold desired, cached; destruct f; auto).
    rewrite D, C. unfold kept.
    destruct (strict_eq (desired f s) JUndefined) eqn:U.
    - apply strict_eq_undefined in U. contradiction.
    - now apply strict_eq_refl. }
  unfold powerCommand, speedCommand, oscillationCommand.
  rewrite (Same Active), (Same SwingMode) by discriminate.
  now rewrite andb_false_r.
Qed.

Lemma hub_sync_caches_witness :
  cached RotationSpeed (exec updateHomeKitCharacteristics faster) = JNum 75 /\
  commandsOf (emitted (exec updateHomeKitCharacteristics faster)
                (exec openAPIpushChanges (exec updateHomeKitCharacteristics faster))) = [].
Proof.
  destruct (hub_sync_caches faster) as (_ & F & _ & _ & _ & _ & _ & _ & Idle).
  split.
  - destruct (F RotationSpeed) as (_ & ->). reflexivity.
  - apply Idle. intros f _. destruct f; split; discriminate.
Defined.

End HubSync.

(** ** A status reply that is accepted *)

Section CloudRefresh.
Import Fan FanObs.
Context `{Conversions}.

Lemma fan_parse_fields d b s :
  ds_body d = Some b ->
  let s' := exec (openAPIparseStatus d) s in
  FanService.Active (Fan s') = activeOf b /\
  FanService.SwingMode (Fan s') = swingModeOf b /\
  FanService.RotationSpeed (Fan s') = fanSpeed b /\
  BatteryService.ChargingState (Battery s') = chargingStateOf b /\
  Context.Active (context s') = Context.Active (context s) /\
  Context.RotationSpeed (context s') = Context.RotationSpeed (context s) /\
  Context.SwingMode (context s') = Context.SwingMode (context s) /\
  LightBulb s' = LightBulb s.
Proof.
  intros Hb. destruct s as [[A SM RS] [BL SL CS] L cx fl tm w].
  unfold openAPIparseStatus, read_body, exec, activeOf, swingModeOf, chargingStateOf.
  rewrite Hb.
  remember (Number (battery b)) as n eqn:En.
  cbv - [Number Version.strip ToString truthy strict_eq Z.ltb
         battery version power oscillation fanSpeed chargingStatus
         Context.Active Context.RotationSpeed Context.SwingMode].
  rewrite <- En. cbn [Number].
  destruct n as [|z]; [|destruct (z <? 10)];
    destruct (truthy (version b)); repeat split.
Qed.

Lemma fan_fetch_accepted_exec (s : state) c d rs :
  responses (env s) = Responds c (JsonObject d) :: rs ->
  succeeded c (ds_statusCode d) = true ->
  exec openAPIRefreshStatus s
  = exec updateHomeKitCharacteristics (exec (openAPIparseStatus d) (fanFetched rs s)).
Proof.
  intros Hr Hs. destruct s as [F B L cx fl tm [tr pe rsp ad bo av]].
  cbn in Hr. subst rsp.
  unfold openAPIRefreshStatus, exec, fanFetched, fetchPreamble.
  cbv - [app succeeded openAPIparseStatus updateHomeKitCharacteristics ds_statusCode].
  rewrite Hs. repeat rewrite <- app_assoc. reflexivity.
Qed.


Lemma kept_constant (b : bool) (x y : Z) (old : jsval) :
  kept (if b then JNum x else JNum y) old = (if b then JNum x else JNum y).
Proof. now destruct b. Qed.

Lemma fan_parse_no_body d s :
  ds_body d = None ->
  let s' := exec (openAPIparseStatus d) s in
  Fan s' = Fan s /\ Battery s' = Battery s /\ context s' = context s /\
  LightBulb s' = LightBulb s.
Proof.
  intros Hb. unfold openAPIparseStatus, read_body, exec. rewrite Hb. cbn. tauto.
Qed.

(** X2: when a status reply is accepted and has a body, the desired
    Active, SwingMode, RotationSpeed and ChargingState are the ones the
    body reports, Active and SwingMode are cached as such (RotationSpeed
    too unless [fanSpeed] is absent), and a cloud dispatch cycle right
    after the refresh sends no command. *)
Theorem accepted_refresh_reconciles s c d b rs :
  responses (env s) = Responds c (JsonObject d) :: rs ->
  succeeded c (ds_statusCode d) = true ->
  ds_body d = Some b ->
  let s' := exec openAPIRefreshStatus s in
  desired Active s' = activeOf b /\
  desired SwingMode s' = swingModeOf b /\
  desired RotationSpeed s' = fanSpeed b /\
  BatteryService.ChargingState (Battery s') = chargingStateOf b /\
  cached Active s' = activeOf b /\
  cached SwingMode s' = swingModeOf b /\
  cached RotationSpeed s' = kept (fanSpeed b) (cached RotationSpeed s) /\
  commandsOf (emitted s' (exec openAPIpushChanges s')) = [].
Proof.
  intros Hr Hs Hb s'. unfold s'. rewrite (fan_fetch_accepted_exec s c d rs Hr Hs).
  set (s1 := exec (openAPIparseStatus d) (fanFetched rs s)).
  destruct (fan_parse_fields d b (fanFetched rs s) Hb)
    as (PA & PS & PR & PC & CA & CR & CS & _).
  fold s1 in PA, PS, PR, PC, CA, CR, CS. cbn in CA, CR, CS.
  destruct (fan_update_effect s1)
    as (_ & EF & EB & _ & _ & _ & _ & UA & UR & US & _).
  set (s2 := exec updateHomeKitCharacteristics s1) in *.
  assert (DA : desired Active s2 = activeOf b) by (unfold desired; now rewrite EF).
  assert (DS : desired SwingMode s2 = swingModeOf b) by (unfold desired; now rewrite EF).
  assert (KA : cached Active s2 = activeOf b).
  { unfold cached. rewrite UA, PA. apply kept_constant. }
  assert (KS : cached SwingMode s2 = swingModeOf b).
  { unfold cached. rewrite US, PS. apply kept_constant. }
  repeat split; try assumption.
  - unfold desired. now rewrite EF.
  - now rewrite EB.
  - unfold cached. now rewrite UR, PR, CR.
  - rewrite openAPIpushChanges_commands.
    unfold powerCommand, speedCommand, oscillationCommand, differs.
    rewrite DA, DS, KA, KS. unfold strict_neq, activeOf, swingModeOf.
    destruct (strict_eq (power b) (JStr "on")), (strict_eq (oscillation b) (JStr "on"));
      reflexivity.
Qed.


(** X3: a status reply that is accepted but has no body changes no
    desired value: the parse stops at the first key it reads, nobody sees
    its exception, and the hub update that follows caches the values the
    accessory already had. *)
Theorem accepted_reply_without_body s c d rs :
  responses (env s) = Responds c (JsonObject d) :: rs ->
  succeeded c (ds_statusCode d) = true ->
  ds_body d = None ->
  let s' := exec openAPIRefreshStatus s in
  outcome openAPIRefreshStatus s = Returns tt /\
  Fan s' = Fan s /\ Battery s' = Battery s /\
  (forall f, cached f s' = kept (desired f s) (cached f s)) /\
  statusCodesOf (emitted s s') = [].
Proof.
  intros Hr Hs Hb s'.
  split; [apply fan_fetch_returns|].
  destruct (fan_fetch_accepted s c d rs Hr Hs) as (Y & EY & FY).
  fold s' in EY.
  assert (SC : statusCodesOf (emitted s s') = []).
  { rewrite EY, statusCodesOf_app.
    change (statusCodesOf (_ :: Y)) with (statusCodesOf Y).
    now rewrite (statusCodesOf_none Y FY). }
  unfold s' in *. rewrite (fan_fetch_accepted_exec s c d rs Hr Hs) in *.
  destruct (fan_parse_no_body d (fanFetched rs s) Hb) as (PF & PB & PC & _).
  set (s1 := exec (openAPIparseStatus d) (fanFetched rs s)) in *.
  destruct (fan_update_effect s1)
    as (_ & EF & EB & _ & _ & _ & _ & UA & UR & US & _).
  cbn in PF, PB, PC.
  split; [congruence|]. split; [congruence|]. split; [|exact SC].
  intros f. unfold cached, desired.
  destruct f; rewrite ?UA, ?UR, ?US, PF, PC; reflexivity.
Qed.

End CloudRefresh.

Lemma accepted_refresh_reconciles_witness :
  FanObs.desired FanObs.RotationSpeed
    (exec (@Fan.openAPIRefreshStatus FanObs.decimal)
       (FanObs.answered
          (Responds (JNum 200)
             (JsonObject {| ds_statusCode := JNum 100; ds_body := Some fanReport |}))))
  = JNum 30 /\
  FanObs.cached FanObs.Active
    (exec (@Fan.openAPIRefreshStatus FanObs.decimal)
       (FanObs.answered
          (Responds (JNum 200)
             (JsonObject {| ds_statusCode := JNum 100; ds_body := Some fanReport |}))))
  = hap.ACTIVE.
Proof.
  destruct (@accepted_refresh_reconciles FanObs.decimal
              (FanObs.answered
                 (Responds (JNum 200)
                    (JsonObject {| ds_statusCode := JNum 100; ds_body := Some fanReport |})))
              (JNum 200) {| ds_statusCode := JNum 100; ds_body := Some fanReport |}
              fanReport [] eq_refl eq_refl eq_refl)
    as (_ & _ & R & _ & A & _).
  split; [exact R | exact A].
Defined.

Lemma accepted_reply_without_body_witness :
  Fan.Fan
    (exec (@Fan.openAPIRefreshStatus FanObs.decimal)
       (FanObs.answered
          (Responds (JNum 200)
             (JsonObject {| ds_statusCode := JNum 200; ds_body := None |}))))
  = Fan.Fan FanObs.fresh.
Proof.
  destruct (@accepted_reply_without_body FanObs.decimal
              (FanObs.answered
                 (Responds (JNum 200)
                    (JsonObject {| ds_statusCode := JNum 200; ds_body := None |})))
              (JNum 200) {| ds_statusCode := JNum 200; ds_body := None |} []
              eq_refl eq_refl eq_refl)
    as (_ & F & _).
  exact F.
Defined.

(** ** Answers that end in an exception *)

Section CloudFailure.
Import Fan FanObs.
Context `{Conversions}.

(** X4: when the cloud's answer to a status request or to a command
    ends in an exception (the request rejects, the body is not JSON, or
    it is [null]), the exception is caught: the hub is given it as the
    value of Active, RotationSpeed and SwingMode, an error is logged, no
    status code is reported, and nothing of the accessory changes. *)
Theorem unreadable_reply_reports_error s r e rs site b :
  responses (env s) = r :: rs ->
  unreadable r = Some e ->
  (let s' := exec openAPIRefreshStatus s in
   outcome openAPIRefreshStatus s = Returns tt /\
   sameDevice s s' /\
   hubUpdatesOf (emitted s s') = fanErrorUpdates e /\
   statusCodesOf (emitted s s') = [] /\
   networkIO (emitted s s') = [HttpGetStatus] /\
   last (emitted s s') (Log debug "") = Log error "failed openAPIRefreshStatus") /\
  (let s' := exec (postCommand site b) s in
   outcome (postCommand site b) s = Returns tt /\
   sameDevice s s' /\
   hubUpdatesOf (emitted s s') = fanErrorUpdates e /\
   statusCodesOf (emitted s s') = [] /\
   networkIO (emitted s s') = [HttpPostCommand b] /\
   last (emitted s s') (Log debug "") = Log error site).
Proof.
  intros Hr Hu. destruct s as [F B L cx fl tm [tr pe rsp ad bo av]].
  cbn in Hr. subst rsp.
  unfold openAPIRefreshStatus, postCommand, exec, outcome, sameDevice, emitted.
  destruct r as [x|c0 [x| |d]]; cbn in Hu; try discriminate;
    injection Hu as <-;
    cbv - [app skipn List.length hubUpdatesOf statusCodesOf networkIO last];
    repeat rewrite <- app_assoc;
    rewrite !skipn_app, !skipn_all, !Nat.sub_diag;
    repeat split.
Qed.

End CloudFailure.

Lemma unreadable_reply_reports_error_witness :
  hubUpdatesOf
    (emitted (FanObs.answered (Responds (JNum 200) JsonNull))
       (exec (@Fan.openAPIRefreshStatus FanObs.decimal)
          (FanObs.answered (Responds (JNum 200) JsonNull))))
  = fanErrorUpdates TypeError.
Proof.
  destruct (@unreadable_reply_reports_error FanObs.decimal
              (FanObs.answered (Responds (JNum 200) JsonNull))
              (Responds (JNum 200) JsonNull) TypeError [] "" FanObs.fanOn
              eq_refl eq_refl)
    as ((_ & _ & U & _) & _).
  exact U.
Defined.

(** ** Dispatch cycles *)

Section Dispatch.
Import Fan FanObs.
#[local] Existing Instance decimal | 100.

(** X5: a cloud dispatch cycle returns whatever the cloud answers and
    changes nothing of the accessory, in particular not the cached
    values: the fields differ afterwards as they did before, and a second
    cycle sends the same commands again. *)
Theorem cloud_dispatch_repeats `{Conversions} s :
  let s1 := exec openAPIpushChanges s in
  outcome openAPIpushChanges s = Returns tt /\
  sameDevice s s1 /\
  (forall f, differs f s1 = differs f s) /\
  commandsOf (emitted s1 (exec openAPIpushChanges s1)) = commandsOf (emitted s s1).
Proof.
  intros s1.
  destruct (does_openAPIpushChanges s) as (O & Same & _ & _).
  fold s1 in Same.
  assert (D : forall f, differs f s1 = differs f s).
  { intros f. unfold differs, desired, cached.
    destruct Same as (-> & _ & _ & -> & _). reflexivity. }
  assert (T : desired Active s1 = desired Active s
              /\ desired RotationSpeed s1 = desired RotationSpeed s
              /\ desired SwingMode s1 = desired SwingMode s).
  { unfold desired. destruct Same as (-> & _). auto. }
  destruct T as (TA & TR & TS).
  repeat (split; [assumption|]).
  rewrite (openAPIpushChanges_commands s1).
  change (emitted s s1) with (emitted s (exec openAPIpushChanges s)).
  rewrite (openAPIpushChanges_commands s).
  unfold powerCommand, speedCommand, oscillationCommand, windSpeedCommand.
  now rewrite !D, TA, TR, TS.
Qed.

Lemma does_armed m s io :
  does m s io ->
  outcome (m ;; modify (with_timers armFollowUp)) s = Returns tt /\
  exec (m ;; modify (with_timers armFollowUp)) s = with_timers armFollowUp (exec m s).
Proof.
  intros (O & _). unfold outcome, exec, bind in *.
  destruct (m s) as [[[]|e] s1]; [split; reflexivity | discriminate].
Qed.

Lemma onFanUpdate_returned `{Conversions} device s :
  outcome (pushChanges device) s = Returns tt ->
  outcome (onFanUpdate device) s = Returns tt /\
  exec (onFanUpdate device) s = set_fanUpdateInProgress false (exec (pushChanges device) s).
Proof.
  unfold onFanUpdate, outcome, exec, bind, try_catch.
  destruct (pushChanges device s) as [[[]|e] s1]; [split; reflexivity | discriminate].
Qed.

(** X6: a dispatch cycle throws in one case only, when the radio is the
    transport, Active is to be sent and there is no adapter; in every
    other case [pushChanges] returns and arms one follow-up refresh.  The
    subscriber catches the exception: it returns and lowers the flag in
    all cases, and when it has caught one the hub is given the exception
    for Active, RotationSpeed and SwingMode, no transport is used, no
    follow-up is armed and the fields stay. *)
Theorem dispatch_throws_without_adapter `{Conversions} device s :
  let s1 := exec (pushChanges device) s in
  let s2 := exec (onFanUpdate device) s in
  outcome (pushChanges device) s
    = (if pushThrows device s then Throws TypeError else Returns tt) /\
  followUps (timers s1)
    = (if pushThrows device s then followUps (timers s) else S (followUps (timers s))) /\
  outcome (onFanUpdate device) s = Returns tt /\
  fanUpdateInProgress s2 = false /\
  followUps (timers s2) = followUps (timers s1) /\
  (pushThrows device s = true ->
   hubUpdatesOf (emitted s s2) = fanErrorUpdates TypeError /\
   networkIO (emitted s s2) = [] /\
   pending (env s2) = pending (env s) /\
   Fan s2 = Fan s /\ context s2 = context s).
Proof.
  intros s1 s2.
  assert (Ret : forall m io, does m s io ->
            pushChanges device = (m ;; modify (with_timers armFollowUp)) ->
            pushThrows device s = false ->
            outcome (pushChanges device) s
              = (if pushThrows device s then Throws TypeError else Returns tt) /\
            followUps (timers s1)
              = (if pushThrows device s then followUps (timers s)
                 else S (followUps (timers s))) /\
            outcome (onFanUpdate device) s = Returns tt /\
            fanUpdateInProgress s2 = false /\
            followUps (timers s2) = followUps (timers s1) /\
            (pushThrows device s = true ->
             hubUpdatesOf (emitted s s2) = fanErrorUpdates TypeError /\
             networkIO (emitted s s2) = [] /\
             pending (env s2) = pending (env s) /\
             Fan s2 = Fan s /\ context s2 = context s)).
  { intros m io D E N.
    destruct (does_armed m s io D) as (O & X).
    destruct D as (_ & (_ & _ & _ & _ & _ & Tm) & _).
    rewrite <- E in O, X.
    destruct (onFanUpdate_returned device s O) as (O2 & X2).
    subst s1 s2. rewrite N, O, X2, X. cbn. rewrite Tm.
    repeat (split; [reflexivity|]). split; [exact O2|].
    repeat (split; [reflexivity|]). discriminate. }
  unfold pushThrows, transportOf in *.
  destruct (negb (enableCloudService device) && OpenAPI device) eqn:C.
  { apply (Ret _ [] (does_log error "pushChanges enableCloudService" s)); [|reflexivity].
    unfold pushChanges. now rewrite C. }
  destruct (BLE device) eqn:B.
  2:{ destruct (OpenAPI device && token device) eqn:T.
      - apply (Ret _ _ (does_openAPIpushChanges s)); [|reflexivity].
        unfold pushChanges. now rewrite C, B, T.
      - apply (Ret (offlineOff device ;; log debugWarn "pushChanges will not happen") []);
          [| |reflexivity].
        + apply (does_bind _ _ _ [] [] (does_offlineOff device s)). apply does_log.
        + unfold pushChanges. now rewrite C, B, T. }
  destruct (differs Active s) eqn:D.
  2:{ apply (Ret _ [] (does_BLEpushChanges_idle s D)); [|reflexivity].
      unfold pushChanges. now rewrite C, B. }
  destruct (bleAdapter (env s)) eqn:A; cbn [andb negb].
  - clear Ret. subst s1 s2. unfold onFanUpdate, pushChanges. rewrite C, B.
    destruct s as [[Ac SM RS] Bt L [cA cRS cSM cB cC cSL cO cBr cv cdv] fl tm
                     [tr pe rs ad bo av]].
    unfold differs in D. cbn in D, A. subst ad.
    unfold outcome, exec.
    cbv - [strict_neq]. rewrite D. cbv. repeat (split; [reflexivity|]). discriminate.
  - clear Ret. subst s1 s2. unfold onFanUpdate, pushChanges. rewrite C, B.
    destruct s as [[Ac SM RS] Bt L [cA cRS cSM cB cC cSL cO cBr cv cdv] fl tm
                     [tr pe rs ad bo av]].
    unfold differs in D. cbn in D, A. subst ad.
    unfold outcome, exec, emitted.
    cbv - [strict_neq app skipn List.length hubUpdatesOf networkIO]. rewrite D.
    cbv - [app skipn List.length hubUpdatesOf networkIO].
    repeat rewrite <- app_assoc.
    rewrite !skipn_app, !skipn_all, !Nat.sub_diag.
    repeat split.
Qed.

Lemma dispatch_throws_without_adapter_witness :
  pushThrows radio unplugged = true /\
  hubUpdatesOf (emitted unplugged (exec (onFanUpdate radio) unplugged))
  = fanErrorUpdates TypeError.
Proof.
  split; [reflexivity|].
  destruct (dispatch_throws_without_adapter radio unplugged)
    as (_ & _ & _ & _ & _ & Caught).
  destruct (Caught eq_refl) as (U & _). exact U.
Defined.

End Dispatch.

(** ** The transports a device never uses *)

Section Calm.
Context {S : Type} `{HasWorld S} (P : event -> Prop).

Lemma keeps_untraced {A} (m : M S A) :
  (forall s, trace (world (exec m s)) = trace (world s)) -> keeps (grows P) m.
Proof.
  intros E s. exists []. rewrite E, app_nil_r. split; [reflexivity | constructor].
Qed.

Lemma keeps_spawn_grows t : keeps (grows P) (spawn t).
Proof.
  apply keeps_untraced. intros s. unfold exec, spawn, modify. cbn.
  now rewrite world_with_world.
Qed.

Lemma keeps_next_bleOutcome_grows : keeps (grows P) next_bleOutcome.
Proof.
  apply keeps_untraced. intros s. unfold exec, next_bleOutcome. cbn.
  rewrite world_with_world. unfold w_next_bleOutcome.
  now destruct (bleOutcomes (world s)).
Qed.

Lemma keeps_read_serviceData_grows : keeps (grows P) read_serviceData.
Proof.
  apply keeps_untraced. intros s. unfold exec, read_serviceData. cbn.
  rewrite world_with_world. unfold w_read_serviceData.
  now destruct (handlerServiceData (world s)).
Qed.

Lemma exchange_world e (s : S) :
  trace (world (exec (exchange e) s)) = trace (world s) ++ [e] /\
  pending (world (exec (exchange e) s)) = pending (world s).
Proof.
  unfold exec, exchange.
  assert (K : forall w, trace (snd (w_next_response w)) = trace w
                        /\ pending (snd (w_next_response w)) = pending w).
  { intros w. unfold w_next_response. now destruct (responses w). }
  destruct (fst (w_next_response _)); cbn [snd]; rewrite !world_with_world;
    destruct (K (w_emit e (world s))) as (-> & ->); split; reflexivity.
Qed.

Lemma keeps_exchange_grows e : P e -> keeps (grows P) (exchange e).
Proof.
  intros Pe s. exists [e]. split; [apply exchange_world | now constructor].
Qed.

Lemma calm_refl (s : S) : calm P s s.
Proof. split; [reflexivity | apply grows_refl]. Qed.

Lemma calm_trans (a b c : S) : calm P a b -> calm P b c -> calm P a c.
Proof.
  intros (Pa & Ga) (Pb & Gb). split; [congruence | eapply grows_trans; eassumption].
Qed.

Lemma calm_eq (s s' : S) : world s' = world s -> calm P s s'.
Proof. intros E. split; [now rewrite E | now apply grows_eq]. Qed.

Lemma keeps_emit_calm e : P e -> keeps (calm P) (emit e).
Proof.
  intros Pe s. split; [|now apply keeps_emit].
  unfold exec, emit, modify. cbn. now rewrite world_with_world.
Qed.

Lemma keeps_exchange_calm e : P e -> keeps (calm P) (exchange e).
Proof.
  intros Pe s. split; [apply exchange_world | now apply keeps_exchange_grows].
Qed.

Lemma grows_emitted (s s' : S) : grows P s s' -> Forall P (emitted s s').
Proof.
  intros (X & E & F). now rewrite (emitted_app s s' X E).
Qed.

End Calm.

Lemma keeps_exec {S A : Type} (R : S -> S -> Prop) (m : M S A) s :
  keeps R m -> R s (exec m s).
Proof. intros K. apply K. Qed.

Lemma httpOf_none X : Forall notHttp X -> httpOf X = [].
Proof.
  induction 1 as [|e X Pe _ IH]; [reflexivity|].
  unfold httpOf in *. destruct e; cbn in *; try exact IH; contradiction.
Qed.

Lemma radioEventsOf_none X : Forall notRadio X -> radioEventsOf X = [].
Proof.
  induction 1 as [|e X Pe _ IH]; [reflexivity|].
  unfold radioEventsOf in *. destruct e; cbn in *; try exact IH; contradiction.
Qed.

Lemma networkIO_none X : Forall offTransport X -> networkIO X = [].
Proof.
  induction 1 as [|e X Pe _ IH]; [reflexivity|].
  unfold networkIO in *. destruct e; cbn in *; try exact IH; contradiction.
Qed.

(** The leaves of a proof that the trace grows by events of one kind. *)
Ltac trace_leaf :=
  lazymatch goal with
  | |- keeps _ (modify _) => apply keeps_modify; intros ?; apply grows_eq; reflexivity
  | |- keeps _ (emit _) => apply keeps_emit; exact I
  | |- keeps _ (log _ _) => apply keeps_emit; exact I
  | |- keeps _ (statusCode _) => apply keeps_emit; exact I
  | |- keeps _ (updateCharacteristic _ _) => apply keeps_emit; exact I
  | |- keeps _ (updateCharacteristicError _ _) => apply keeps_emit; exact I
  | |- keeps _ (exchange _) => apply keeps_exchange_grows; exact I
  | |- keeps _ (spawn _) => apply keeps_spawn_grows
  | |- keeps _ next_bleOutcome => apply keeps_next_bleOutcome_grows
  | |- keeps _ read_serviceData => apply keeps_read_serviceData_grows
  | |- keeps _ connectBLE => intros ?; apply grows_refl
  end.

Ltac trace_auto :=
  repeat first
    [ trace_leaf
    | keeps_step ltac:(exact (grows_refl _)) ltac:(exact (grows_trans _)) ].

(** The same when the work left for later stays as well. *)
Ltac calm_leaf :=
  lazymatch goal with
  | |- keeps _ (modify _) => apply keeps_modify; intros ?; apply calm_eq; reflexivity
  | |- keeps _ (emit _) => apply keeps_emit_calm; exact I
  | |- keeps _ (log _ _) => apply keeps_emit_calm; exact I
  | |- keeps _ (statusCode _) => apply keeps_emit_calm; exact I
  | |- keeps _ (updateCharacteristic _ _) => apply keeps_emit_calm; exact I
  | |- keeps _ (updateCharacteristicError _ _) => apply keeps_emit_calm; exact I
  | |- keeps _ (exchange _) => apply keeps_exchange_calm; exact I
  end.

Ltac calm_auto :=
  repeat first
    [ calm_leaf
    | keeps_step ltac:(exact (calm_refl _)) ltac:(exact (calm_trans _)) ].

(** ** A burst of setter calls and the cycle that follows *)

Section Coalesced.
Import Fan FanObs.
Context `{Conversions}.
Variable device : Config.














End Coalesced.



(** ** The radio fails *)

Section RadioFailure.
Import Fan FanObs.
Context `{Conversions}.

Lemma chain_failed_exec device o e s :
  failureOf o = Some e ->
  exists P,
    exec (runTask device (BLEpushChain o)) s
      = exec (BLEPushConnection device)
          (with_env (fun w =>
             {| trace := trace w ++ P; pending := pending w; responses := responses w;
                bleAdapter := bleAdapter w; bleOutcomes := bleOutcomes w;
                handlerServiceData := handlerServiceData w |}) s) /\
    radioOf P = radioSent o s /\
    infoLogsOf P = chainInfoLogs o /\
    commandsOf P = [] /\
    hubUpdatesOf P = fanErrorUpdates e.
Proof.
  unfold runTask, BLEpushChained, BLEpushFailed.
  generalize (BLEPushConnection device). intros k.
  destruct s as [[Ac SM RS] Bt L cx fl tm [tr pe rs ad bo av]].
  destruct o as [e0|e0|e0|]; cbn [failureOf]; intros E; inversion E; subst e0; clear E.
  - exists [UpdateCharacteristic Characteristic.Active (Err e);
            UpdateCharacteristic Characteristic.RotationSpeed (Err e);
            UpdateCharacteristic Characteristic.SwingMode (Err e);
            Log error "failed BLEpushChanges"].
    split; [|repeat split].
    unfold exec, unawaited, bind, apiError.
    cbn. unfold with_env, w_emit. cbn. now rewrite <- !app_assoc.
  - exists [Log info "BLEpushChanges On";
            UpdateCharacteristic Characteristic.Active (Err e);
            UpdateCharacteristic Characteristic.RotationSpeed (Err e);
            UpdateCharacteristic Characteristic.SwingMode (Err e);
            Log error "failed BLEpushChanges"].
    split; [|repeat split].
    unfold exec, unawaited, bind, apiError.
    cbn. unfold with_env, w_emit. cbn. now rewrite <- !app_assoc.
  - exists [Log info "BLEpushChanges On";
            BleSend (if truthy Ac then turnOn else turnOff);
            UpdateCharacteristic Characteristic.Active (Err e);
            UpdateCharacteristic Characteristic.RotationSpeed (Err e);
            UpdateCharacteristic Characteristic.SwingMode (Err e);
            Log error "failed BLEpushChanges"].
    split; [|unfold radioSent, radioCommand; repeat split].
    unfold BLEsend, radioCommand, desired, exec, unawaited, apiError.
    cbv - [app truthy].
    destruct (truthy Ac); cbv - [app]; now rewrite <- !app_assoc.
Qed.

Lemma infoLogsOf_app a b : infoLogsOf (a ++ b) = infoLogsOf a ++ infoLogsOf b.
Proof. unfold infoLogsOf. now rewrite flat_map_app. Qed.

Lemma infoLogsOf_none X : Forall notInfoLog X -> infoLogsOf X = [].
Proof.
  induction 1 as [|e X Pe _ IH]; [reflexivity|].
  unfold infoLogsOf in *. destruct e as [[] ?| | | | | | | |]; cbn in *;
    try exact IH. contradiction.
Qed.

Lemma openAPIpushChanges_no_info : keeps (grows notInfoLog) openAPIpushChanges.
Proof.
  unfold openAPIpushChanges, pushRotationSpeedChanges, pushSwingModeChanges,
    postCommand, apiError, request, body_json, read_statusCode.
  trace_auto.
Qed.

(** X7: when the radio fails, the chain [BLEpushChanges] has left to run
    gives the hub the exception for Active, RotationSpeed and SwingMode
    and leaves the accessory as it is: the desired Active is not
    cleared.  The failure is one of three: [discover] rejects, and
    nothing more is written; the list it resolves with has no device,
    and the info log is written and no command leaves; the command is
    sent, once, and rejected.  The commands of a cloud dispatch cycle
    follow if and only if there is a token and the connection type is
    [BLE/OpenAPI]; otherwise no cloud request is made. *)
Theorem radio_failure_falls_back device s o e :
  failureOf o = Some e ->
  let s' := exec (runTask device (BLEpushChain o)) s in
  outcome (runTask device (BLEpushChain o)) s = Returns tt /\
  sameDevice s s' /\
  radioOf (emitted s s')
    = match o with CommandRejects _ => [radioCommand s] | _ => [] end /\
  infoLogsOf (emitted s s')
    = match o with DiscoverRejects _ => [] | _ => ["BLEpushChanges On"] end /\
  commandsOf (emitted s s')
    = (if fallsBack device
       then powerCommand s ++ speedCommand s ++ oscillationCommand s else []) /\
  exists more,
    hubUpdatesOf (emitted s s') = fanErrorUpdates e ++ more /\
    (fallsBack device = false -> more = []).
Proof.
  intros Ho s'. split; [reflexivity|].
  destruct (chain_failed_exec device o e s Ho) as (P & E & R & I & C & U).
  assert (R' : radioOf P = match o with CommandRejects _ => [radioCommand s] | _ => [] end).
  { rewrite R. destruct o; try reflexivity. discriminate Ho. }
  assert (I' : infoLogsOf P
               = match o with DiscoverRejects _ => [] | _ => ["BLEpushChanges On"] end).
  { rewrite I. destruct o; reflexivity. }
  clear R I.
  subst s'. rewrite E. clear E.
  set (s0 := with_env _ s).
  assert (T0 : trace (env s0) = trace (env s) ++ P) by reflexivity.
  assert (S0 : sameDevice s s0) by (unfold sameDevice; cbn; tauto).
  unfold BLEPushConnection. fold (fallsBack device).
  destruct (fallsBack device); cbn [when].
  - set (s1 := exec (log warn "Using OpenAPI Connection to Push Changes") s0).
    assert (E1 : exec (log warn "Using OpenAPI Connection to Push Changes" ;;
                       openAPIpushChanges) s0 = exec openAPIpushChanges s1)
      by reflexivity.
    rewrite E1.
    destruct (does_openAPIpushChanges s1) as (_ & S1 & _ & X & T1 & N1).
    destruct (openAPIpushChanges_no_info s1) as (X' & T1' & Q).
    change (trace (env (exec openAPIpushChanges s1)) = trace (env s1) ++ X') in T1'.
    assert (X' = X) by (rewrite T1 in T1'; now apply app_inv_head in T1'). subst X'.
    assert (T : trace (env (exec openAPIpushChanges s1))
                = trace (env s)
                  ++ (P ++ [Log warn "Using OpenAPI Connection to Push Changes"] ++ X)).
    { rewrite T1. unfold s1. cbn. rewrite <- !app_assoc. reflexivity. }
    rewrite (emitted_env _ _ _ T).
    rewrite !radioOf_app, !infoLogsOf_app, !commandsOf_app, !hubUpdatesOf_app, R', I', C, U.
    rewrite <- (radioOf_networkIO X), <- (commandsOf_networkIO X), N1.
    rewrite radioOf_posts, commandsOf_posts, (infoLogsOf_none X Q).
    cbn [app radioOf commandsOf infoLogsOf flat_map].
    rewrite !app_nil_r.
    split; [|split; [reflexivity|split; [reflexivity|split]]].
    + unfold sameDevice in *. unfold s1 in S1. cbn in S1. cbn in S0.
      intuition congruence.
    + unfold powerCommand, speedCommand, oscillationCommand, windSpeedCommand,
        differs, desired, cached.
      reflexivity.
    + exists (hubUpdatesOf X). split; [reflexivity | discriminate].
  - assert (T : trace (env (exec (ret tt) s0)) = trace (env s) ++ P) by exact T0.
    rewrite (emitted_env _ _ _ T), R', I', C, U.
    split; [exact S0|]. split; [reflexivity|]. split; [reflexivity|].
    split; [reflexivity|].
    exists []. split; [now rewrite app_nil_r | reflexivity].
Qed.

End RadioFailure.

Lemma radio_failure_falls_back_witness :
  (commandsOf
     (emitted FanObs.turningOn
        (exec (@Fan.runTask FanObs.decimal radioThenCloud (BLEpushChain radioFailed))
           FanObs.turningOn))
   = [FanObs.fanOn] /\
   commandsOf
     (emitted FanObs.turningOn
        (exec (@Fan.runTask FanObs.decimal FanObs.radio (BLEpushChain radioFailed))
           FanObs.turningOn))
   = []) /\
  radioOf
    (emitted FanObs.turningOn
       (exec (@Fan.runTask FanObs.decimal FanObs.radio (BLEpushChain deviceMissing))
          FanObs.turningOn))
  = [] /\
  infoLogsOf
    (emitted FanObs.turningOn
       (exec (@Fan.runTask FanObs.decimal FanObs.radio (BLEpushChain deviceMissing))
          FanObs.turningOn))
  = ["BLEpushChanges On"].
Proof.
  split; [split|].
  - destruct (@radio_failure_falls_back FanObs.decimal radioThenCloud FanObs.turningOn
                radioFailed (Rejected "timeout") eq_refl) as (_ & _ & _ & _ & C & _).
    exact C.
  - destruct (@radio_failure_falls_back FanObs.decimal FanObs.radio FanObs.turningOn
                radioFailed (Rejected "timeout") eq_refl) as (_ & _ & _ & _ & C & _).
    exact C.
  - destruct (@radio_failure_falls_back FanObs.decimal FanObs.radio FanObs.turningOn
                deviceMissing TypeError eq_refl) as (_ & _ & R & I & _).
    split; [exact R | exact I].
Defined.

Section FanTransports.
Import Fan FanObs.
Context `{Conversions}.
Variable device : Config.

Lemma transportOf_Radio :
  transportOf device = Radio ->
  negb (enableCloudService device) && OpenAPI device = false /\ BLE device = true.
Proof.
  unfold transportOf.
  destruct (negb (enableCloudService device) && OpenAPI device); [discriminate|].
  destruct (BLE device); [auto|].
  destruct (OpenAPI device && token device); discriminate.
Qed.

Lemma transportOf_CloudDisabled :
  transportOf device = CloudDisabled ->
  negb (enableCloudService device) && OpenAPI device = true.
Proof.
  unfold transportOf.
  destruct (negb (enableCloudService device) && OpenAPI device); [auto|].
  destruct (BLE device); [discriminate|].
  destruct (OpenAPI device && token device); discriminate.
Qed.

Lemma takeTask_grows P : keeps (grows P) takeTask.
Proof.
  apply keeps_untraced. intros s. unfold exec, takeTask.
  now destruct (pending (env s)).
Qed.

Lemma hubSet_grows P c v : (forall l site, P (Log l site)) -> keeps (grows P) (hubSet c v).
Proof.
  intros PL s.
  destruct (hubSet_effect c v s) as (_ & _ & _ & _ & _ & _ & _ & _ & (X & E & F) & _).
  exists X. split; [exact E|].
  apply Forall_forall. intros e In. rewrite Forall_forall in F. specialize (F e In).
  destruct e; try contradiction. apply PL.
Qed.

Lemma hubSet_calm P c v : (forall l site, P (Log l site)) -> keeps (calm P) (hubSet c v).
Proof.
  intros PL s. split; [|now apply hubSet_grows].
  now destruct (hubSet_effect c v s) as (_ & _ & _ & _ & _ & _ & _ & Pe & _).
Qed.

Lemma radio_step i :
  transportOf device = Radio -> fallsBack device = false ->
  keeps (grows notHttp) (step device i).
Proof.
  intros T F. destruct (transportOf_Radio T) as (C & B). unfold fallsBack in F.
  destruct i; cbn [step].
  - apply hubSet_grows. intros; exact I.
  - unfold onFanUpdate, pushChanges, BLEpushChanges, apiError. rewrite C, B.
    trace_auto.
  - trace_auto.
  - trace_auto.
  - unfold refreshStatus, BLERefreshStatus, BLERefreshConnection. rewrite C, B, F.
    cbn [when]. trace_auto.
  - unfold deliver, webhookEventHandler, updateHomeKitCharacteristics, updateOne.
    trace_auto.
  - apply keeps_bind; [exact (grows_trans _) | apply takeTask_grows |].
    intros [t|]; [|trace_auto].
    unfold runTask, BLEpushChained, BLEpushFailed, BLEPushConnection, BLEsend, BLEscanned,
      BLEparseStatus, updateHomeKitCharacteristics, updateOne, apiError.
    rewrite F. cbn [when]. trace_auto.
Qed.

Lemma run_keeps (R : state -> state -> Prop) (Inv : state -> Prop) :
  (forall s, R s s) -> (forall a b c, R a b -> R b c -> R a c) ->
  (forall i s, Inv s -> R s (exec (step device i) s) /\ Inv (exec (step device i) s)) ->
  forall inputs s, Inv s -> R s (run device inputs s) /\ Inv (run device inputs s).
Proof.
  intros Rr Rt St inputs. induction inputs as [|i inputs IH]; intros s Is.
  - split; [apply Rr | exact Is].
  - cbn [run fold_left]. destruct (St i s Is) as (R1 & I1).
    destruct (IH _ I1) as (R2 & I2). split; [|exact I2].
    eapply Rt; [exact R1 | exact R2].
Qed.

Lemma wired_step i s :
  BLE device = false -> pending (env s) = [] ->
  calm notRadio s (exec (step device i) s).
Proof.
  intros B Pe.
  destruct i; cbn [step];
    [ apply hubSet_calm; intros; exact I
    | apply keeps_exec | apply keeps_exec | apply keeps_exec | apply keeps_exec
    | apply keeps_exec
    | unfold exec, bind, takeTask; rewrite Pe; apply calm_refl ].
  - unfold onFanUpdate, pushChanges, openAPIpushChanges, pushRotationSpeedChanges,
      pushSwingModeChanges, postCommand, offlineOff, apiError,
      request, body_json, read_statusCode.
    rewrite B. cbv beta iota. calm_auto.
  - calm_auto.
  - calm_auto.
  - unfold refreshStatus, openAPIRefreshStatus,
      offlineOff, apiError, openAPIparseStatus, updateHomeKitCharacteristics, updateOne,
      retryRequest, body_json, read_statusCode, read_body.
    rewrite B. cbv beta iota. calm_auto.
  - unfold deliver, webhookEventHandler, updateHomeKitCharacteristics, updateOne.
    calm_auto.
Qed.

Lemma disabled_step i s :
  transportOf device = CloudDisabled -> pending (env s) = [] ->
  calm offTransport s (exec (step device i) s).
Proof.
  intros T Pe. pose proof (transportOf_CloudDisabled T) as C.
  destruct i; cbn [step];
    [ apply hubSet_calm; intros; exact I
    | apply keeps_exec | apply keeps_exec | apply keeps_exec | apply keeps_exec
    | apply keeps_exec
    | unfold exec, bind, takeTask; rewrite Pe; apply calm_refl ].
  - unfold onFanUpdate, pushChanges, apiError.
    rewrite C. cbv beta iota. calm_auto.
  - calm_auto.
  - calm_auto.
  - unfold refreshStatus. rewrite C. cbv beta iota. calm_auto.
  - unfold deliver, webhookEventHandler, updateHomeKitCharacteristics, updateOne.
    calm_auto.
Qed.

End FanTransports.

Section MotionTransports.
Import Motion MotionObs.
Context `{Conversions}.
Variable device : Config.

Lemma motion_takeTask_grows P : keeps (grows P) takeTask.
Proof.
  apply keeps_untraced. intros s. unfold exec, takeTask.
  now destruct (pending (env s)).
Qed.

Lemma motion_radio_step i :
  transportOf device = Radio -> fallsBack device = false ->
  keeps (grows notHttp) (step device i).
Proof.
  intros T F. destruct (transportOf_Radio device T) as (C & B). unfold fallsBack in F.
  destruct i; cbn [step].
  - trace_auto.
  - unfold refreshStatus, BLERefreshStatus, BLERefreshConnection. rewrite C, B, F.
    cbn [when]. trace_auto.
  - unfold deliver, webhookEventHandler, updateHomeKitCharacteristics, updateOne,
      read_CurrentAmbientLightLevel.
    trace_auto.
  - apply keeps_bind; [exact (grows_trans _) | apply motion_takeTask_grows |].
    intros [t|]; [|trace_auto].
    unfold runTask, BLEscanned, BLEparseStatus, updateHomeKitCharacteristics, updateOne,
      assign_CurrentAmbientLightLevel, read_CurrentAmbientLightLevel.
    trace_auto.
Qed.

Lemma motion_wired_step i s :
  BLE device = false -> pending (env s) = [] ->
  calm notRadio s (exec (step device i) s).
Proof.
  intros B Pe.
  destruct i; cbn [step];
    [ apply keeps_exec | apply keeps_exec | apply keeps_exec
    | unfold exec, bind, takeTask; rewrite Pe; apply calm_refl ].
  - calm_auto.
  - unfold refreshStatus, openAPIRefreshStatus,
      offlineOff, apiError, openAPIparseStatus, updateHomeKitCharacteristics, updateOne,
      assign_CurrentAmbientLightLevel, read_CurrentAmbientLightLevel,
      retryRequest, body_json, read_statusCode, read_body.
    rewrite B. cbv beta iota. cbn [when]. calm_auto.
  - unfold deliver, webhookEventHandler, updateHomeKitCharacteristics, updateOne,
      read_CurrentAmbientLightLevel.
    calm_auto.
Qed.

Lemma motion_disabled_step i s :
  transportOf device = CloudDisabled -> pending (env s) = [] ->
  calm offTransport s (exec (step device i) s).
Proof.
  intros T Pe. pose proof (transportOf_CloudDisabled device T) as C.
  destruct i; cbn [step];
    [ apply keeps_exec | apply keeps_exec | apply keeps_exec
    | unfold exec, bind, takeTask; rewrite Pe; apply calm_refl ].
  - calm_auto.
  - unfold refreshStatus. rewrite C. cbv beta iota. calm_auto.
  - unfold deliver, webhookEventHandler, updateHomeKitCharacteristics, updateOne,
      read_CurrentAmbientLightLevel.
    calm_auto.
Qed.

Lemma motion_run_keeps (R : state -> state -> Prop) (Inv : state -> Prop) :
  (forall s, R s s) -> (forall a b c, R a b -> R b c -> R a c) ->
  (forall i s, Inv s -> R s (exec (step device i) s) /\ Inv (exec (step device i) s)) ->
  forall inputs s, Inv s -> R s (run device inputs s) /\ Inv (run device inputs s).
Proof.
  intros Rr Rt St inputs. induction inputs as [|i inputs IH]; intros s Is.
  - split; [apply Rr | exact Is].
  - cbn [run fold_left]. destruct (St i s Is) as (R1 & I1).
    destruct (IH _ I1) as (R2 & I2). split; [|exact I2].
    eapply Rt; [exact R1 | exact R2].
Qed.

End MotionTransports.

Section Transports.
Context `{Conversions}.
Variable device : Config.

(** X8: a device whose transport is the radio and that has no fall-back
    to the cloud (no token, or a connection type other than
    [BLE/OpenAPI]) makes no cloud request, whatever happens to it and in
    whatever order: setter calls, timers, refreshes, webhook events and
    the work left to run on its own, the radio failing included.  This
    holds for the fan and for the motion sensor. *)
Theorem radio_device_never_uses_cloud (fs : Fan.state) (ms : Motion.state) inputs minputs :
  transportOf device = Radio -> fallsBack device = false ->
  httpOf (emitted fs (Fan.run device inputs fs)) = [] /\
  httpOf (emitted ms (Motion.run device minputs ms)) = [].
Proof.
  intros T F. split; apply httpOf_none, grows_emitted.
  - apply (run_keeps device (grows notHttp) (fun _ => True));
      [exact (grows_refl _) | exact (grows_trans _) | | exact I].
    intros i s _. split; [|exact I]. now apply radio_step.
  - apply (motion_run_keeps device (grows notHttp) (fun _ => True));
      [exact (grows_refl _) | exact (grows_trans _) | | exact I].
    intros i s _. split; [|exact I]. now apply motion_radio_step.
Qed.

(** X9: a device that is not set up for the radio never uses it and
    never leaves work to run on its own: from a state with no such work,
    no scan, discovery or radio command happens in any run, and no work
    is left at its end.  This holds for the fan and for the motion
    sensor. *)
Theorem wired_device_never_uses_radio (fs : Fan.state) (ms : Motion.state) inputs minputs :
  BLE device = false ->
  pending (Fan.env fs) = [] -> pending (Motion.env ms) = [] ->
  (radioEventsOf (emitted fs (Fan.run device inputs fs)) = [] /\
   pending (Fan.env (Fan.run device inputs fs)) = []) /\
  (radioEventsOf (emitted ms (Motion.run device minputs ms)) = [] /\
   pending (Motion.env (Motion.run device minputs ms)) = []).
Proof.
  intros B Pf Pm. split.
  - destruct (run_keeps device (calm notRadio) (fun s => pending (Fan.env s) = [])
                (calm_refl _) (calm_trans _)) with (inputs := inputs) (s := fs)
      as ((_ & G) & Pe); [|exact Pf|].
    + intros i s Ps. pose proof (wired_step device i s B Ps) as K.
      split; [exact K|]. destruct K as (K & _). cbn in K. congruence.
    + split; [|exact Pe]. now apply radioEventsOf_none, grows_emitted.
  - destruct (motion_run_keeps device (calm notRadio)
                (fun s => pending (Motion.env s) = [])
                (calm_refl _) (calm_trans _)) with (inputs := minputs) (s := ms)
      as ((_ & G) & Pe); [|exact Pm|].
    + intros i s Ps. pose proof (motion_wired_step device i s B Ps) as K.
      split; [exact K|]. destruct K as (K & _). cbn in K. congruence.
    + split; [|exact Pe]. now apply radioEventsOf_none, grows_emitted.
Qed.

(** X10: when the cloud service is switched off for a device that uses
    the cloud API, refresh and dispatch only log an error, even if the
    radio is set up as well: in any run from a state with no work left to
    run on its own, no transport is used at all and no such work is
    left.  This holds for the fan and for the motion sensor. *)
Theorem disabled_cloud_service_is_silent
    (fs : Fan.state) (ms : Motion.state) inputs minputs :
  transportOf device = CloudDisabled ->
  pending (Fan.env fs) = [] -> pending (Motion.env ms) = [] ->
  (networkIO (emitted fs (Fan.run device inputs fs)) = [] /\
   pending (Fan.env (Fan.run device inputs fs)) = []) /\
  (networkIO (emitted ms (Motion.run device minputs ms)) = [] /\
   pending (Motion.env (Motion.run device minputs ms)) = []).
Proof.
  intros T Pf Pm. split.
  - destruct (run_keeps device (calm offTransport) (fun s => pending (Fan.env s) = [])
                (calm_refl _) (calm_trans _)) with (inputs := inputs) (s := fs)
      as ((_ & G) & Pe); [|exact Pf|].
    + intros i s Ps. pose proof (disabled_step device i s T Ps) as K.
      split; [exact K|]. destruct K as (K & _). cbn in K. congruence.
    + split; [|exact Pe]. now apply networkIO_none, grows_emitted.
  - destruct (motion_run_keeps device (calm offTransport)
                (fun s => pending (Motion.env s) = [])
                (calm_refl _) (calm_trans _)) with (inputs := minputs) (s := ms)
      as ((_ & G) & Pe); [|exact Pm|].
    + intros i s Ps. pose proof (motion_disabled_step device i s T Ps) as K.
      split; [exact K|]. destruct K as (K & _). cbn in K. congruence.
    + split; [|exact Pe]. now apply networkIO_none, grows_emitted.
Qed.

End Transports.

Lemma radio_device_never_uses_cloud_witness :
  httpOf (emitted FanObs.turningOn
            (@Fan.run FanObs.decimal FanObs.radio session FanObs.turningOn)) = [] /\
  httpOf (emitted MotionObs.fresh
            (@Motion.run FanObs.decimal FanObs.radio motionSession MotionObs.fresh)) = [].
Proof.
  exact (@radio_device_never_uses_cloud FanObs.decimal FanObs.radio
           FanObs.turningOn MotionObs.fresh session motionSession eq_refl eq_refl).
Defined.

Lemma wired_device_never_uses_radio_witness :
  radioEventsOf (emitted FanObs.turningOn
                   (@Fan.run FanObs.decimal FanObs.cloud session FanObs.turningOn)) = [] /\
  radioEventsOf (emitted MotionObs.fresh
                   (@Motion.run FanObs.decimal FanObs.cloud motionSession MotionObs.fresh))
  = [].
Proof.
  destruct (@wired_device_never_uses_radio FanObs.decimal FanObs.cloud
              FanObs.turningOn MotionObs.fresh session motionSession
              eq_refl eq_refl eq_refl) as ((F & _) & (M & _)).
  split; [exact F | exact M].
Defined.

Lemma disabled_cloud_service_is_silent_witness :
  networkIO (emitted FanObs.turningOn
               (@Fan.run FanObs.decimal cloudSwitchedOff session FanObs.turningOn)) = [] /\
  networkIO (emitted MotionObs.fresh
               (@Motion.run FanObs.decimal cloudSwitchedOff motionSession MotionObs.fresh))
  = [].
Proof.
  destruct (@disabled_cloud_service_is_silent FanObs.decimal cloudSwitchedOff
              FanObs.turningOn MotionObs.fresh session motionSession
              eq_refl eq_refl eq_refl) as ((F & _) & (M & _)).
  split; [exact F | exact M].
Defined.

(** ** Refreshing over the radio *)

Section RadioRefresh.
Import Fan FanObs.
Context `{Conversions}.
Variable device : Config.

Lemma fan_update_trace s :
  exists Y, trace (env (exec updateHomeKitCharacteristics s)) = trace (env s) ++ Y /\
            networkIO Y = [] /\
            hubUpdatesOf Y
            = hubUpdateOf Characteristic.Active (FanService.Active (Fan s))
              ++ hubUpdateOf Characteristic.RotationSpeed (FanService.RotationSpeed (Fan s))
              ++ hubUpdateOf Characteristic.SwingMode (FanService.SwingMode (Fan s))
              ++ hubUpdateOf Characteristic.BatteryLevel
                   (BatteryService.BatteryLevel (Battery s))
              ++ hubUpdateOf Characteristic.ChargingState
                   (BatteryService.ChargingState (Battery s))
              ++ hubUpdateOf Characteristic.StatusLowBattery
                   (BatteryService.StatusLowBattery (Battery s)).
Proof.
  destruct (fan_update_keeps s) as (Y & E & _). exists Y. split; [exact E|].
  destruct (fan_update_effect s)
    as (_ & _ & _ & _ & _ & _ & _ & _ & _ & _ & _ & _ & _ & _ & _ & _ & _ & HU & NI).
  rewrite (emitted_env _ _ _ E) in HU, NI. now split.
Qed.

Lemma scanned_exec s sd rest ts :
  pending (env s) = BLEscan :: ts ->
  handlerServiceData (env s) = Some sd :: rest ->
  exists X,
    exec (step device RunTask) s
    = exec updateHomeKitCharacteristics
        (with_Fan (FanService.set_Active (scannedActive sd))
           (with_env (fun w =>
              {| trace := trace w ++ X; pending := ts; responses := responses w;
                 bleAdapter := bleAdapter w; bleOutcomes := bleOutcomes w;
                 handlerServiceData := rest |}) s)) /\
    networkIO X = [BleStopScan] /\ hubUpdatesOf X = [].
Proof.
  intros Pe Ad.
  destruct s as [[Ac SM RS] Bt L cx fl tm [tr pe rs ad bo av]]. cbn in Pe, Ad. subst pe av.
  exists [BleStopScan; Log debug "BLEparseStatus"; Log debug "BLEparseStatus On"].
  split; [|split; reflexivity].
  unfold step, runTask, BLEscanned, BLEparseStatus, scannedActive.
  generalize updateHomeKitCharacteristics. intros k.
  cbv - [app strict_eq sd_state].
  destruct (strict_eq (sd_state sd) (JStr "on"));
    cbv - [app]; now rewrite <- !app_assoc.
Qed.

Lemma unscanned_exec s ts :
  pending (env s) = BLEscan :: ts ->
  hd None (handlerServiceData (env s)) = None ->
  exec (step device RunTask) s
  = with_env (fun w =>
      {| trace := trace w ++ [BleStopScan; Log debug "BLEparseStatus"];
         pending := ts; responses := responses w;
         bleAdapter := bleAdapter w; bleOutcomes := bleOutcomes w;
         handlerServiceData := tl (handlerServiceData w) |}) s.
Proof.
  intros Pe Ad.
  destruct s as [F Bt L cx fl tm [tr pe rs ad bo av]]. cbn in Pe, Ad. subst pe.
  unfold step, runTask, BLEscanned, BLEparseStatus.
  generalize updateHomeKitCharacteristics. intros k.
  destruct av as [|[sd|] rest]; cbn in Ad; try discriminate;
    cbv - [app]; now rewrite <- !app_assoc.
Qed.

Lemma scan_started_exec s :
  bleAdapter (env s) = true ->
  exec (BLERefreshStatus device) s
  = with_env (fun w =>
      {| trace := trace w ++ [Log debug "BLERefreshStatus"; Log debug "BLE Address";
                              BleStartScan];
         pending := pending (env s) ++ [BLEscan]; responses := responses w;
         bleAdapter := bleAdapter w; bleOutcomes := bleOutcomes w;
         handlerServiceData := handlerServiceData w |}) s
  /\ outcome (BLERefreshStatus device) s = Returns tt.
Proof.
  intros A. unfold BLERefreshStatus. generalize (BLERefreshConnection device). intros k.
  destruct s as [F Bt L cx fl tm [tr pe rs ad bo av]]. cbn in A. subst ad.
  unfold exec, outcome. cbv - [app].
  rewrite <- !app_assoc. split; reflexivity.
Qed.

(** X11: a refresh over the radio.  With an adapter, [BLERefreshStatus]
    starts the scan, leaves the rest to run on its own and returns with
    the accessory as it was.  When that work runs, the scan is stopped
    and [BLEparseStatus] is given [switchbot.onadvertisement.serviceData],
    a property read off the handler that has just been assigned.  When
    that is [undefined], as it is with an adapter that keeps the handler
    as it was assigned, reading its state throws: the accessory stays as
    it is and the hub is given nothing.  Only when it is an object does
    Active become the boolean [state === 'on']; it is then cached and
    given to the hub, followed by the other five values as they were,
    those that are not [undefined], and nothing else of the fan changes;
    since the cached Active is then a boolean, it differs from any number
    the hub sets afterwards.  No cloud request is made in either case. *)
Theorem radio_refresh_round s :
  bleAdapter (env s) = true ->
  pending (env s) = [] ->
  let s1 := exec (BLERefreshStatus device) s in
  let s2 := exec (step device RunTask) s1 in
  outcome (BLERefreshStatus device) s = Returns tt /\
  sameDevice s s1 /\
  pending (env s1) = [BLEscan] /\
  emitted s s1 = [Log debug "BLERefreshStatus"; Log debug "BLE Address"; BleStartScan] /\
  networkIO (emitted s s2) = [BleStartScan; BleStopScan] /\
  pending (env s2) = [] /\
  match hd None (handlerServiceData (env s)) with
  | None =>
      sameDevice s s2 /\
      hubUpdatesOf (emitted s s2) = []
  | Some sd =>
      desired Active s2 = scannedActive sd /\
      cached Active s2 = scannedActive sd /\
      (forall f, f <> Active -> desired f s2 = desired f s) /\
      Battery s2 = Battery s /\
      hubUpdatesOf (emitted s s2)
      = (Characteristic.Active, Val (scannedActive sd))
        :: hubUpdateOf Characteristic.RotationSpeed (desired RotationSpeed s)
        ++ hubUpdateOf Characteristic.SwingMode (desired SwingMode s)
        ++ hubUpdateOf Characteristic.BatteryLevel (BatteryService.BatteryLevel (Battery s))
        ++ hubUpdateOf Characteristic.ChargingState
             (BatteryService.ChargingState (Battery s))
        ++ hubUpdateOf Characteristic.StatusLowBattery
             (BatteryService.StatusLowBattery (Battery s)) /\
      (forall z, differs Active (exec (ActiveSet (JNum z)) s2) = true)
  end.
Proof.
  intros A Pe s1 s2.
  destruct (scan_started_exec s A) as (E1 & O). fold s1 in E1.
  rewrite Pe in E1. cbn [app] in E1.
  split; [exact O|].
  assert (P1 : pending (env s1) = BLEscan :: []) by (rewrite E1; reflexivity).
  assert (T1 : trace (env s1)
               = trace (env s)
                 ++ [Log debug "BLERefreshStatus"; Log debug "BLE Address"; BleStartScan])
    by (rewrite E1; reflexivity).
  assert (A1 : handlerServiceData (env s1) = handlerServiceData (env s))
    by (rewrite E1; reflexivity).
  split; [rewrite E1; unfold sameDevice; cbn; tauto|].
  split; [exact P1|].
  split; [exact (emitted_env _ _ _ T1)|].
  assert (CaseNone : hd None (handlerServiceData (env s)) = None ->
            networkIO (emitted s s2) = [BleStartScan; BleStopScan] /\
            pending (env s2) = [] /\
            sameDevice s s2 /\
            hubUpdatesOf (emitted s s2) = []).
  { intros N.
    assert (N1 : hd None (handlerServiceData (env s1)) = None) by now rewrite A1.
    pose proof (unscanned_exec s1 [] P1 N1) as E2. fold s2 in E2.
    assert (T : trace (env s2)
                = trace (env s)
                  ++ [Log debug "BLERefreshStatus"; Log debug "BLE Address"; BleStartScan;
                      BleStopScan; Log debug "BLEparseStatus"])
      by (rewrite E2; cbn; rewrite T1, <- !app_assoc; reflexivity).
    rewrite (emitted_env _ _ _ T).
    split; [reflexivity|]. split; [rewrite E2; reflexivity|].
    split; [|reflexivity].
    rewrite E2, E1. unfold sameDevice. cbn. tauto. }
  destruct (handlerServiceData (env s)) as [|[sd|] rest] eqn:Ad; cbn [hd].
  1,3: destruct (CaseNone eq_refl) as (N & P2 & S2 & U2);
       repeat (split; [assumption|]); assumption.
  clear CaseNone.
  destruct (scanned_exec s1 sd rest [] P1 A1) as (X & E2 & NX & HX).
  fold s2 in E2. set (sm := with_Fan _ _) in E2.
  destruct (fan_update_trace sm) as (Y & TY & NY & HY).
  destruct (fan_update_effect sm)
    as (_ & EF & EB & _ & _ & _ & EP & CA & _).
  rewrite <- E2 in TY, EF, EB, EP, CA.
  assert (T : trace (env s2)
              = trace (env s)
                ++ ([Log debug "BLERefreshStatus"; Log debug "BLE Address"; BleStartScan]
                    ++ X ++ Y)).
  { rewrite TY. unfold sm. rewrite E1. cbn. now rewrite <- !app_assoc. }
  split; [rewrite (emitted_env _ _ _ T), !networkIO_app, NX, NY; reflexivity|].
  split; [rewrite EP; reflexivity|].
  assert (DA : desired Active s2 = scannedActive sd)
    by (unfold desired; rewrite EF; reflexivity).
  assert (CA' : cached Active s2 = scannedActive sd).
  { unfold cached. rewrite CA. unfold sm, kept, scannedActive. cbn.
    reflexivity. }
  split; [exact DA|]. split; [exact CA'|].
  split.
  { intros f Nf. unfold desired. rewrite EF. unfold sm. rewrite E1.
    destruct f; [contradiction| |]; reflexivity. }
  split; [rewrite EB; unfold sm; rewrite E1; reflexivity|].
  split.
  { rewrite (emitted_env _ _ _ T), !hubUpdatesOf_app, HX, HY.
    unfold sm. rewrite E1. reflexivity. }
  intros z. unfold differs.
  assert (K : forall s0, desired Active (exec (ActiveSet (JNum z)) s0) = JNum z
                         /\ cached Active (exec (ActiveSet (JNum z)) s0) = cached Active s0).
  { intros s0. destruct (hubSet_effect onActive (JNum z) s0)
      as (_ & _ & _ & Cx & _ & _ & _ & _ & _ & _ & _ & Rq).
    split; [exact Rq|]. unfold cached. cbn [hubSet] in Cx. now rewrite Cx. }
  destruct (K s2) as (-> & ->). rewrite CA'. reflexivity.
Qed.

End RadioRefresh.

Lemma radio_refresh_round_witness :
  (hd None (handlerServiceData (Fan.env FanObs.fresh)) = None /\
   hubUpdatesOf
     (emitted FanObs.fresh
        (exec (@Fan.step FanObs.decimal FanObs.radio Fan.RunTask)
           (exec (@Fan.BLERefreshStatus FanObs.decimal FanObs.radio) FanObs.fresh)))
   = []) /\
  FanObs.cached FanObs.Active
    (exec (@Fan.step FanObs.decimal FanObs.radio Fan.RunTask)
       (exec (@Fan.BLERefreshStatus FanObs.decimal FanObs.radio)
          (handlerYields (Some fanData))))
  = JBool true.
Proof.
  split; [split; [reflexivity|]|].
  - exact (proj2 (proj2 (proj2 (proj2 (proj2 (proj2 (proj2
             (@radio_refresh_round FanObs.decimal FanObs.radio FanObs.fresh
                eq_refl eq_refl)))))))).
  - destruct (@radio_refresh_round FanObs.decimal FanObs.radio
                (handlerYields (Some fanData)) eq_refl eq_refl)
      as (_ & _ & _ & _ & _ & _ & _ & C & _).
    exact C.
Defined.

(** ** One request per cloud refresh *)

Lemma try_bind_exec {S A : Type} (m : M S A) (k : A -> M S unit) h s :
  exec (try_catch (bind m k) h) s
  = match outcome m s with
    | Returns a => exec (try_catch (k a) h) (exec m s)
    | Throws e => exec (h e) (exec m s)
    end.
Proof.
  unfold exec, outcome, try_catch, bind. now destruct (m s) as [[a|e] s'].
Qed.

Section OneRequest.
Context `{Conversions}.

Lemma fan_fetch_trace (s : Fan.state) :
  exists Y,
    trace (Fan.env (exec Fan.openAPIRefreshStatus s))
    = trace (Fan.env s) ++ [Log debug "openAPIRefreshStatus"; HttpGetStatus] ++ Y /\
    Forall offTransport Y /\
    pending (Fan.env (exec Fan.openAPIRefreshStatus s)) = pending (Fan.env s).
Proof.
  unfold Fan.openAPIRefreshStatus.
  rewrite (exec_bind (log debug "openAPIRefreshStatus") _ s tt eq_refl).
  set (s1 := exec (log debug "openAPIRefreshStatus") s).
  rewrite try_bind_exec.
  destruct (exchange_world HttpGetStatus s1) as (T2 & P2).
  fold (retryRequest (S := Fan.state)) in T2, P2.
  set (s2 := exec retryRequest s1) in *.
  assert (K : forall s3, calm offTransport s2 s3 ->
            exists Y, trace (Fan.env s3)
                      = trace (Fan.env s) ++ [Log debug "openAPIRefreshStatus"; HttpGetStatus] ++ Y
                      /\ Forall offTransport Y /\ pending (Fan.env s3) = pending (Fan.env s)).
  { intros s3 (P3 & Y & T3 & FY). exists Y. split; [|split; [exact FY|]].
    - cbn in T3, T2. rewrite T3, T2. now rewrite <- !app_assoc.
    - cbn in P3, P2. rewrite P3, P2. reflexivity. }
  clearbody s2. clear T2 P2.
  destruct (outcome retryRequest s1) as [r|e]; apply K; apply keeps_exec.
  - unfold Fan.apiError, Fan.openAPIparseStatus, Fan.updateHomeKitCharacteristics,
      Fan.updateOne, body_json, read_statusCode, read_body.
    calm_auto.
  - unfold Fan.apiError. calm_auto.
Qed.

Lemma motion_fetch_trace device (s : Motion.state) :
  exists Y,
    trace (Motion.env (exec (Motion.openAPIRefreshStatus device) s))
    = trace (Motion.env s) ++ [Log debug "openAPIRefreshStatus"; HttpGetStatus] ++ Y /\
    Forall offTransport Y /\
    pending (Motion.env (exec (Motion.openAPIRefreshStatus device) s))
    = pending (Motion.env s).
Proof.
  unfold Motion.openAPIRefreshStatus.
  rewrite (exec_bind (log debug "openAPIRefreshStatus") _ s tt eq_refl).
  set (s1 := exec (log debug "openAPIRefreshStatus") s).
  rewrite try_bind_exec.
  destruct (exchange_world HttpGetStatus s1) as (T2 & P2).
  fold (retryRequest (S := Motion.state)) in T2, P2.
  set (s2 := exec retryRequest s1) in *.
  assert (K : forall s3, calm offTransport s2 s3 ->
            exists Y, trace (Motion.env s3)
                      = trace (Motion.env s)
                        ++ [Log debug "openAPIRefreshStatus"; HttpGetStatus] ++ Y
                      /\ Forall offTransport Y
                      /\ pending (Motion.env s3) = pending (Motion.env s)).
  { intros s3 (P3 & Y & T3 & FY). exists Y. split; [|split; [exact FY|]].
    - cbn in T3, T2. rewrite T3, T2. now rewrite <- !app_assoc.
    - cbn in P3, P2. rewrite P3, P2. reflexivity. }
  clearbody s2. clear T2 P2.
  destruct (outcome retryRequest s1) as [r|e]; apply K; apply keeps_exec.
  - unfold Motion.apiError, Motion.openAPIparseStatus, Motion.updateHomeKitCharacteristics,
      Motion.updateOne, Motion.assign_CurrentAmbientLightLevel,
      Motion.read_CurrentAmbientLightLevel, body_json, read_statusCode, read_body.
    calm_auto.
  - unfold Motion.apiError, Motion.read_CurrentAmbientLightLevel. calm_auto.
Qed.

(** X12: a cloud refresh makes exactly one status request, whatever the
    cloud answers and whether or not parsing the answer throws: it
    returns, the request follows the first log entry, nothing else uses a
    transport and no work is left to run on its own.  This holds for the
    fan and for the motion sensor. *)
Theorem refresh_makes_one_request device (fs : Fan.state) (ms : Motion.state) :
  (let fs' := exec Fan.openAPIRefreshStatus fs in
   outcome Fan.openAPIRefreshStatus fs = Returns tt /\
   networkIO (emitted fs fs') = [HttpGetStatus] /\
   firstn 2 (emitted fs fs') = [Log debug "openAPIRefreshStatus"; HttpGetStatus] /\
   pending (Fan.env fs') = pending (Fan.env fs)) /\
  (let ms' := exec (Motion.openAPIRefreshStatus device) ms in
   outcome (Motion.openAPIRefreshStatus device) ms = Returns tt /\
   networkIO (emitted ms ms') = [HttpGetStatus] /\
   firstn 2 (emitted ms ms') = [Log debug "openAPIRefreshStatus"; HttpGetStatus] /\
   pending (Motion.env ms') = pending (Motion.env ms)).
Proof.
  split.
  - destruct (fan_fetch_trace fs) as (Y & T & FY & Pe).
    split; [apply fan_fetch_returns|].
    rewrite (@emitted_app Fan.state Fan.state_world fs _ _ T).
    rewrite networkIO_app, (networkIO_none Y FY). auto.
  - destruct (motion_fetch_trace device ms) as (Y & T & FY & Pe).
    split; [apply motion_fetch_returns|].
    rewrite (@emitted_app Motion.state Motion.state_world ms _ _ T).
    rewrite networkIO_app, (networkIO_none Y FY). auto.
Qed.

End OneRequest.

(** ** A radio refresh that does not get through *)

Section RadioRefreshFails.
Import Fan FanObs.
Context `{Conversions}.
Variable device : Config.

Lemma refresh_unplugged_run s :
  bleAdapter (env s) = false ->
  BLERefreshStatus device s
  = when (fallsBack device)
      (log warn "Using OpenAPI Connection to Refresh Status" ;; openAPIRefreshStatus)
      (with_env (fun w =>
         {| trace := trace w ++ [Log debug "BLERefreshStatus"; Log debug "BLE Address";
                                 Log error "wasn't able to establish BLE Connection"];
            pending := pending w; responses := responses w;
            bleAdapter := bleAdapter w; bleOutcomes := bleOutcomes w;
            handlerServiceData := handlerServiceData w |}) s).
Proof.
  intros A. unfold BLERefreshStatus, BLERefreshConnection. fold (fallsBack device).
  generalize (when (fallsBack device)
                (log warn "Using OpenAPI Connection to Refresh Status" ;;
                 openAPIRefreshStatus)).
  intros k.
  destruct s as [F Bt L cx fl tm [tr pe rs ad bo av]]. cbn in A. subst ad.
  cbv - [app]. now rewrite <- !app_assoc.
Qed.

(** X13: a refresh over the radio without an adapter returns, logs that
    the connection could not be established, starts no scan and leaves no
    work to run on its own.  A cloud refresh (one status request) follows
    if and only if there is a token and the connection type is
    [BLE/OpenAPI]; otherwise no request is made and the accessory stays
    as it is. *)
Theorem radio_refresh_without_adapter s :
  bleAdapter (env s) = false ->
  let s1 := exec (BLERefreshStatus device) s in
  outcome (BLERefreshStatus device) s = Returns tt /\
  pending (env s1) = pending (env s) /\
  radioEventsOf (emitted s s1) = [] /\
  httpOf (emitted s s1) = (if fallsBack device then [HttpGetStatus] else []) /\
  firstn 3 (emitted s s1)
    = [Log debug "BLERefreshStatus"; Log debug "BLE Address";
       Log error "wasn't able to establish BLE Connection"] /\
  (fallsBack device = false -> sameDevice s s1 /\ List.length (emitted s s1) = 3%nat).
Proof.
  intros A s1. subst s1. unfold outcome, exec.
  rewrite (refresh_unplugged_run s A).
  set (s0 := with_env _ s).
  destruct (fallsBack device); cbn [when].
  - set (sw := exec (log warn "Using OpenAPI Connection to Refresh Status") s0).
    change ((log warn "Using OpenAPI Connection to Refresh Status";;
             openAPIRefreshStatus) s0) with (openAPIRefreshStatus sw).
    fold (outcome openAPIRefreshStatus sw). fold (exec openAPIRefreshStatus sw).
    destruct (fan_fetch_trace sw) as (Y & T & FY & Pe).
    assert (T' : trace (env (exec openAPIRefreshStatus sw))
                 = trace (env s)
                   ++ ([Log debug "BLERefreshStatus"; Log debug "BLE Address";
                        Log error "wasn't able to establish BLE Connection"]
                       ++ [Log warn "Using OpenAPI Connection to Refresh Status";
                           Log debug "openAPIRefreshStatus"; HttpGetStatus] ++ Y)).
    { rewrite T. unfold sw, s0. cbn. now rewrite <- !app_assoc. }
    rewrite (emitted_env _ _ _ T').
    split; [apply fan_fetch_returns|]. split; [rewrite Pe; reflexivity|].
    assert (NR : Forall notRadio Y).
    { eapply Forall_impl; [|exact FY]. intros e. now destruct e. }
    assert (NH : Forall notHttp Y).
    { eapply Forall_impl; [|exact FY]. intros e. now destruct e. }
    split; [|split; [|split; [reflexivity | discriminate]]].
    + unfold radioEventsOf. rewrite !filter_app. cbn.
      exact (radioEventsOf_none Y NR).
    + unfold httpOf. rewrite !filter_app. cbn.
      f_equal. exact (httpOf_none Y NH).
  - assert (T' : trace (env s0)
                 = trace (env s)
                   ++ [Log debug "BLERefreshStatus"; Log debug "BLE Address";
                       Log error "wasn't able to establish BLE Connection"])
      by reflexivity.
    cbn [ret fst snd]. rewrite (emitted_env _ _ _ T').
    repeat (split; [reflexivity|]). intros _.
    split; [unfold sameDevice; cbn; tauto | reflexivity].
Qed.

(** X14: a refresh over the radio in which
    [switchbot.onadvertisement.serviceData] is [undefined], as it is
    with an adapter that keeps the handler as it was assigned: the scan
    is started and stopped, reading the state of the missing service data
    throws, and since nobody awaits that work, the exception is lost: the
    accessory stays as it is, the hub is told nothing, and no cloud
    request is made. *)
Theorem radio_refresh_without_advertisement s :
  bleAdapter (env s) = true ->
  hd None (handlerServiceData (env s)) = None ->
  pending (env s) = [] ->
  let s2 := exec (step device RunTask) (exec (BLERefreshStatus device) s) in
  sameDevice s s2 /\
  pending (env s2) = [] /\
  emitted s s2
  = [Log debug "BLERefreshStatus"; Log debug "BLE Address"; BleStartScan;
     BleStopScan; Log debug "BLEparseStatus"].
Proof.
  intros A Ad Pe s2.
  destruct (scan_started_exec device s A) as (E1 & _).
  rewrite Pe in E1. cbn [app] in E1.
  subst s2. rewrite E1.
  rewrite (unscanned_exec device _ []) by (try reflexivity; exact Ad).
  split; [unfold sameDevice; cbn; tauto|]. split; [reflexivity|].
  apply emitted_env. cbn. now rewrite <- !app_assoc.
Qed.

End RadioRefreshFails.

Lemma radio_refresh_without_adapter_witness :
  httpOf (emitted unplugged
            (exec (@Fan.BLERefreshStatus FanObs.decimal radioThenCloud) unplugged))
  = [HttpGetStatus] /\
  httpOf (emitted unplugged
            (exec (@Fan.BLERefreshStatus FanObs.decimal FanObs.radio) unplugged))
  = [].
Proof.
  split.
  - destruct (@radio_refresh_without_adapter FanObs.decimal radioThenCloud unplugged
                eq_refl) as (_ & _ & _ & G & _).
    exact G.
  - destruct (@radio_refresh_without_adapter FanObs.decimal FanObs.radio unplugged
                eq_refl) as (_ & _ & _ & G & _).
    exact G.
Defined.

Lemma radio_refresh_without_advertisement_witness :
  FanObs.sameDevice (handlerYields None)
    (exec (@Fan.step FanObs.decimal FanObs.radio Fan.RunTask)
       (exec (@Fan.BLERefreshStatus FanObs.decimal FanObs.radio) (handlerYields None))).
Proof.
  destruct (@radio_refresh_without_advertisement FanObs.decimal FanObs.radio
              (handlerYields None) eq_refl eq_refl eq_refl) as (G & _).
  exact G.
Defined.

(** ** Firmware versions *)

Section Firmware.
Import Version.

Lemma has_line_terminator_tail c r :
  has_line_terminator (String c r) = false -> has_line_terminator r = false.
Proof.
  cbn [has_line_terminator]. intros E. now apply orb_false_iff in E.
Qed.

Lemma cut_dash_prefix s :
  has_line_terminator s = false ->
  hasDash (cut_dash s) = false /\
  exists rest, s = (cut_dash s ++ rest)%string /\
               (hasDash s = true -> exists r, rest = String "-"%char r) /\
               (hasDash s = false -> rest = EmptyString).
Proof.
  induction s as [|c r IH]; intros L.
  - split; [reflexivity|]. exists EmptyString. repeat split. discriminate.
  - pose proof (has_line_terminator_tail c r L) as Lr.
    destruct (IH Lr) as (ND & rest & E & D1 & D0).
    cbn [cut_dash hasDash]. rewrite Lr. cbn [negb]. rewrite andb_true_r.
    destruct (Ascii.eqb c "-"%char) eqn:Ec.
    + apply Ascii.eqb_eq in Ec. subst c. split; [reflexivity|].
      exists (String "-"%char r). split; [reflexivity|]. split; [eauto | discriminate].
    + cbn [hasDash orb]. rewrite Ec. cbn [orb]. split; [exact ND|].
      exists rest. split; [cbn; now rewrite <- E | now split].
Qed.

(** X15: the firmware version as it is shown.  For a version string
    without line terminators, [replace(/^V|-.*$/g, '')] removes a leading
    [V] and everything from the first dash on: the result contains no
    dash, it is the start of what follows the [V], and what is left out
    is empty when there is no dash and starts with the first dash
    otherwise. *)
Theorem strip_cuts_at_first_dash s :
  has_line_terminator s = false ->
  hasDash (strip s) = false /\
  exists rest, afterV s = (strip s ++ rest)%string /\
               (hasDash (afterV s) = true -> exists r, rest = String "-"%char r) /\
               (hasDash (afterV s) = false -> rest = EmptyString).
Proof.
  intros L. destruct s as [|c r].
  - split; [reflexivity|]. exists EmptyString. repeat split. discriminate.
  - unfold strip, afterV. destruct (Ascii.eqb c "V"%char).
    + apply cut_dash_prefix. exact (has_line_terminator_tail c r L).
    + apply cut_dash_prefix. exact L.
Qed.

End Firmware.

Lemma strip_cuts_at_first_dash_witness :
  Version.strip "V1.2-3" = "1.2"%string /\ hasDash (Version.strip "V1.2-3") = false.
Proof.
  split; [reflexivity|].
  destruct (strip_cuts_at_first_dash "V1.2-3" eq_refl) as (G & _). exact G.
Defined.

Section FirmwareReport.
Import Fan FanObs.
Context `{Conversions}.

(** X16: what parsing a status body does beyond the fields of the fan:
    it never throws and uses no transport; when the body has a version,
    the stripped version is given to the hub as hardware revision once
    and as firmware revision twice and is stored as [deviceVersion]; when
    it has none, the hub is told nothing and [deviceVersion] stays.  The
    cached values of the fan and the [version] a webhook event stores
    are not touched. *)
Theorem parse_reports_firmware d b s :
  ds_body d = Some b ->
  let s' := exec (openAPIparseStatus d) s in
  let v := JStr (Version.strip (ToString (version b))) in
  outcome (openAPIparseStatus d) s = Returns tt /\
  hubUpdatesOf (emitted s s')
    = (if truthy (version b) then firmwareUpdates v else []) /\
  Context.deviceVersion (context s')
    = (if truthy (version b) then v else Context.deviceVersion (context s)) /\
  Context.version (context s') = Context.version (context s) /\
  (forall f, cached f s' = cached f s) /\
  networkIO (emitted s s') = [] /\
  pending (env s') = pending (env s).
Proof.
  intros Hb.
  destruct s as [[A SM RS] [BL SL CS] L [cA cRS cSM cB cC cSL cO cBr cv cdv] fl tm
                   [tr pe rs ad bo av]].
  unfold openAPIparseStatus, read_body, exec, outcome, emitted, firmwareUpdates.
  rewrite Hb.
  remember (Number (battery b)) as n eqn:En.
  cbv - [Number Version.strip ToString truthy strict_eq Z.ltb
         battery version power oscillation fanSpeed chargingStatus
         app skipn List.length hubUpdatesOf networkIO cached].
  rewrite <- En. cbn [Number].
  destruct n as [|z]; [|destruct (z <? 10)];
    destruct (truthy (version b));
    cbv - [Version.strip ToString version app skipn List.length hubUpdatesOf networkIO];
    repeat rewrite <- app_assoc;
    rewrite !skipn_app, !skipn_all, !Nat.sub_diag;
    (repeat split; intros f; destruct f; reflexivity).
Qed.

End FirmwareReport.

Lemma parse_reports_firmware_witness :
  hubUpdatesOf
    (emitted FanObs.fresh
       (exec (@Fan.openAPIparseStatus FanObs.decimal
                {| ds_statusCode := JNum 100; ds_body := Some fanReport |}) FanObs.fresh))
  = firmwareUpdates (JStr "1.2").
Proof.
  destruct (@parse_reports_firmware FanObs.decimal
              {| ds_statusCode := JNum 100; ds_body := Some fanReport |}
              fanReport FanObs.fresh eq_refl) as (_ & G & _).
  exact G.
Defined.

(** ** Webhook events and the dispatch that follows *)

Section WebhookEcho.
Import Fan FanObs.
Context `{Conversions}.

Lemma fan_webhook_exec s c :
  exists sm X,
    exec (webhookEventHandler (Some c)) s = exec updateHomeKitCharacteristics sm /\
    pending (env sm) = pending (env s) /\
    trace (env sm) = trace (env s) ++ X /\ networkIO X = [].
Proof.
  unfold webhookEventHandler. generalize updateHomeKitCharacteristics. intros k.
  destruct s as [[A SM RS] [BL SL CS] L [cA cRS cSM cB cC cSL cO cBr cv cdv] fl tm
                   [tr pe rs ad bo av]].
  destruct (truthy (wh_version c)) eqn:V.
  - eexists. exists [Log debug "received Webhook"; Log debug "Webhook current";
                     UpdateCharacteristic Characteristic.FirmwareRevision (Val (wh_version c));
                     UpdateCharacteristic Characteristic.FirmwareRevision (Val (wh_version c))].
    split; [|split; [|split; [|reflexivity]]].
    + unfold exec, try_catch, bind, unawaited. cbn. reflexivity.
    + reflexivity.
    + cbn. now rewrite <- !app_assoc.
  - eexists. exists [Log debug "received Webhook"; Log debug "Webhook current"].
    split; [|split; [|split; [|reflexivity]]].
    + unfold exec, try_catch, bind, unawaited. cbn. reflexivity.
    + reflexivity.
    + cbn. now rewrite <- !app_assoc.
Qed.

(** X17: a webhook event is not echoed back to the device.  Handling a
    readable event uses no transport and leaves no work behind, and
    afterwards the cached Active and SwingMode are the desired ones, so
    that a dispatch cycle right after it sends no command over the cloud
    and none over the radio, whatever the event held. *)
Theorem webhook_event_is_not_echoed s c :
  let s' := exec (webhookEventHandler (Some c)) s in
  networkIO (emitted s s') = [] /\
  pending (env s') = pending (env s) /\
  cached Active s' = desired Active s' /\
  cached SwingMode s' = desired SwingMode s' /\
  commandsOf (emitted s' (exec openAPIpushChanges s')) = [] /\
  networkIO (emitted s' (exec BLEpushChanges s')) = [] /\
  pending (env (exec BLEpushChanges s')) = pending (env s').
Proof.
  intros s'.
  destruct (fan_webhook_fields s c) as (WA & WS & _). fold s' in WA, WS.
  destruct (fan_webhook_exec s c) as (sm & X & E & Pm & Tm & NX). fold s' in E.
  destruct (fan_update_keeps sm) as (Y & TY & _).
  destruct (fan_update_effect sm)
    as (_ & EF & _ & _ & _ & _ & EP & UA & _ & US & _ & _ & _ & _ & _ & _ & _ & _ & NI).
  rewrite <- E in TY, EF, EP, UA, US, NI.
  change (trace (env s') = trace (env sm) ++ Y) in TY.
  assert (KA : cached Active s' = desired Active s').
  { unfold cached, desired. rewrite UA, <- EF, WA. apply kept_constant. }
  assert (KS : cached SwingMode s' = desired SwingMode s').
  { unfold cached, desired. rewrite US, <- EF, WS. apply kept_constant. }
  assert (DA : differs Active s' = false).
  { apply differs_false. rewrite KA. unfold desired. rewrite WA.
    now destruct (strict_eq (wh_powerState c) (JStr "ON")). }
  assert (DS : differs SwingMode s' = false).
  { apply differs_false. rewrite KS. unfold desired. rewrite WS.
    now destruct (strict_eq (wh_oscillation c) (JStr "on")). }
  split.
  { assert (T : trace (env s') = trace (env s) ++ (X ++ Y))
      by (rewrite TY, Tm; now rewrite <- app_assoc).
    rewrite (emitted_env _ _ _ T), networkIO_app, NX.
    rewrite (emitted_env _ _ _ TY) in NI. now rewrite NI. }
  split; [congruence|]. split; [exact KA|]. split; [exact KS|]. split.
  - rewrite openAPIpushChanges_commands.
    unfold powerCommand, speedCommand, oscillationCommand.
    now rewrite DA, DS, andb_false_r.
  - exact (does_quiet _ _ (does_BLEpushChanges_idle s' DA)).
Qed.

End WebhookEcho.

(** ** The motion sensor: what reaches the hub *)

Section MotionHub.
Import Motion MotionObs.
Variable device : Config.

Lemma motion_update_effect s :
  let s' := exec (updateHomeKitCharacteristics device) s in
  let synced :=
    if BLE device then
      match LightSensor s with
      | Some l => Some (hubUpdateOf Characteristic.CurrentAmbientLightLevel
                          (LightSensorService.CurrentAmbientLightLevel l),
                        kept (LightSensorService.CurrentAmbientLightLevel l)
                          (Context.CurrentAmbientLightLevel (context s)))
      | None => None
      end
    else Some ([], Context.CurrentAmbientLightLevel (context s)) in
  MotionSensor s' = MotionSensor s /\ Battery s' = Battery s /\
  LightSensor s' = LightSensor s /\
  motionUbpdateInProgress s' = motionUbpdateInProgress s /\ timers s' = timers s /\
  pending (env s') = pending (env s) /\
  Context.MotionDetected (context s')
    = kept (MotionSensorService.MotionDetected (MotionSensor s))
        (Context.MotionDetected (context s)) /\
  Context.BatteryLevel (context s')
    = kept (BatteryService.BatteryLevel (Battery s)) (Context.BatteryLevel (context s)) /\
  Context.StatusLowBattery (context s')
    = kept (BatteryService.StatusLowBattery (Battery s))
        (Context.StatusLowBattery (context s)) /\
  Context.deviceVersion (context s') = Context.deviceVersion (context s) /\
  networkIO (emitted s s') = [] /\
  match synced with
  | Some (more, level) =>
      outcome (updateHomeKitCharacteristics device) s = Returns tt /\
      hubUpdatesOf (emitted s s') = motionUpdates s ++ more /\
      Context.CurrentAmbientLightLevel (context s') = level
  | None =>
      outcome (updateHomeKitCharacteristics device) s = Throws TypeError /\
      hubUpdatesOf (emitted s s') = motionUpdates s /\
      Context.CurrentAmbientLightLevel (context s')
      = Context.CurrentAmbientLightLevel (context s)
  end.
Proof.
  destruct s as [[MD] [BL SL] LS [cMD cBL cSL cL cdv] fl tm [tr pe rs ad bo av]].
  unfold updateHomeKitCharacteristics, updateOne, read_CurrentAmbientLightLevel,
    exec, outcome, emitted, kept, motionUpdates, hubUpdateOf.
  destruct (BLE device); [destruct LS as [[lv]|]|];
    cbv - [strict_eq app skipn List.length hubUpdatesOf networkIO];
    destruct (strict_eq MD JUndefined), (strict_eq BL JUndefined),
      (strict_eq SL JUndefined);
    try destruct (strict_eq lv JUndefined);
    cbv - [app skipn List.length hubUpdatesOf networkIO];
    repeat rewrite <- app_assoc;
    rewrite ?skipn_app, ?skipn_all, ?Nat.sub_diag;
    repeat split.
Qed.

(** X18: what [updateHomeKitCharacteristics] of the motion sensor does.
    MotionDetected, BatteryLevel and StatusLowBattery are cached and
    given to the hub unless [undefined]; no transport is used and the
    sensor's own fields stay.  The light level is looked at only when the
    radio is set up: without it the level is neither cached nor given to
    the hub; with it and a light sensor it is cached and given to the hub
    unless [undefined]; with it and no light sensor (the sensor is
    hidden) the method throws a [TypeError] once the first three are
    done. *)
Theorem motion_hub_sync s :
  let s' := exec (updateHomeKitCharacteristics device) s in
  (MotionSensor s' = MotionSensor s /\ Battery s' = Battery s /\
   LightSensor s' = LightSensor s) /\
  (Context.MotionDetected (context s')
     = kept (MotionSensorService.MotionDetected (MotionSensor s))
         (Context.MotionDetected (context s)) /\
   Context.BatteryLevel (context s')
     = kept (BatteryService.BatteryLevel (Battery s)) (Context.BatteryLevel (context s)) /\
   Context.StatusLowBattery (context s')
     = kept (BatteryService.StatusLowBattery (Battery s))
         (Context.StatusLowBattery (context s))) /\
  networkIO (emitted s s') = [] /\
  (BLE device = false ->
   outcome (updateHomeKitCharacteristics device) s = Returns tt /\
   hubUpdatesOf (emitted s s') = motionUpdates s /\
   Context.CurrentAmbientLightLevel (context s')
   = Context.CurrentAmbientLightLevel (context s)) /\
  (BLE device = true -> forall l, LightSensor s = Some l ->
   outcome (updateHomeKitCharacteristics device) s = Returns tt /\
   hubUpdatesOf (emitted s s')
   = motionUpdates s
     ++ hubUpdateOf Characteristic.CurrentAmbientLightLevel
          (LightSensorService.CurrentAmbientLightLevel l) /\
   Context.CurrentAmbientLightLevel (context s')
   = kept (LightSensorService.CurrentAmbientLightLevel l)
       (Context.CurrentAmbientLightLevel (context s))) /\
  (BLE device = true -> LightSensor s = None ->
   outcome (updateHomeKitCharacteristics device) s = Throws TypeError /\
   hubUpdatesOf (emitted s s') = motionUpdates s /\
   Context.CurrentAmbientLightLevel (context s')
   = Context.CurrentAmbientLightLevel (context s)).
Proof.
  intros s'.
  destruct (motion_update_effect s)
    as (EM & EB & EL & _ & _ & _ & CM & CB & CS & _ & NI & Sync).
  fold s' in EM, EB, EL, CM, CB, CS, NI, Sync.
  split; [auto|]. split; [auto|]. split; [exact NI|].
  split; [|split].
  - intros B. rewrite B in Sync. destruct Sync as (O & U & C).
    rewrite app_nil_r in U. auto.
  - intros B l E. rewrite B, E in Sync. exact Sync.
  - intros B E. rewrite B, E in Sync. exact Sync.
Qed.

End MotionHub.

Lemma motion_hub_sync_witness :
  outcome (Motion.updateHomeKitCharacteristics FanObs.radio) lightless = Throws TypeError /\
  hubUpdatesOf
    (emitted lightless (exec (Motion.updateHomeKitCharacteristics FanObs.radio) lightless))
  = motionUpdates lightless.
Proof.
  destruct (motion_hub_sync FanObs.radio lightless) as (_ & _ & _ & _ & _ & Hidden).
  destruct (Hidden eq_refl eq_refl) as (O & U & _).
  split; [exact O | exact U].
Defined.

(** ** The motion sensor: what a parse reads *)

Section MotionParse.
Import Motion MotionObs.
Context `{Conversions}.
Variable device : Config.

Ltac parse_cases En :=
  repeat (cbv - [Number truthy strict_eq strict_neq Z.ltb nullish orb andb
                 Version.strip ToString battery version brightness moveDetected
                 sd_battery sd_movement sd_lightLevel sd_state
                 set_minLux set_maxLux
                 app skipn List.length hubUpdatesOf networkIO];
          try rewrite <- En; cbn [Number];
          match goal with
          | |- context [match ?n with NaN => _ | Int _ => _ end] => destruct n
          | |- context [if ?c then _ else _] => destruct c
          end).

Lemma motion_parse_fields d b s :
  ds_body d = Some b ->
  lightSensorReady device s ->
  let s' := exec (openAPIparseStatus device d) s in
  outcome (openAPIparseStatus device d) s = Returns tt /\
  MotionSensorService.MotionDetected (MotionSensor s') = moveDetected b /\
  LightSensor s' = lightSensorAfter device (cloudLightLevel device b) s /\
  Context.MotionDetected (context s') = Context.MotionDetected (context s) /\
  Context.BatteryLevel (context s') = Context.BatteryLevel (context s) /\
  Context.StatusLowBattery (context s') = Context.StatusLowBattery (context s) /\
  Context.CurrentAmbientLightLevel (context s')
    = Context.CurrentAmbientLightLevel (context s) /\
  motionUbpdateInProgress s' = motionUbpdateInProgress s /\ timers s' = timers s /\
  networkIO (emitted s s') = [] /\
  hubUpdatesOf (emitted s s')
  = (if truthy (version b)
     then firmwareUpdates (JStr (Version.strip (ToString (version b)))) else []).
Proof.
  intros Hb Hl.
  destruct s as [[MD] [BL SL] LS [cMD cBL cSL cL cdv] fl tm [tr pe rs ad bo av]].
  unfold lightSensorReady in Hl. cbn in Hl.
  unfold openAPIparseStatus, read_body, exec, outcome, lightSensorAfter, cloudLightLevel,
    minLuxOf, maxLuxOf, assign_CurrentAmbientLightLevel, emitted, firmwareUpdates.
  rewrite Hb.
  remember (Number (battery b)) as n eqn:En.
  destruct (hide_lightsensor device).
  - parse_cases En;
      repeat rewrite <- app_assoc;
      rewrite ?skipn_app, ?skipn_all, ?Nat.sub_diag; repeat split.
  - destruct LS as [l|]; [|now destruct (Hl eq_refl)].
    parse_cases En;
      repeat rewrite <- app_assoc;
      rewrite ?skipn_app, ?skipn_all, ?Nat.sub_diag; repeat split.
Qed.

Lemma motion_scan_fields sd s :
  lightSensorReady device s ->
  let s' := exec (BLEparseStatus device (Some sd)) s in
  outcome (BLEparseStatus device (Some sd)) s = Returns tt /\
  MotionSensorService.MotionDetected (MotionSensor s') = sd_movement sd /\
  LightSensor s' = lightSensorAfter device (radioLightLevel device sd) s /\
  context s' = context s /\
  motionUbpdateInProgress s' = motionUbpdateInProgress s /\ timers s' = timers s /\
  networkIO (emitted s s') = [] /\ hubUpdatesOf (emitted s s') = [].
Proof.
  intros Hl.
  destruct s as [[MD] [BL SL] LS cx fl tm [tr pe rs ad bo av]].
  unfold lightSensorReady in Hl. cbn in Hl.
  unfold BLEparseStatus, exec, outcome, lightSensorAfter, radioLightLevel,
    minLuxOf, maxLuxOf, assign_CurrentAmbientLightLevel, read_CurrentAmbientLightLevel,
    emitted.
  remember (if strict_eq (sd_battery sd) JUndefined then JNum 100 else sd_battery sd)
    as r eqn:Er. clear Er.
  remember (Number r) as n eqn:En.
  destruct (hide_lightsensor device).
  - parse_cases En;
      repeat rewrite <- app_assoc;
      rewrite ?skipn_app, ?skipn_all, ?Nat.sub_diag; repeat split.
  - destruct LS as [l|]; [|now destruct (Hl eq_refl)].
    parse_cases En;
      repeat rewrite <- app_assoc;
      rewrite ?skipn_app, ?skipn_all, ?Nat.sub_diag; repeat split.
Qed.

(** X19: what parsing reads for the motion sensor, given the light sensor
    the constructor creates unless it is hidden.  Both parsers return.
    MotionDetected is [moveDetected] of a cloud body and [movement] of
    service data, as they come.  The light level is one of two values:
    the lower bound ([set_minLux], 1 when not configured) when the cloud
    reports [dim] or the service data [dark] or 1, the upper bound
    ([set_maxLux], 6001 when not configured) for everything else, an
    absent reading included; a hidden light sensor is left alone.  The
    cached values are not touched by parsing. *)
Theorem motion_parse_reads d b sd s :
  ds_body d = Some b ->
  lightSensorReady device s ->
  (let s' := exec (openAPIparseStatus device d) s in
   outcome (openAPIparseStatus device d) s = Returns tt /\
   MotionSensorService.MotionDetected (MotionSensor s') = moveDetected b /\
   LightSensor s' = lightSensorAfter device (cloudLightLevel device b) s /\
   Context.MotionDetected (context s') = Context.MotionDetected (context s) /\
   Context.CurrentAmbientLightLevel (context s')
     = Context.CurrentAmbientLightLevel (context s)) /\
  (let s' := exec (BLEparseStatus device (Some sd)) s in
   outcome (BLEparseStatus device (Some sd)) s = Returns tt /\
   MotionSensorService.MotionDetected (MotionSensor s') = sd_movement sd /\
   LightSensor s' = lightSensorAfter device (radioLightLevel device sd) s /\
   context s' = context s).
Proof.
  intros Hb Hl. split.
  - destruct (motion_parse_fields d b s Hb Hl) as (O & M & L & CM & _ & _ & CL & _).
    auto.
  - destruct (motion_scan_fields sd s Hl) as (O & M & L & C & _).
    auto.
Qed.

End MotionParse.

Lemma motion_parse_reads_witness :
  Motion.LightSensor
    (exec (@Motion.openAPIparseStatus FanObs.decimal FanObs.cloud
             {| ds_statusCode := JNum 100; ds_body := Some motionReport |})
       MotionObs.fresh)
  = Some {| Motion.LightSensorService.CurrentAmbientLightLevel := JNum 1 |} /\
  Motion.LightSensor
    (exec (@Motion.BLEparseStatus FanObs.decimal FanObs.cloud (Some fanData))
       MotionObs.fresh)
  = Some {| Motion.LightSensorService.CurrentAmbientLightLevel := JNum 6001 |}.
Proof.
  destruct (@motion_parse_reads FanObs.decimal FanObs.cloud
              {| ds_statusCode := JNum 100; ds_body := Some motionReport |}
              motionReport fanData MotionObs.fresh eq_refl
              (fun _ (E : Motion.LightSensor MotionObs.fresh = None) =>
                 eq_ind (Motion.LightSensor MotionObs.fresh)
                   (fun o => match o with Some _ => True | None => False end) I None E))
    as ((_ & _ & C & _) & (_ & _ & R & _)).
  split; [exact C | exact R].
Defined.

(** ** The motion sensor: a cloud refresh *)

Section MotionCloudRefresh.
Import Motion MotionObs.
Context `{Conversions}.
Variable device : Config.

Lemma motion_fetch_accepted_exec (s : state) c d rs :
  responses (env s) = Responds c (JsonObject d) :: rs ->
  succeeded c (ds_statusCode d) = true ->
  exec (openAPIRefreshStatus device) s
  = exec (updateHomeKitCharacteristics device)
      (exec (openAPIparseStatus device d) (motionFetched rs s)).
Proof.
  intros Hr Hs. destruct s as [M B L cx fl tm [tr pe rsp ad bo av]].
  cbn in Hr. subst rsp.
  unfold openAPIRefreshStatus, exec, motionFetched, fetchPreamble.
  cbv - [app succeeded openAPIparseStatus updateHomeKitCharacteristics ds_statusCode].
  rewrite Hs. repeat rewrite <- app_assoc. reflexivity.
Qed.

Lemma motionUpdates_keys s :
  ~ In Characteristic.CurrentAmbientLightLevel (updatedOf (motionUpdates s)).
Proof.
  unfold motionUpdates, hubUpdateOf, updatedOf.
  destruct (strict_eq _ _), (strict_eq _ _), (strict_eq _ _); cbn;
    intuition discriminate.
Qed.

Lemma firmwareUpdates_keys v :
  ~ In Characteristic.CurrentAmbientLightLevel (updatedOf (firmwareUpdates v)).
Proof. cbn. intuition discriminate. Qed.

(** X20: a cloud refresh of the motion sensor that is accepted, on a
    device that does not use the radio.  MotionDetected is the one the
    body reports and is cached unless absent.  The light level is read
    into the light sensor, but it does not reach the hub: no update of
    CurrentAmbientLightLevel is made and the cached level stays as it
    was. *)
Theorem motion_cloud_refresh_keeps_light_from_hub s c d b rs :
  responses (env s) = Responds c (JsonObject d) :: rs ->
  succeeded c (ds_statusCode d) = true ->
  ds_body d = Some b ->
  lightSensorReady device s ->
  BLE device = false ->
  let s' := exec (openAPIRefreshStatus device) s in
  MotionSensorService.MotionDetected (MotionSensor s') = moveDetected b /\
  Context.MotionDetected (context s')
    = kept (moveDetected b) (Context.MotionDetected (context s)) /\
  LightSensor s' = lightSensorAfter device (cloudLightLevel device b) s /\
  Context.CurrentAmbientLightLevel (context s')
    = Context.CurrentAmbientLightLevel (context s) /\
  ~ In Characteristic.CurrentAmbientLightLevel
       (updatedOf (hubUpdatesOf (emitted s s'))).
Proof.
  intros Hr Hs Hb Hl B s'. subst s'.
  rewrite (motion_fetch_accepted_exec s c d rs Hr Hs).
  set (s0 := motionFetched rs s).
  assert (Hl0 : lightSensorReady device s0) by exact Hl.
  destruct (motion_parse_fields device d b s0 Hb Hl0)
    as (_ & PM & PL & CM & _ & _ & CL & _ & _ & _ & PU).
  destruct (motion_parse_keeps device d s0) as (X & TX & _).
  set (s1 := exec (openAPIparseStatus device d) s0) in *.
  destruct (motion_update_effect device s1)
    as (EM & _ & EL & _ & _ & _ & UM & _ & _ & _ & _ & Sync).
  destruct (motion_update_keeps device s1) as (Y & TY & _).
  set (s2 := exec (updateHomeKitCharacteristics device) s1) in *.
  rewrite B in Sync. destruct Sync as (_ & UU & UL).
  rewrite app_nil_r in UU.
  change (trace (env s1) = trace (env s0) ++ X) in TX.
  change (trace (env s2) = trace (env s1) ++ Y) in TY.
  rewrite (@emitted_app state state_world s0 s1 X TX) in PU.
  rewrite (@emitted_app state state_world s1 s2 Y TY) in UU.
  assert (T : trace (env s2)
              = trace (env s)
                ++ ((fetchPreamble ++ [Log debugSuccess "openAPIRefreshStatus"]) ++ X ++ Y)).
  { rewrite TY, TX. unfold s0, motionFetched. cbn. now rewrite <- !app_assoc. }
  rewrite (@emitted_app state state_world s s2 _ T).
  split; [now rewrite EM|]. split; [now rewrite UM, PM, CM|].
  split; [now rewrite EL|]. split; [now rewrite UL, CL|].
  rewrite !hubUpdatesOf_app, PU, UU. cbn [fetchPreamble hubUpdatesOf flat_map app].
  unfold updatedOf. rewrite map_app. intros In.
  apply in_app_or in In. destruct In as [In|In].
  - destruct (truthy (version b)); [|exact In].
    exact (firmwareUpdates_keys _ In).
  - exact (motionUpdates_keys s1 In).
Qed.

End MotionCloudRefresh.

Lemma motion_cloud_refresh_keeps_light_from_hub_witness :
  Motion.LightSensor
    (exec (@Motion.openAPIRefreshStatus FanObs.decimal FanObs.cloud)
       (MotionObs.answered
          (Responds (JNum 200)
             (JsonObject {| ds_statusCode := JNum 100; ds_body := Some brightReport |}))))
  = Some {| Motion.LightSensorService.CurrentAmbientLightLevel := JNum 6001 |} /\
  Motion.Context.CurrentAmbientLightLevel
    (Motion.context
       (exec (@Motion.openAPIRefreshStatus FanObs.decimal FanObs.cloud)
          (MotionObs.answered
             (Responds (JNum 200)
                (JsonObject {| ds_statusCode := JNum 100; ds_body := Some brightReport |})))))
  = JNum 1.
Proof.
  assert (R : MotionObs.lightSensorReady FanObs.cloud
                (MotionObs.answered
                   (Responds (JNum 200)
                      (JsonObject {| ds_statusCode := JNum 100;
                                     ds_body := Some brightReport |})))).
  { intros _. discriminate. }
  destruct (@motion_cloud_refresh_keeps_light_from_hub FanObs.decimal FanObs.cloud
              (MotionObs.answered
                 (Responds (JNum 200)
                    (JsonObject {| ds_statusCode := JNum 100;
                                   ds_body := Some brightReport |})))
              (JNum 200) {| ds_statusCode := JNum 100; ds_body := Some brightReport |}
              brightReport [] eq_refl eq_refl eq_refl R eq_refl)
    as (_ & _ & L & C & _).
  split; [exact L | exact C].
Defined.

Section MotionCloudFailure.
Import Motion MotionObs.
Context `{Conversions}.
Variable device : Config.

(** X21: when the cloud's answer to a status request of the motion
    sensor ends in an exception, the exception is caught: the refresh
    returns, the hub is given the exception for MotionDetected,
    BatteryLevel and StatusLowBattery (and for the light level when the
    radio is set up and there is a light sensor), an error is logged last,
    no status code is reported, and the sensor stays as it is. *)
Theorem motion_unreadable_reply_reports_error s r e rs :
  responses (env s) = r :: rs ->
  unreadable r = Some e ->
  let s' := exec (openAPIRefreshStatus device) s in
  outcome (openAPIRefreshStatus device) s = Returns tt /\
  sameDevice s s' /\
  hubUpdatesOf (emitted s s') = motionErrorUpdates e ++ lightErrorUpdate device s e /\
  statusCodesOf (emitted s s') = [] /\
  networkIO (emitted s s') = [HttpGetStatus] /\
  last (emitted s s') (Log debug "") = Log error "failed openAPIRefreshStatus".
Proof.
  intros Hr Hu. destruct s as [M B L cx fl tm [tr pe rsp ad bo av]].
  cbn in Hr. subst rsp.
  unfold openAPIRefreshStatus, apiError, read_CurrentAmbientLightLevel,
    lightErrorUpdate, exec, outcome, sameDevice, emitted.
  cbn [LightSensor].
  destruct (BLE device); [destruct L as [l|]|];
    (destruct r as [x|c0 [x| |d]]; cbn in Hu; try discriminate;
     injection Hu as <-;
     cbv - [app skipn List.length hubUpdatesOf statusCodesOf networkIO last];
     repeat rewrite <- app_assoc;
     rewrite !skipn_app, !skipn_all, !Nat.sub_diag;
     repeat split).
Qed.

End MotionCloudFailure.

Lemma motion_unreadable_reply_reports_error_witness :
  hubUpdatesOf
    (emitted (MotionObs.answered (Rejects (Rejected "timeout")))
       (exec (@Motion.openAPIRefreshStatus FanObs.decimal FanObs.cloud)
          (MotionObs.answered (Rejects (Rejected "timeout")))))
  = motionErrorUpdates (Rejected "timeout").
Proof.
  destruct (@motion_unreadable_reply_reports_error FanObs.decimal FanObs.cloud
              (MotionObs.answered (Rejects (Rejected "timeout")))
              (Rejects (Rejected "timeout")) (Rejected "timeout") []
              eq_refl eq_refl) as (_ & _ & U & _).
  exact U.
Defined.

(** ** The refresh interval after its first tick *)

Section SkipWhile.
Context `{Conversions}.
Variable device : Config.

Lemma onFanUpdate_skipping s :
  skipping (Fan.timers (exec (Fan.onFanUpdate device) s)) = skipping (Fan.timers s).
Proof.
  unfold Fan.onFanUpdate.
  assert (K : keeps FanObs.sameGuards
                (try_catch (Fan.pushChanges device)
                   (fun e => unawaited (Fan.apiError e);; log error "failed pushChanges"))).
  { apply keeps_try_catch; [exact sameGuards_trans | apply pushChanges_guards |].
    intros e. unfold Fan.apiError.
    repeat first
      [ blind_leaf ltac:(exact sameGuards_trans) ltac:(exact sameGuards_blind)
          ltac:(unfold FanObs.sameGuards; cbn; tauto)
      | keeps_step ltac:(exact sameGuards_refl) ltac:(exact sameGuards_trans) ]. }
  specialize (K s). unfold exec, bind in *.
  destruct (try_catch _ _ s) as [[[]|e] s']; cbn in *; apply K.
Qed.

Lemma fan_skipping_step i s :
  skipping (Fan.timers s) = false ->
  skipping (Fan.timers (exec (Fan.step device i) s)) = false.
Proof.
  intros Sk. destruct i; cbn [Fan.step].
  - destruct (hubSet_effect c value s) as (_ & _ & _ & _ & _ & E & _).
    now rewrite E.
  - unfold exec at 1, bind at 1, get. cbn [fst snd].
    destruct (debounceArmed (Fan.timers s)); cbn [when]; [|exact Sk].
    change (skipping (Fan.timers
              (exec (Fan.onFanUpdate device) (Fan.with_timers Fan.disarmDebounce s))) = false).
    now rewrite onFanUpdate_skipping.
  - unfold exec, bind, get. cbn [fst snd]. rewrite Sk. reflexivity.
  - unfold exec, bind, get. cbn [fst snd].
    destruct (followUps (Fan.timers s)); [exact Sk|].
    destruct (Fan.fanUpdateInProgress s); exact Sk.
  - unfold exec at 1, bind at 1, get. cbn [fst snd].
    destruct (refreshing (Fan.timers s)); [exact Sk|].
    pose proof (refreshStatus_guards device (Fan.with_timers Fan.settleRefresh s))
      as (_ & _ & K & _).
    cbn in K. unfold exec in K. cbn. now rewrite K.
  - pose proof (webhook_guards device context_ s) as (_ & _ & K & _).
    unfold exec in *. now rewrite K.
  - unfold exec at 1, bind at 1, Fan.takeTask.
    destruct (pending (Fan.env s)) as [|t ts]; [exact Sk|]. cbn [fst snd].
    match goal with |- context [Fan.runTask device t ?s0] =>
      pose proof (runTask_guards device t s0) as (_ & _ & K & _) end.
    unfold exec in K. now rewrite K.
Qed.

Lemma motion_skipping_step i s :
  skipping (Motion.timers s) = false ->
  skipping (Motion.timers (exec (Motion.step device i) s)) = false.
Proof.
  intros Sk. destruct i; cbn [Motion.step].
  - unfold exec, bind, get. cbn [fst snd]. rewrite Sk. reflexivity.
  - unfold exec at 1, bind at 1, get. cbn [fst snd].
    destruct (refreshing (Motion.timers s)); [exact Sk|].
    pose proof (motion_refreshStatus_guards device
                  (Motion.with_timers Motion.settleRefresh s)) as (_ & K).
    cbn in K. unfold exec in K. cbn. now rewrite K.
  - pose proof (motion_webhook_guards device context_ s) as (_ & K).
    unfold exec in *. now rewrite K.
  - unfold exec at 1, bind at 1, Motion.takeTask.
    destruct (pending (Motion.env s)) as [|t ts]; [exact Sk|]. cbn [fst snd].
    match goal with |- context [Motion.runTask device t ?s0] =>
      pose proof (motion_runTask_guards device t s0) as (_ & K) end.
    unfold exec in K. now rewrite K.
Qed.

(** X22: [skipWhile] holds the refresh interval back only until its first
    tick has been let through.  Once that has happened, it stays so
    whatever happens to the accessory, and every later tick starts an
    execution of [refreshStatus], also while the flag is raised by setter
    calls that wait for their dispatch.  This holds for the fan and for
    the motion sensor. *)
Theorem skip_while_guards_only_the_start (fs : Fan.state) (ms : Motion.state)
    inputs minputs :
  skipping (Fan.timers fs) = false ->
  skipping (Motion.timers ms) = false ->
  (let fs' := Fan.run device inputs fs in
   skipping (Fan.timers fs') = false /\
   refreshing (Fan.timers (exec (Fan.step device Fan.IntervalTick) fs'))
   = S (refreshing (Fan.timers fs'))) /\
  (let ms' := Motion.run device minputs ms in
   skipping (Motion.timers ms') = false /\
   refreshing (Motion.timers (exec (Motion.step device Motion.IntervalTick) ms'))
   = S (refreshing (Motion.timers ms'))).
Proof.
  intros Sf Sm. split.
  - assert (K : skipping (Fan.timers (Fan.run device inputs fs)) = false).
    { destruct (run_keeps device (fun _ _ => True)
                  (fun s => skipping (Fan.timers s) = false)
                  (fun _ => I) (fun _ _ _ _ _ => I)) with (inputs := inputs) (s := fs)
        as (_ & K); [|exact Sf|exact K].
      intros i s Sk. split; [exact I | now apply fan_skipping_step]. }
    split; [exact K|].
    cbn [Fan.step]. unfold exec, bind, get. cbn [fst snd]. now rewrite K.
  - assert (K : skipping (Motion.timers (Motion.run device minputs ms)) = false).
    { destruct (motion_run_keeps device (fun _ _ => True)
                  (fun s => skipping (Motion.timers s) = false)
                  (fun _ => I) (fun _ _ _ _ _ => I)) with (inputs := minputs) (s := ms)
        as (_ & K); [|exact Sm|exact K].
      intros i s Sk. split; [exact I | now apply motion_skipping_step]. }
    split; [exact K|].
    cbn [Motion.step]. unfold exec, bind, get. cbn [fst snd]. now rewrite K.
Qed.

End SkipWhile.

Lemma skip_while_guards_only_the_start_witness :
  Fan.fanUpdateInProgress
    (@Fan.run FanObs.decimal FanObs.cloud
       [Fan.IntervalTick; Fan.HubSet Fan.onActive (JNum 1)] FanObs.fresh) = true /\
  refreshing
    (Fan.timers
       (@Fan.run FanObs.decimal FanObs.cloud
          [Fan.IntervalTick; Fan.HubSet Fan.onActive (JNum 1); Fan.IntervalTick]
          FanObs.fresh)) = 2%nat.
Proof.
  split; [reflexivity|].
  destruct (@skip_while_guards_only_the_start FanObs.decimal FanObs.cloud
              (@Fan.run FanObs.decimal FanObs.cloud [Fan.IntervalTick] FanObs.fresh)
              (@Motion.run FanObs.decimal FanObs.cloud [Motion.IntervalTick] MotionObs.fresh)
              [Fan.HubSet Fan.onActive (JNum 1)] [] eq_refl eq_refl)
    as ((_ & G) & _).
  exact G.
Defined.

(** ** The motion sensor: a refresh over the radio *)

Section MotionRadioRefresh.
Import Motion MotionObs.
Context `{Conversions}.
Variable device : Config.

Lemma motion_scanned_exec s sd rest ts :
  pending (env s) = BLEscan :: ts ->
  handlerServiceData (env s) = Some sd :: rest ->
  exec (step device RunTask) s
  = exec (BLEparseStatus device (Some sd) ;; updateHomeKitCharacteristics device)
      (with_env (fun w =>
         {| trace := trace w ++ [BleStopScan]; pending := ts; responses := responses w;
            bleAdapter := bleAdapter w; bleOutcomes := bleOutcomes w;
            handlerServiceData := rest |}) s).
Proof.
  intros Pe Ad.
  destruct s as [M B L cx fl tm [tr pe rs ad bo av]]. cbn in Pe, Ad. subst pe av.
  cbv - [app BLEparseStatus updateHomeKitCharacteristics]. reflexivity.
Qed.

Lemma motion_unscanned_exec s ts :
  pending (env s) = BLEscan :: ts ->
  hd None (handlerServiceData (env s)) = None ->
  exec (step device RunTask) s
  = with_env (fun w =>
      {| trace := trace w ++ [BleStopScan; Log debug "BLEparseStatus"];
         pending := ts; responses := responses w;
         bleAdapter := bleAdapter w; bleOutcomes := bleOutcomes w;
         handlerServiceData := tl (handlerServiceData w) |}) s.
Proof.
  intros Pe Ad.
  destruct s as [M B L cx fl tm [tr pe rs ad bo av]]. cbn in Pe, Ad. subst pe.
  unfold step, runTask, BLEscanned, BLEparseStatus.
  generalize (updateHomeKitCharacteristics device). intros k.
  destruct av as [|[sd|] rest]; cbn in Ad; try discriminate;
    cbv - [app]; now rewrite <- !app_assoc.
Qed.

Lemma motion_scan_started_exec s :
  bleAdapter (env s) = true ->
  exec (BLERefreshStatus device) s
  = with_env (fun w =>
      {| trace := trace w ++ [Log debug "BLERefreshStatus"; Log debug "BLE Address";
                              BleStartScan];
         pending := pending (env s) ++ [BLEscan]; responses := responses w;
         bleAdapter := bleAdapter w; bleOutcomes := bleOutcomes w;
         handlerServiceData := handlerServiceData w |}) s
  /\ outcome (BLERefreshStatus device) s = Returns tt.
Proof.
  intros A. unfold BLERefreshStatus. generalize (BLERefreshConnection device). intros k.
  destruct s as [M Bt L cx fl tm [tr pe rs ad bo av]]. cbn in A. subst ad.
  unfold exec, outcome. cbv - [app].
  rewrite <- !app_assoc. split; reflexivity.
Qed.

Lemma motion_parse_scan_keeps sd s :
  pending (env (exec (BLEparseStatus device (Some sd)) s)) = pending (env s) /\
  exists X, trace (env (exec (BLEparseStatus device (Some sd)) s)) = trace (env s) ++ X.
Proof.
  assert (K : keeps (calm offTransport) (BLEparseStatus device (Some sd))).
  { unfold BLEparseStatus, assign_CurrentAmbientLightLevel, read_CurrentAmbientLightLevel.
    calm_auto. }
  destruct (K s) as (Pe & X & E & _). split; [exact Pe | now exists X].
Qed.

Lemma nullish_defined a z : strict_eq (nullish a (JNum z)) JUndefined = false.
Proof. now destruct a. Qed.

(** X23: a refresh of the motion sensor over the radio.
    [BLERefreshStatus] starts the scan, leaves the rest to run on its own
    and returns with the accessory as it was.  When that work runs, the
    scan is stopped and [BLEparseStatus] is given
    [switchbot.onadvertisement.serviceData], a property read off the
    handler that has just been assigned.  When that is [undefined], as it
    is with an adapter that keeps the handler as it was assigned (motion
    that a device advertises reaches the handler's debug log only),
    reading its movement throws: the accessory stays as it is and the
    hub is given nothing.  Only when it is an object, and on a device
    whose light sensor is shown, does MotionDetected become its
    [movement] and the light level the bound its [lightLevel] stands
    for; unlike after a cloud refresh, that level is then cached and
    given to the hub last.  No cloud request is made in either case. *)
Theorem motion_radio_refresh_round s :
  BLE device = true ->
  bleAdapter (env s) = true ->
  pending (env s) = [] ->
  let s1 := exec (BLERefreshStatus device) s in
  let s2 := exec (step device RunTask) s1 in
  outcome (BLERefreshStatus device) s = Returns tt /\
  sameDevice s s1 /\
  pending (env s1) = [BLEscan] /\
  emitted s s1 = [Log debug "BLERefreshStatus"; Log debug "BLE Address"; BleStartScan] /\
  match hd None (handlerServiceData (env s)) with
  | None =>
      sameDevice s s2 /\
      pending (env s2) = [] /\
      emitted s s2
      = [Log debug "BLERefreshStatus"; Log debug "BLE Address"; BleStartScan;
         BleStopScan; Log debug "BLEparseStatus"]
  | Some sd =>
      hide_lightsensor device = false ->
      LightSensor s <> None ->
      networkIO (emitted s s2) = [BleStartScan; BleStopScan] /\
      pending (env s2) = [] /\
      MotionSensorService.MotionDetected (MotionSensor s2) = sd_movement sd /\
      Context.MotionDetected (context s2)
        = kept (sd_movement sd) (Context.MotionDetected (context s)) /\
      LightSensor s2
        = Some {| LightSensorService.CurrentAmbientLightLevel := radioLightLevel device sd |} /\
      Context.CurrentAmbientLightLevel (context s2) = radioLightLevel device sd /\
      last (hubUpdatesOf (emitted s s2)) (Characteristic.MotionDetected, Val JUndefined)
        = (Characteristic.CurrentAmbientLightLevel, Val (radioLightLevel device sd))
  end.
Proof.
  intros B A Pe s1 s2.
  destruct (motion_scan_started_exec s A) as (E1 & O). fold s1 in E1.
  rewrite Pe in E1. cbn [app] in E1.
  split; [exact O|].
  assert (P1 : pending (env s1) = BLEscan :: []) by (rewrite E1; reflexivity).
  assert (T1 : trace (env s1)
               = trace (env s)
                 ++ [Log debug "BLERefreshStatus"; Log debug "BLE Address"; BleStartScan])
    by (rewrite E1; reflexivity).
  assert (A1 : handlerServiceData (env s1) = handlerServiceData (env s))
    by (rewrite E1; reflexivity).
  split; [rewrite E1; unfold sameDevice; cbn; tauto|].
  split; [exact P1|].
  split; [exact (@emitted_app state state_world s s1 _ T1)|].
  assert (CaseNone : hd None (handlerServiceData (env s)) = None ->
            sameDevice s s2 /\
            pending (env s2) = [] /\
            emitted s s2
            = [Log debug "BLERefreshStatus"; Log debug "BLE Address"; BleStartScan;
               BleStopScan; Log debug "BLEparseStatus"]).
  { intros N.
    assert (N1 : hd None (handlerServiceData (env s1)) = None) by now rewrite A1.
    pose proof (motion_unscanned_exec s1 [] P1 N1) as E2. fold s2 in E2.
    assert (T : trace (env s2)
                = trace (env s)
                  ++ [Log debug "BLERefreshStatus"; Log debug "BLE Address"; BleStartScan;
                      BleStopScan; Log debug "BLEparseStatus"])
      by (rewrite E2; cbn; rewrite T1, <- !app_assoc; reflexivity).
    rewrite (@emitted_app state state_world s s2 _ T).
    split; [|split; [rewrite E2; reflexivity | reflexivity]].
    rewrite E2, E1. unfold sameDevice. cbn. tauto. }
  destruct (handlerServiceData (env s)) as [|[sd|] rest] eqn:Ad; cbn [hd].
  1,3: exact (CaseNone eq_refl).
  clear CaseNone. intros Hd Ls.
  pose proof (motion_scanned_exec s1 sd rest [] P1 A1) as E2. fold s2 in E2.
  set (sa := with_env _ s1) in E2.
  assert (Ra : lightSensorReady device sa).
  { intros _. unfold sa. rewrite E1. cbn. exact Ls. }
  destruct (motion_scan_fields device sd sa Ra) as (Op & PM & PL & PC & _ & _ & NP & UP).
  destruct (motion_parse_scan_keeps sd sa) as (PP & X & TX).
  set (sb := exec (BLEparseStatus device (Some sd)) sa) in *.
  assert (E3 : s2 = exec (updateHomeKitCharacteristics device) sb).
  { rewrite E2. unfold sb.
    apply (exec_bind (BLEparseStatus device (Some sd))
             (fun _ => updateHomeKitCharacteristics device) sa tt Op). }
  assert (Lb : LightSensor sb
               = Some {| LightSensorService.CurrentAmbientLightLevel
                         := radioLightLevel device sd |}).
  { rewrite PL. unfold lightSensorAfter. now rewrite Hd. }
  destruct (motion_update_effect device sb)
    as (EM & _ & EL & _ & _ & EP & UM & _ & _ & _ & NU & Sync).
  destruct (motion_update_keeps device sb) as (Y & TY & _).
  rewrite <- E3 in EM, EL, EP, UM, NU, Sync, TY.
  rewrite B, Lb in Sync. cbn [LightSensorService.CurrentAmbientLightLevel] in Sync.
  destruct Sync as (_ & UU & UL).
  change (trace (env sb) = trace (env sa) ++ X) in TX.
  change (trace (env s2) = trace (env sb) ++ Y) in TY.
  rewrite (@emitted_app state state_world sa sb X TX) in NP, UP.
  rewrite (@emitted_app state state_world sb s2 Y TY) in NU, UU.
  assert (T : trace (env s2)
              = trace (env s)
                ++ ([Log debug "BLERefreshStatus"; Log debug "BLE Address"; BleStartScan;
                     BleStopScan] ++ X ++ Y)).
  { rewrite TY, TX. unfold sa. rewrite E1. cbn. now rewrite <- !app_assoc. }
  assert (Lv : kept (radioLightLevel device sd) (Context.CurrentAmbientLightLevel (context sb))
               = radioLightLevel device sd).
  { unfold kept, radioLightLevel, minLuxOf, maxLuxOf.
    destruct (strict_eq (sd_lightLevel sd) (JStr "dark") || strict_eq (sd_lightLevel sd) (JNum 1));
      now rewrite nullish_defined. }
  split.
  { rewrite (@emitted_app state state_world s s2 _ T), !networkIO_app, NP, NU.
    reflexivity. }
  split; [rewrite EP, PP; reflexivity|].
  split; [now rewrite EM|].
  split.
  { rewrite UM, PM, PC. unfold sa. rewrite E1. reflexivity. }
  split; [now rewrite EL|].
  split; [now rewrite UL|].
  rewrite (@emitted_app state state_world s s2 _ T), !hubUpdatesOf_app, UP, UU.
  cbn [hubUpdatesOf flat_map app].
  unfold hubUpdateOf, radioLightLevel, minLuxOf, maxLuxOf.
  destruct (strict_eq (sd_lightLevel sd) (JStr "dark") || strict_eq (sd_lightLevel sd) (JNum 1));
    rewrite nullish_defined, last_last; reflexivity.
Qed.

End MotionRadioRefresh.

Lemma motion_radio_refresh_round_witness :
  (hd None (handlerServiceData (Motion.env MotionObs.fresh)) = None /\
   MotionObs.sameDevice MotionObs.fresh
     (exec (@Motion.step FanObs.decimal radioLux Motion.RunTask)
        (exec (@Motion.BLERefreshStatus FanObs.decimal radioLux) MotionObs.fresh))) /\
  Motion.Context.CurrentAmbientLightLevel
    (Motion.context
       (exec (@Motion.step FanObs.decimal radioLux Motion.RunTask)
          (exec (@Motion.BLERefreshStatus FanObs.decimal radioLux)
             (motionHandlerYields (Some darkData)))))
  = JNum 5.
Proof.
  split; [split; [reflexivity|]|].
  - exact (proj1 (proj2 (proj2 (proj2 (proj2
             (@motion_radio_refresh_round FanObs.decimal radioLux MotionObs.fresh
                eq_refl eq_refl eq_refl)))))).
  - destruct (@motion_radio_refresh_round FanObs.decimal radioLux
                (motionHandlerYields (Some darkData)) eq_refl eq_refl eq_refl)
      as (_ & _ & _ & _ & C).
    destruct (C eq_refl ltac:(discriminate)) as (_ & _ & _ & _ & _ & L & _).
    exact L.
Defined.

(** ** No transport *)

Section NoTransport.
Context `{Conversions}.
Variable device : Config.

Lemma transportOf_NoTransport :
  transportOf device = NoTransport ->
  negb (enableCloudService device) && OpenAPI device = false /\
  BLE device = false /\ OpenAPI device && token device = false.
Proof.
  unfold transportOf.
  destruct (negb (enableCloudService device) && OpenAPI device); [discriminate|].
  destruct (BLE device); [discriminate|].
  destruct (OpenAPI device && token device); [discriminate | auto].
Qed.

(** X24: a device with no transport at all.  When it is not flagged
    offline, a refresh and a dispatch cycle of the fan write one log entry
    and nothing else: the hub is told nothing.  A refresh of the motion
    sensor tells the hub that no motion is detected when the device is
    flagged offline and nothing otherwise, and leaves the sensor's own
    MotionDetected as it is.  No transport is used and no work is left to
    run on its own. *)
Theorem without_transport_only_logs (fs : Fan.state) (ms : Motion.state) :
  transportOf device = NoTransport ->
  (offline device = false ->
   emitted fs (exec (Fan.refreshStatus device) fs)
     = [Log debugWarn "refreshStatus will not happen"] /\
   emitted fs (exec (Fan.pushChanges device) fs)
     = [Log debugWarn "pushChanges will not happen"] /\
   followUps (Fan.timers (exec (Fan.pushChanges device) fs))
     = S (followUps (Fan.timers fs))) /\
  (let ms' := exec (Motion.refreshStatus device) ms in
   outcome (Motion.refreshStatus device) ms = Returns tt /\
   emitted ms ms'
     = motionOfflineBaseline device ++ [Log debugWarn "refreshStatus will not happen"] /\
   MotionObs.sameDevice ms ms' /\
   pending (Motion.env ms') = pending (Motion.env ms)).
Proof.
  intros T. destruct (transportOf_NoTransport T) as (C & B & K). split.
  - intros Off.
    unfold Fan.refreshStatus, Fan.pushChanges, Fan.offlineOff. rewrite C, B, K, Off.
    destruct fs as [F Bt L cx fl tm [tr pe rs ad bo av]].
    unfold emitted, exec. cbn.
    rewrite !skipn_app, !skipn_all, !Nat.sub_diag. repeat split.
  - unfold Motion.refreshStatus, Motion.offlineOff, motionOfflineBaseline,
      MotionObs.sameDevice.
    rewrite C, B, K.
    destruct ms as [M Bt L cx fl tm [tr pe rs ad bo av]].
    unfold emitted, exec, outcome.
    destruct (offline device); cbn;
      repeat rewrite <- app_assoc;
      rewrite !skipn_app, !skipn_all, !Nat.sub_diag; repeat split.
Qed.

End NoTransport.

Lemma without_transport_only_logs_witness :
  emitted FanObs.running (exec (@Fan.refreshStatus FanObs.decimal unconnected) FanObs.running)
  = [Log debugWarn "refreshStatus will not happen"] /\
  emitted MotionObs.detected
    (exec (@Motion.refreshStatus FanObs.decimal FanObs.disconnected) MotionObs.detected)
  = [UpdateCharacteristic Characteristic.MotionDetected (Val (JBool false));
     Log debugWarn "refreshStatus will not happen"].
Proof.
  split.
  - destruct (@without_transport_only_logs FanObs.decimal unconnected
                FanObs.running MotionObs.detected eq_refl) as (F & _).
    destruct (F eq_refl) as (G & _). exact G.
  - destruct (@without_transport_only_logs FanObs.decimal FanObs.disconnected
                FanObs.running MotionObs.detected eq_refl) as (_ & _ & G & _).
    exact G.
Defined.

(** ** The motion sensor: a webhook event *)

Section MotionEvent.
Import Motion MotionObs.
Variable device : Config.

Lemma motion_webhook_exec s c :
  exec (webhookEventHandler device (Some c)) s
  = exec (updateHomeKitCharacteristics device)
      (set_MotionSensor {| MotionSensorService.MotionDetected := detectedOf c |}
         (with_env (fun w =>
            {| trace := trace w ++ [Log debug "received Webhook"; Log debug "Webhook current"];
               pending := pending w; responses := responses w;
               bleAdapter := bleAdapter w; bleOutcomes := bleOutcomes w;
               handlerServiceData := handlerServiceData w |}) s)).
Proof.
  destruct s as [M B L cx fl tm [tr pe rs ad bo av]].
  unfold webhookEventHandler, detectedOf.
  generalize (updateHomeKitCharacteristics device). intros k.
  unfold exec, try_catch, bind, unawaited. cbn.
  unfold with_env, w_emit. cbn. now rewrite <- !app_assoc.
Qed.

(** X25: a readable webhook event of the motion sensor reaches the hub.
    The detection state becomes a boolean, which is cached and is the
    first value given to the hub; the battery and the light sensor stay
    as they are, no transport is used and no work is left to run on its
    own. *)
Theorem motion_event_reaches_hub s c :
  let s' := exec (webhookEventHandler device (Some c)) s in
  MotionSensorService.MotionDetected (MotionSensor s') = detectedOf c /\
  Context.MotionDetected (context s') = detectedOf c /\
  hd_error (hubUpdatesOf (emitted s s'))
    = Some (Characteristic.MotionDetected, Val (detectedOf c)) /\
  Battery s' = Battery s /\ LightSensor s' = LightSensor s /\
  networkIO (emitted s s') = [] /\
  pending (env s') = pending (env s).
Proof.
  intros s'. subst s'. rewrite motion_webhook_exec.
  set (sm := set_MotionSensor _ _).
  destruct (motion_update_effect device sm)
    as (EM & EB & EL & _ & _ & EP & UM & _ & _ & _ & NU & Sync).
  destruct (motion_update_keeps device sm) as (Y & TY & _).
  set (s' := exec (updateHomeKitCharacteristics device) sm) in *.
  change (trace (env s') = trace (env sm) ++ Y) in TY.
  rewrite (@emitted_app state state_world sm s' Y TY) in NU, Sync.
  assert (T : trace (env s')
              = trace (env s)
                ++ ([Log debug "received Webhook"; Log debug "Webhook current"] ++ Y)).
  { rewrite TY. unfold sm. cbn. now rewrite <- !app_assoc. }
  rewrite (@emitted_app state state_world s s' _ T).
  assert (V : strict_eq (detectedOf c) JUndefined = false).
  { unfold detectedOf. now destruct (strict_eq (wh_detectionState c) (JStr "DETECTED")). }
  assert (HU : exists rest, hubUpdatesOf Y
                            = (Characteristic.MotionDetected, Val (detectedOf c)) :: rest).
  { assert (MU : exists rest, motionUpdates sm
                   = (Characteristic.MotionDetected, Val (detectedOf c)) :: rest).
    { unfold motionUpdates, hubUpdateOf at 1. unfold sm at 1. cbn [MotionSensor
        set_MotionSensor MotionSensorService.MotionDetected].
      rewrite V. eexists. reflexivity. }
    destruct MU as (rest & MU).
    destruct (if BLE device then _ else _) as [[more lv]|].
    - destruct Sync as (_ & -> & _). rewrite MU. now exists (rest ++ more).
    - destruct Sync as (_ & -> & _). rewrite MU. now exists rest. }
  destruct HU as (rest & HU).
  split; [rewrite EM; reflexivity|].
  split.
  { rewrite UM. unfold sm at 1. cbn [MotionSensor set_MotionSensor
      MotionSensorService.MotionDetected]. unfold kept. now rewrite V. }
  split; [rewrite hubUpdatesOf_app, HU; reflexivity|].
  split; [rewrite EB; reflexivity|]. split; [rewrite EL; reflexivity|].
  split; [rewrite networkIO_app, NU; reflexivity|].
  rewrite EP. reflexivity.
Qed.

End MotionEvent.

(** ** Turning the fan on, and the refresh that follows *)

Section RoundTrip.
Import Fan FanObs.
Context `{Conversions}.
Variable device : Config.

Lemma transportOf_Cloud :
  transportOf device = Cloud ->
  negb (enableCloudService device) && OpenAPI device = false /\
  BLE device = false /\ OpenAPI device && token device = true.
Proof.
  unfold transportOf.
  destruct (negb (enableCloudService device) && OpenAPI device); [discriminate|].
  destruct (BLE device); [discriminate|].
  destruct (OpenAPI device && token device); [auto | discriminate].
Qed.

Lemma turn_on_exec s r0 rest :
  transportOf device = Cloud ->
  desired Active s = hap.INACTIVE ->
  cached Active s = hap.INACTIVE ->
  differs SwingMode s = false ->
  responses (env s) = r0 :: rest ->
  exists X,
    run device turnOnInputs s
    = with_env (fun w =>
        {| trace := trace w ++ X; pending := pending w; responses := rest;
           bleAdapter := bleAdapter w; bleOutcomes := bleOutcomes w;
           handlerServiceData := handlerServiceData w |})
        (with_timers (fun t => armFollowUp (disarmDebounce t))
           (set_fanUpdateInProgress false
              (with_Fan (FanService.set_Active hap.ACTIVE) s))) /\
    commandsOf X = [fanOn] /\ networkIO X = [HttpPostCommand fanOn].
Proof.
  intros T DA CA DS Hr. destruct (transportOf_Cloud T) as (C & B & K).
  destruct s as [[Ac SM RS] Bt L [cA cRS cSM cB cC cSL cO cBr cv cdv] fl
                   [da sk fu rf] [tr pe rs ad bo av]].
  unfold differs, desired, cached in DS.
  cbn [Fan context FanService.SwingMode Context.SwingMode] in DS.
  cbn in DA, CA, Hr. subst Ac cA rs.
  unfold turnOnInputs, run, fold_left, step, hubSet, ActiveSet, onFanUpdate, pushChanges.
  rewrite C, B, K.
  unfold openAPIpushChanges, pushRotationSpeedChanges, pushSwingModeChanges, exec.
  destruct r0 as [e|c0 [e| |d]];
    cbv - [app strict_neq succeeded commandsOf networkIO fanOn ToString];
    change (strict_neq (JNumber (Int 1)) (JNumber (Int 0))) with true;
    cbv - [app strict_neq succeeded commandsOf networkIO fanOn ToString];
    rewrite ?DS.
  all: try destruct (succeeded _ _);
    cbv - [app strict_neq commandsOf networkIO fanOn ToString];
    rewrite ?DS;
    cbv - [app commandsOf networkIO fanOn ToString];
    repeat rewrite <- app_assoc;
    (eexists; split; [reflexivity | split; reflexivity]).
Qed.

Lemma follow_up_exec t n :
  fanUpdateInProgress t = false ->
  followUps (timers t) = S n ->
  run device followUpInputs t
  = exec (refreshStatus device)
      (with_timers (fun tm => settleRefresh (startFollowUp tm)) t).
Proof.
  intros Fl Fu. unfold followUpInputs, run, fold_left, step.
  generalize (refreshStatus device). intros k.
  destruct t as [F Bt L cx fl [da sk fu rf] w]. cbn in Fl, Fu. subst fl fu.
  reflexivity.
Qed.

(** X26: the hub turns on a fan that is off and idle, over the cloud.
    When the debounce timer fires, exactly one command is sent,
    [turnOn], whatever the cloud answers to it; the cached Active is
    still the old one, the flag is lowered and one follow-up refresh is
    armed.  When that refresh runs and the cloud reports the fan as on,
    one status request is made, the cached Active becomes ACTIVE, and a
    dispatch cycle after it sends nothing. *)
Theorem turn_on_round_trip s r0 c d b rs :
  transportOf device = Cloud ->
  desired Active s = hap.INACTIVE ->
  cached Active s = hap.INACTIVE ->
  differs SwingMode s = false ->
  responses (env s) = r0 :: Responds c (JsonObject d) :: rs ->
  succeeded c (ds_statusCode d) = true ->
  ds_body d = Some b ->
  power b = JStr "on" ->
  let s2 := run device turnOnInputs s in
  let s4 := run device followUpInputs s2 in
  commandsOf (emitted s s2) = [fanOn] /\
  (desired Active s2 = hap.ACTIVE /\ cached Active s2 = hap.INACTIVE /\
   fanUpdateInProgress s2 = false /\
   followUps (timers s2) = S (followUps (timers s))) /\
  networkIO (emitted s2 s4) = [HttpGetStatus] /\
  (desired Active s4 = hap.ACTIVE /\ cached Active s4 = hap.ACTIVE /\
   refreshing (timers s4) = refreshing (timers s) /\
   fanUpdateInProgress s4 = false) /\
  commandsOf (emitted s4 (exec openAPIpushChanges s4)) = [].
Proof.
  intros T DA CA DS Hr Hs Hb Hp s2 s4.
  destruct (turn_on_exec s r0 _ T DA CA DS Hr) as (X & E2 & CX & NX).
  fold s2 in E2.
  destruct (transportOf_Cloud T) as (C & B & K).
  assert (T2 : trace (env s2) = trace (env s) ++ X) by (rewrite E2; reflexivity).
  assert (F2 : fanUpdateInProgress s2 = false) by (rewrite E2; reflexivity).
  assert (U2 : followUps (timers s2) = S (followUps (timers s)))
    by (rewrite E2; reflexivity).
  assert (A2 : desired Active s2 = hap.ACTIVE) by (rewrite E2; reflexivity).
  assert (K2 : cached Active s2 = hap.INACTIVE) by (rewrite E2; exact CA).
  assert (R2 : refreshing (timers s2) = refreshing (timers s)) by (rewrite E2; reflexivity).
  split; [rewrite (emitted_env _ _ _ T2); exact CX|].
  split; [auto|].
  pose proof (follow_up_exec s2 _ F2 U2) as E4. fold s4 in E4.
  set (s3 := with_timers _ s2) in E4.
  assert (R3 : responses (env s3) = Responds c (JsonObject d) :: rs)
    by (unfold s3; rewrite E2; reflexivity).
  assert (E4' : s4 = exec openAPIRefreshStatus s3).
  { rewrite E4. unfold refreshStatus. now rewrite C, B, K. }
  destruct (fan_fetch_trace s3) as (Y & TY & FY & _).
  rewrite <- E4' in TY.
  assert (T4 : trace (env s4)
               = trace (env s2) ++ [Log debug "openAPIRefreshStatus"; HttpGetStatus] ++ Y)
    by exact TY.
  split.
  { rewrite (emitted_env _ _ _ T4), networkIO_app, (networkIO_none Y FY). reflexivity. }
  pose proof (refreshStatus_guards device s3) as (G1 & _ & _ & G4).
  rewrite <- E4 in G1, G4.
  rewrite (fan_fetch_accepted_exec s3 c d rs R3 Hs) in E4'.
  destruct (fan_parse_fields d b (fanFetched rs s3) Hb)
    as (PA & PS & _ & _ & _ & _ & _ & _).
  set (s1 := exec (openAPIparseStatus d) (fanFetched rs s3)) in *.
  destruct (fan_update_effect s1)
    as (_ & EF & _ & _ & _ & _ & _ & UA & _ & US & _).
  rewrite <- E4' in EF, UA, US.
  assert (DA4 : desired Active s4 = hap.ACTIVE).
  { unfold desired. rewrite EF, PA. unfold activeOf. rewrite Hp. reflexivity. }
  assert (KA4 : cached Active s4 = hap.ACTIVE).
  { unfold cached. rewrite UA, PA. unfold activeOf. rewrite Hp. reflexivity. }
  assert (DS4 : desired SwingMode s4 = swingModeOf b)
    by (unfold desired; now rewrite EF).
  assert (KS4 : cached SwingMode s4 = swingModeOf b).
  { unfold cached. rewrite US, PS. apply kept_constant. }
  split.
  { split; [exact DA4|]. split; [exact KA4|]. split.
    - rewrite G4. unfold s3. rewrite E2. reflexivity.
    - rewrite G1. exact F2. }
  rewrite openAPIpushChanges_commands.
  unfold powerCommand, speedCommand, oscillationCommand, differs.
  rewrite DA4, KA4, DS4, KS4. unfold strict_neq, swingModeOf.
  destruct (strict_eq (oscillation b) (JStr "on")); reflexivity.
Qed.

End RoundTrip.

Lemma turn_on_round_trip_witness :
  commandsOf
    (emitted (idleBefore fanReport)
       (@Fan.run FanObs.decimal FanObs.cloud turnOnInputs (idleBefore fanReport)))
  = [FanObs.fanOn] /\
  FanObs.cached FanObs.Active
    (@Fan.run FanObs.decimal FanObs.cloud followUpInputs
       (@Fan.run FanObs.decimal FanObs.cloud turnOnInputs (idleBefore fanReport)))
  = hap.ACTIVE.
Proof.
  destruct (@turn_on_round_trip FanObs.decimal FanObs.cloud (idleBefore fanReport)
              (Responds (JNum 200)
                 (JsonObject {| ds_statusCode := JNum 100; ds_body := None |}))
              (JNum 200) {| ds_statusCode := JNum 100; ds_body := Some fanReport |}
              fanReport [] eq_refl eq_refl eq_refl eq_refl eq_refl eq_refl eq_refl eq_refl)
    as (C & _ & _ & (_ & K & _) & _).
  split; [exact C | exact K].
Defined.

(** ** What a dispatch cycle does not send *)

Section NotSent.
Import Fan FanObs.
Context `{Conversions}.
Variable device : Config.

Lemma pushChanges_body s :
  exists m,
    pushChanges device = (m ;; modify (with_timers armFollowUp)) /\
    (pushThrows device s = false ->
     (transportOf device = Radio -> differs Active s = false) ->
     (transportOf device = Cloud -> forall f, strict_eq (desired f s) (cached f s) = true) ->
     does m s []).
Proof.
  unfold pushChanges, pushThrows, transportOf.
  destruct (negb (enableCloudService device) && OpenAPI device).
  { eexists. split; [reflexivity|]. intros _ _ _. apply does_log. }
  destruct (BLE device).
  { eexists. split; [reflexivity|]. intros _ R _.
    apply does_BLEpushChanges_idle. now apply R. }
  destruct (OpenAPI device && token device).
  - eexists. split; [reflexivity|]. intros _ _ Cl.
    apply does_openAPIpushChanges_idle. now apply Cl.
  - eexists. split; [reflexivity|]. intros _ _ _.
    apply (does_bind _ _ _ [] [] (does_offlineOff device s)). apply does_log.
Qed.

Lemma quiet_dispatch s :
  (transportOf device = Radio -> differs Active s = false) ->
  (transportOf device = Cloud -> forall f, strict_eq (desired f s) (cached f s) = true) ->
  let s' := exec (onFanUpdate device) s in
  outcome (pushChanges device) s = Returns tt /\
  networkIO (emitted s s') = [] /\
  pending (env s') = pending (env s) /\
  Fan s' = Fan s /\ LightBulb s' = LightBulb s /\ context s' = context s /\
  fanUpdateInProgress s' = false /\
  followUps (timers s') = S (followUps (timers s)).
Proof.
  intros R Cl s'.
  assert (N : pushThrows device s = false).
  { unfold pushThrows. destruct (transportOf device); try reflexivity.
    now rewrite (R eq_refl). }
  destruct (pushChanges_body s) as (m & E & D). specialize (D N R Cl).
  destruct (does_armed m s [] D) as (O & X). rewrite <- E in O, X.
  destruct (onFanUpdate_returned device s O) as (_ & X2).
  destruct D as (_ & (EF & _ & EL & EC & _ & ET) & EP & Y & TY & NY).
  assert (T : trace (env s') = trace (env s) ++ Y).
  { unfold s'. rewrite X2, X. exact TY. }
  split; [exact O|].
  split; [rewrite (emitted_env _ _ _ T); exact NY|].
  unfold s'. rewrite X2, X. cbn. rewrite ET. repeat split; assumption.
Qed.

(** X27: over the radio only the power is dispatched.  For a device
    whose transport is the radio, a dispatch cycle in which the desired
    Active is the cached one sends nothing, starts no discovery and
    leaves no work behind, whatever speed and oscillation the hub has
    asked for: those two are never sent over the radio.  The cycle
    returns, lowers the flag and arms the follow-up refresh as
    always. *)
Theorem radio_dispatch_sends_power_only s :
  transportOf device = Radio ->
  differs Active s = false ->
  let s' := exec (onFanUpdate device) s in
  networkIO (emitted s s') = [] /\
  pending (env s') = pending (env s) /\
  (forall f, desired f s' = desired f s /\ cached f s' = cached f s) /\
  fanUpdateInProgress s' = false /\
  followUps (timers s') = S (followUps (timers s)).
Proof.
  intros T D s'.
  destruct (quiet_dispatch s (fun _ => D)) as (_ & N & P & EF & _ & EC & Fl & Fu).
  { rewrite T. discriminate. }
  fold s' in N, P, EF, EC, Fl, Fu.
  repeat (split; [assumption|]). split; [|auto].
  intros f. unfold desired, cached. now rewrite EF, EC.
Qed.

(** X28: the hub sets On or Brightness of the light.  The setter raises
    the flag and arms the debounce timer like any other, but when the
    timer fires nothing is sent: a dispatch cycle looks at Active,
    RotationSpeed and SwingMode only.  From a state whose desired fan
    values are the cached ones, the value is stored, no transport is
    used, no work is left behind, and a follow-up refresh is armed all
    the same. *)
Theorem light_setters_send_nothing s c v :
  c = onOn \/ c = onBrightness ->
  (forall f, strict_eq (desired f s) (cached f s) = true) ->
  let s2 := run device [HubSet c v; DebounceElapsed] s in
  requested c s2 = v /\
  networkIO (emitted s s2) = [] /\
  pending (env s2) = pending (env s) /\
  Fan s2 = Fan s /\ context s2 = context s /\
  fanUpdateInProgress s2 = false /\
  followUps (timers s2) = S (followUps (timers s)).
Proof.
  intros Hc Idle s2.
  destruct (hubSet_effect c v s)
    as (EF & EL & _ & EC & Fu & _ & _ & EP & (X & TX & FX) & _ & Arm & Rq).
  set (s1 := exec (hubSet c v) s) in *.
  assert (EF' : Fan s1 = Fan s).
  { rewrite EF. now destruct Hc as [-> | ->]. }
  assert (E2 : s2 = exec (onFanUpdate device) (with_timers disarmDebounce s1)).
  { unfold s2. cbn [run fold_left step]. fold s1.
    unfold exec at 1, bind, get. cbn [fst snd]. rewrite Arm. reflexivity. }
  set (t := with_timers disarmDebounce s1) in *.
  assert (It : forall f, strict_eq (desired f t) (cached f t) = true).
  { intros f. specialize (Idle f). unfold desired, cached in *. unfold t. cbn.
    rewrite EF', EC. exact Idle. }
  destruct (quiet_dispatch t) as (_ & N & P & QF & QL & QC & Fl & QU).
  { intros _. apply differs_false. apply It. }
  { intros _. exact It. }
  rewrite <- E2 in N, P, QF, QL, QC, Fl, QU.
  assert (TY : exists Y, trace (env s2) = trace (env t) ++ Y /\ networkIO Y = []).
  { destruct (pushChanges_body t) as (m & E & D).
    assert (Nt : pushThrows device t = false).
    { unfold pushThrows. destruct (transportOf device); try reflexivity.
      now rewrite (differs_false _ _ (It Active)). }
    specialize (D Nt (fun _ => differs_false _ _ (It Active)) (fun _ => It)).
    destruct (does_armed m t [] D) as (O & Xe). rewrite <- E in O, Xe.
    destruct (onFanUpdate_returned device t O) as (_ & X2).
    destruct D as (_ & _ & _ & Y & TY & NY). exists Y.
    split; [|exact NY]. rewrite E2, X2, Xe. exact TY. }
  destruct TY as (Y & TY & NY).
  assert (T : trace (env s2) = trace (env s) ++ (X ++ Y)).
  { rewrite TY. unfold t. cbn. change (trace (env s1) = trace (env s) ++ X) in TX.
    rewrite TX. now rewrite <- app_assoc. }
  split.
  { destruct Hc as [-> | ->]; unfold requested in *; rewrite QL; exact Rq. }
  split.
  { rewrite (emitted_env _ _ _ T), networkIO_app, NY, (networkIO_logs X FX).
    reflexivity. }
  split; [rewrite P; unfold t; cbn; exact EP|].
  split; [rewrite QF; unfold t; cbn; exact EF'|].
  split; [rewrite QC; unfold t; cbn; exact EC|].
  split; [exact Fl|].
  rewrite QU. unfold t. cbn. now rewrite Fu.
Qed.

End NotSent.

Lemma radio_dispatch_sends_power_only_witness :
  FanObs.differs FanObs.RotationSpeed FanObs.faster = true /\
  networkIO (emitted FanObs.faster
               (exec (@Fan.onFanUpdate FanObs.decimal FanObs.radio) FanObs.faster)) = [].
Proof.
  split; [reflexivity|].
  destruct (@radio_dispatch_sends_power_only FanObs.decimal FanObs.radio FanObs.faster
              eq_refl eq_refl)
    as (G & _).
  exact G.
Defined.

Lemma light_setters_send_nothing_witness :
  networkIO
    (emitted FanObs.running
       (@Fan.run FanObs.decimal FanObs.cloud
          [Fan.HubSet Fan.onBrightness (JNum 60); Fan.DebounceElapsed] FanObs.running))
  = [].
Proof.
  assert (Idle : forall f,
            strict_eq (FanObs.desired f FanObs.running) (FanObs.cached f FanObs.running)
            = true).
  { intros f. destruct f; reflexivity. }
  destruct (@light_setters_send_nothing FanObs.decimal FanObs.cloud FanObs.running
              Fan.onBrightness (JNum 60) (or_intror eq_refl) Idle) as (_ & G & _).
  exact G.
Defined.
